(** * Budget Fair Queueing: dispatch controller and budget engine

    A shallow embedding of [block/bfq-iosched.c].  Every C function that
    is modelled keeps its name.  The model follows the C control flow
    statement by statement; machine arithmetic on [unsigned long],
    [sector_t] and [u64] is written with explicit reduction modulo 2^64,
    [unsigned int] with reduction modulo 2^32.  [int] counters
    ([dispatched], [busy_queues], ...) are kept as unbounded integers:
    the C code never relies on their overflow.

    The file includes [bfq.h], [bfq-ioc.c], [bfq-sched.c] and
    [bfq-cgroup.c], which hold the type declarations, the flag helpers
    and the B-WF2Q+ service trees.  The service trees are kept abstract
    (class [BfqSched]); the small helpers of those files that touch
    fields read by this file are modelled from the design document and
    marked as such. *)

From Stdlib Require Import ZArith Lia Bool List.
From stdpp Require Import base option list gmap.
Local Open Scope Z_scope.

(** ** Machine arithmetic *)

Module Word.
(** Value of an expression stored in a 64-bit unsigned object
    ([unsigned long], [sector_t], [u64], [bfq_service_t]). *)
Definition u64 (x : Z) : Z := x mod 2 ^ 64.
(** Value of an expression stored in an [unsigned int]. *)
Definition u32 (x : Z) : Z := x mod 2 ^ 32.
(** The cast [(long) x] of a 64-bit pattern. *)
Definition s64 (x : Z) : Z := (x + 2 ^ 63) mod 2 ^ 64 - 2 ^ 63.
Definition LONG_MAX : Z := 2 ^ 63 - 1.
Definition INT_MAX : Z := 2 ^ 31 - 1.
(** [time_before(a, b)] of <linux/jiffies.h>:
    [((long)(a) - (long)(b) < 0)]. *)
Definition time_before (a b : Z) : bool := s64 (a - b) <? 0.
End Word.
Import Word.

(** ** Data model *)

(** [enum bfqq_expiration]. *)
Inductive bfqq_expiration :=
  | BFQ_BFQQ_TOO_IDLE
  | BFQ_BFQQ_BUDGET_TIMEOUT
  | BFQ_BFQQ_BUDGET_EXHAUSTED
  | BFQ_BFQQ_NO_MORE_REQUESTS.

#[global] Instance bfqq_expiration_eq_dec : EqDecision bfqq_expiration.
Proof. solve_decision. Defined.

(** The I/O priority classes of <linux/ioprio.h>. *)
Inductive ioprio_class_t :=
  | IOPRIO_CLASS_NONE
  | IOPRIO_CLASS_RT
  | IOPRIO_CLASS_BE
  | IOPRIO_CLASS_IDLE.

#[global] Instance ioprio_class_eq_dec : EqDecision ioprio_class_t.
Proof. solve_decision. Defined.

(** A [struct request], reduced to what the scheduler reads.  [rq_id]
    stands for the address of the request: pointer comparisons in the C
    code compare [rq_id]s.  [RQ_CIC] and [RQ_BFQQ] are the two
    [elevator_private] back pointers, as keys of the maps below. *)
Record request := {
  rq_id : nat;
  blk_rq_pos : Z;
  blk_rq_sectors : Z;
  rq_is_sync : bool;
  rq_is_meta : bool;
  rq_fifo_time : Z;
  RQ_CIC : nat;
  RQ_BFQQ : nat;
}.

(** The part of [struct bfq_entity] this file reads and writes. *)
Record bfq_entity := {
  budget : Z;
  service : Z;
  ioprio_class : ioprio_class_t;
}.

(** [struct bfq_queue].  [sort_list] is the in-order content of the
    per-queue red-black tree (ascending sector), [fifo] the arrival
    list.  The [flag_*] fields are the bits handled by the
    [bfq_mark_bfqq_*], [bfq_clear_bfqq_*] and [bfq_bfqq_*] helpers. *)
Record bfq_queue := {
  entity : bfq_entity;
  sort_list : list request;
  fifo : list request;
  next_rq : option request;
  queued_async : Z;
  queued_sync : Z;
  meta_pending : Z;
  dispatched : Z;
  max_budget : Z;
  budget_timeout : Z;
  budgets_assigned : Z;
  flag_busy : bool;
  flag_wait_request : bool;
  flag_must_alloc : bool;
  flag_fifo_expire : bool;
  flag_idle_window : bool;
  flag_prio_changed : bool;
  flag_sync : bool;
  flag_budget_new : bool;
}.

(** The part of [struct cfq_io_context] read by the idling code;
    [nr_tasks] is [cic->ioc->nr_tasks]. *)
Record cfq_io_context := {
  nr_tasks : Z;
  seek_samples : Z;
  seek_mean : Z;
  last_end_request : Z;
}.

(** The tunables of [struct bfq_data] ([unsigned int] each, written
    only by the sysfs store functions). *)
Record bfq_tunables := {
  bfq_quantum : Z;
  bfq_back_max : Z;
  bfq_back_penalty : Z;
  bfq_slice_idle : Z;
  bfq_user_max_budget : Z;
  bfq_max_budget_async_rq : Z;
  bfq_timeout_async : Z;
  bfq_timeout_sync : Z;
  bfq_desktop : Z;
}.

(** The [expire (reason, slow)] message that [bfq_bfqq_expire] sends to
    the block trace; the other trace messages are not recorded. *)
Inductive bfq_event :=
  | LogExpire (q : nat) (reason : bfqq_expiration) (slow : bool).

(** [struct bfq_data], parametric in the state [T] of the service trees.
    Queues and io contexts are held in maps keyed by their address;
    [idle_slice_timer] is [Some expires] while the timer is pending;
    [unplug_work] is set once the work item has been handed to kblockd;
    [dispatch_list] is the dispatch list of the request queue. *)
Record bfq_data (T : Type) := {
  queues : gmap nat bfq_queue;
  cics : gmap nat cfq_io_context;
  sched : T;
  active_queue : option nat;
  active_cic : option nat;
  busy_queues : Z;
  queued : Z;
  sync_flight : Z;
  rq_in_driver_async : Z;
  rq_in_driver_sync : Z;
  max_rq_in_driver : Z;
  hw_tag_samples : Z;
  hw_tag : bool;
  last_position : Z;
  last_budget_start : Z;
  last_idling_start : Z;
  idle_slice_timer : option Z;
  unplug_work : bool;
  peak_rate : Z;
  peak_rate_samples : Z;
  bfq_max_budget : Z;
  tun : bfq_tunables;
  dispatch_list : list request;
  blktrace : list bfq_event;
}.
Arguments queues {T} _.
Arguments cics {T} _.
Arguments sched {T} _.
Arguments active_queue {T} _.
Arguments active_cic {T} _.
Arguments busy_queues {T} _.
Arguments queued {T} _.
Arguments sync_flight {T} _.
Arguments rq_in_driver_async {T} _.
Arguments rq_in_driver_sync {T} _.
Arguments max_rq_in_driver {T} _.
Arguments hw_tag_samples {T} _.
Arguments hw_tag {T} _.
Arguments last_position {T} _.
Arguments last_budget_start {T} _.
Arguments last_idling_start {T} _.
Arguments idle_slice_timer {T} _.
Arguments unplug_work {T} _.
Arguments peak_rate {T} _.
Arguments peak_rate_samples {T} _.
Arguments bfq_max_budget {T} _.
Arguments tun {T} _.
Arguments dispatch_list {T} _.
Arguments blktrace {T} _.

(** Field updates ([r->f = v]). *)

Definition set_budget (v : Z) (r : bfq_entity) : bfq_entity :=
  {| budget := v; service := service r; ioprio_class := ioprio_class r |}.
Definition set_service (v : Z) (r : bfq_entity) : bfq_entity :=
  {| budget := budget r; service := v; ioprio_class := ioprio_class r |}.

Definition set_entity (v : bfq_entity) (r : bfq_queue) : bfq_queue :=
  {| entity := v; sort_list := sort_list r; fifo := fifo r; next_rq :=
     next_rq r; queued_async := queued_async r; queued_sync := queued_sync
     r; meta_pending := meta_pending r; dispatched := dispatched r;
     max_budget := max_budget r; budget_timeout := budget_timeout r;
     budgets_assigned := budgets_assigned r; flag_busy := flag_busy r;
     flag_wait_request := flag_wait_request r; flag_must_alloc :=
     flag_must_alloc r; flag_fifo_expire := flag_fifo_expire r;
     flag_idle_window := flag_idle_window r; flag_prio_changed :=
     flag_prio_changed r; flag_sync := flag_sync r; flag_budget_new :=
     flag_budget_new r |}.
Definition set_sort_list (v : list request) (r : bfq_queue) : bfq_queue :=
  {| entity := entity r; sort_list := v; fifo := fifo r; next_rq :=
     next_rq r; queued_async := queued_async r; queued_sync := queued_sync
     r; meta_pending := meta_pending r; dispatched := dispatched r;
     max_budget := max_budget r; budget_timeout := budget_timeout r;
     budgets_assigned := budgets_assigned r; flag_busy := flag_busy r;
     flag_wait_request := flag_wait_request r; flag_must_alloc :=
     flag_must_alloc r; flag_fifo_expire := flag_fifo_expire r;
     flag_idle_window := flag_idle_window r; flag_prio_changed :=
     flag_prio_changed r; flag_sync := flag_sync r; flag_budget_new :=
     flag_budget_new r |}.
Definition set_fifo (v : list request) (r : bfq_queue) : bfq_queue :=
  {| entity := entity r; sort_list := sort_list r; fifo := v; next_rq :=
     next_rq r; queued_async := queued_async r; queued_sync := queued_sync
     r; meta_pending := meta_pending r; dispatched := dispatched r;
     max_budget := max_budget r; budget_timeout := budget_timeout r;
     budgets_assigned := budgets_assigned r; flag_busy := flag_busy r;
     flag_wait_request := flag_wait_request r; flag_must_alloc :=
     flag_must_alloc r; flag_fifo_expire := flag_fifo_expire r;
     flag_idle_window := flag_idle_window r; flag_prio_changed :=
     flag_prio_changed r; flag_sync := flag_sync r; flag_budget_new :=
     flag_budget_new r |}.
Definition set_next_rq (v : option request) (r : bfq_queue) : bfq_queue :=
  {| entity := entity r; sort_list := sort_list r; fifo := fifo r; next_rq
     := v; queued_async := queued_async r; queued_sync := queued_sync r;
     meta_pending := meta_pending r; dispatched := dispatched r;
     max_budget := max_budget r; budget_timeout := budget_timeout r;
     budgets_assigned := budgets_assigned r; flag_busy := flag_busy r;
     flag_wait_request := flag_wait_request r; flag_must_alloc :=
     flag_must_alloc r; flag_fifo_expire := flag_fifo_expire r;
     flag_idle_window := flag_idle_window r; flag_prio_changed :=
     flag_prio_changed r; flag_sync := flag_sync r; flag_budget_new :=
     flag_budget_new r |}.
Definition set_queued_async (v : Z) (r : bfq_queue) : bfq_queue :=
  {| entity := entity r; sort_list := sort_list r; fifo := fifo r; next_rq
     := next_rq r; queued_async := v; queued_sync := queued_sync r;
     meta_pending := meta_pending r; dispatched := dispatched r;
     max_budget := max_budget r; budget_timeout := budget_timeout r;
     budgets_assigned := budgets_assigned r; flag_busy := flag_busy r;
     flag_wait_request := flag_wait_request r; flag_must_alloc :=
     flag_must_alloc r; flag_fifo_expire := flag_fifo_expire r;
     flag_idle_window := flag_idle_window r; flag_prio_changed :=
     flag_prio_changed r; flag_sync := flag_sync r; flag_budget_new :=
     flag_budget_new r |}.
Definition set_queued_sync (v : Z) (r : bfq_queue) : bfq_queue :=
  {| entity := entity r; sort_list := sort_list r; fifo := fifo r; next_rq
     := next_rq r; queued_async := queued_async r; queued_sync := v;
     meta_pending := meta_pending r; dispatched := dispatched r;
     max_budget := max_budget r; budget_timeout := budget_timeout r;
     budgets_assigned := budgets_assigned r; flag_busy := flag_busy r;
     flag_wait_request := flag_wait_request r; flag_must_alloc :=
     flag_must_alloc r; flag_fifo_expire := flag_fifo_expire r;
     flag_idle_window := flag_idle_window r; flag_prio_changed :=
     flag_prio_changed r; flag_sync := flag_sync r; flag_budget_new :=
     flag_budget_new r |}.
Definition set_meta_pending (v : Z) (r : bfq_queue) : bfq_queue :=
  {| entity := entity r; sort_list := sort_list r; fifo := fifo r; next_rq
     := next_rq r; queued_async := queued_async r; queued_sync :=
     queued_sync r; meta_pending := v; dispatched := dispatched r;
     max_budget := max_budget r; budget_timeout := budget_timeout r;
     budgets_assigned := budgets_assigned r; flag_busy := flag_busy r;
     flag_wait_request := flag_wait_request r; flag_must_alloc :=
     flag_must_alloc r; flag_fifo_expire := flag_fifo_expire r;
     flag_idle_window := flag_idle_window r; flag_prio_changed :=
     flag_prio_changed r; flag_sync := flag_sync r; flag_budget_new :=
     flag_budget_new r |}.
Definition set_dispatched (v : Z) (r : bfq_queue) : bfq_queue :=
  {| entity := entity r; sort_list := sort_list r; fifo := fifo r; next_rq
     := next_rq r; queued_async := queued_async r; queued_sync :=
     queued_sync r; meta_pending := meta_pending r; dispatched := v;
     max_budget := max_budget r; budget_timeout := budget_timeout r;
     budgets_assigned := budgets_assigned r; flag_busy := flag_busy r;
     flag_wait_request := flag_wait_request r; flag_must_alloc :=
     flag_must_alloc r; flag_fifo_expire := flag_fifo_expire r;
     flag_idle_window := flag_idle_window r; flag_prio_changed :=
     flag_prio_changed r; flag_sync := flag_sync r; flag_budget_new :=
     flag_budget_new r |}.
Definition set_max_budget (v : Z) (r : bfq_queue) : bfq_queue :=
  {| entity := entity r; sort_list := sort_list r; fifo := fifo r; next_rq
     := next_rq r; queued_async := queued_async r; queued_sync :=
     queued_sync r; meta_pending := meta_pending r; dispatched :=
     dispatched r; max_budget := v; budget_timeout := budget_timeout r;
     budgets_assigned := budgets_assigned r; flag_busy := flag_busy r;
     flag_wait_request := flag_wait_request r; flag_must_alloc :=
     flag_must_alloc r; flag_fifo_expire := flag_fifo_expire r;
     flag_idle_window := flag_idle_window r; flag_prio_changed :=
     flag_prio_changed r; flag_sync := flag_sync r; flag_budget_new :=
     flag_budget_new r |}.
Definition set_budget_timeout (v : Z) (r : bfq_queue) : bfq_queue :=
  {| entity := entity r; sort_list := sort_list r; fifo := fifo r; next_rq
     := next_rq r; queued_async := queued_async r; queued_sync :=
     queued_sync r; meta_pending := meta_pending r; dispatched :=
     dispatched r; max_budget := max_budget r; budget_timeout := v;
     budgets_assigned := budgets_assigned r; flag_busy := flag_busy r;
     flag_wait_request := flag_wait_request r; flag_must_alloc :=
     flag_must_alloc r; flag_fifo_expire := flag_fifo_expire r;
     flag_idle_window := flag_idle_window r; flag_prio_changed :=
     flag_prio_changed r; flag_sync := flag_sync r; flag_budget_new :=
     flag_budget_new r |}.
Definition set_budgets_assigned (v : Z) (r : bfq_queue) : bfq_queue :=
  {| entity := entity r; sort_list := sort_list r; fifo := fifo r; next_rq
     := next_rq r; queued_async := queued_async r; queued_sync :=
     queued_sync r; meta_pending := meta_pending r; dispatched :=
     dispatched r; max_budget := max_budget r; budget_timeout :=
     budget_timeout r; budgets_assigned := v; flag_busy := flag_busy r;
     flag_wait_request := flag_wait_request r; flag_must_alloc :=
     flag_must_alloc r; flag_fifo_expire := flag_fifo_expire r;
     flag_idle_window := flag_idle_window r; flag_prio_changed :=
     flag_prio_changed r; flag_sync := flag_sync r; flag_budget_new :=
     flag_budget_new r |}.
Definition set_flag_busy (v : bool) (r : bfq_queue) : bfq_queue :=
  {| entity := entity r; sort_list := sort_list r; fifo := fifo r; next_rq
     := next_rq r; queued_async := queued_async r; queued_sync :=
     queued_sync r; meta_pending := meta_pending r; dispatched :=
     dispatched r; max_budget := max_budget r; budget_timeout :=
     budget_timeout r; budgets_assigned := budgets_assigned r; flag_busy
     := v; flag_wait_request := flag_wait_request r; flag_must_alloc :=
     flag_must_alloc r; flag_fifo_expire := flag_fifo_expire r;
     flag_idle_window := flag_idle_window r; flag_prio_changed :=
     flag_prio_changed r; flag_sync := flag_sync r; flag_budget_new :=
     flag_budget_new r |}.
Definition set_flag_wait_request (v : bool) (r : bfq_queue) : bfq_queue :=
  {| entity := entity r; sort_list := sort_list r; fifo := fifo r; next_rq
     := next_rq r; queued_async := queued_async r; queued_sync :=
     queued_sync r; meta_pending := meta_pending r; dispatched :=
     dispatched r; max_budget := max_budget r; budget_timeout :=
     budget_timeout r; budgets_assigned := budgets_assigned r; flag_busy
     := flag_busy r; flag_wait_request := v; flag_must_alloc :=
     flag_must_alloc r; flag_fifo_expire := flag_fifo_expire r;
     flag_idle_window := flag_idle_window r; flag_prio_changed :=
     flag_prio_changed r; flag_sync := flag_sync r; flag_budget_new :=
     flag_budget_new r |}.
Definition set_flag_must_alloc (v : bool) (r : bfq_queue) : bfq_queue :=
  {| entity := entity r; sort_list := sort_list r; fifo := fifo r; next_rq
     := next_rq r; queued_async := queued_async r; queued_sync :=
     queued_sync r; meta_pending := meta_pending r; dispatched :=
     dispatched r; max_budget := max_budget r; budget_timeout :=
     budget_timeout r; budgets_assigned := budgets_assigned r; flag_busy
     := flag_busy r; flag_wait_request := flag_wait_request r;
     flag_must_alloc := v; flag_fifo_expire := flag_fifo_expire r;
     flag_idle_window := flag_idle_window r; flag_prio_changed :=
     flag_prio_changed r; flag_sync := flag_sync r; flag_budget_new :=
     flag_budget_new r |}.
Definition set_flag_fifo_expire (v : bool) (r : bfq_queue) : bfq_queue :=
  {| entity := entity r; sort_list := sort_list r; fifo := fifo r; next_rq
     := next_rq r; queued_async := queued_async r; queued_sync :=
     queued_sync r; meta_pending := meta_pending r; dispatched :=
     dispatched r; max_budget := max_budget r; budget_timeout :=
     budget_timeout r; budgets_assigned := budgets_assigned r; flag_busy
     := flag_busy r; flag_wait_request := flag_wait_request r;
     flag_must_alloc := flag_must_alloc r; flag_fifo_expire := v;
     flag_idle_window := flag_idle_window r; flag_prio_changed :=
     flag_prio_changed r; flag_sync := flag_sync r; flag_budget_new :=
     flag_budget_new r |}.
Definition set_flag_budget_new (v : bool) (r : bfq_queue) : bfq_queue :=
  {| entity := entity r; sort_list := sort_list r; fifo := fifo r; next_rq
     := next_rq r; queued_async := queued_async r; queued_sync :=
     queued_sync r; meta_pending := meta_pending r; dispatched :=
     dispatched r; max_budget := max_budget r; budget_timeout :=
     budget_timeout r; budgets_assigned := budgets_assigned r; flag_busy
     := flag_busy r; flag_wait_request := flag_wait_request r;
     flag_must_alloc := flag_must_alloc r; flag_fifo_expire :=
     flag_fifo_expire r; flag_idle_window := flag_idle_window r;
     flag_prio_changed := flag_prio_changed r; flag_sync := flag_sync r;
     flag_budget_new := v |}.

Definition set_last_end_request (v : Z) (r : cfq_io_context) : cfq_io_context :=
  {| nr_tasks := nr_tasks r; seek_samples := seek_samples r; seek_mean :=
     seek_mean r; last_end_request := v |}.

Definition set_queues {T} (v : gmap nat bfq_queue) (r : bfq_data T) : bfq_data T :=
  {| queues := v; cics := cics r; sched := sched r; active_queue :=
     active_queue r; active_cic := active_cic r; busy_queues :=
     busy_queues r; queued := queued r; sync_flight := sync_flight r;
     rq_in_driver_async := rq_in_driver_async r; rq_in_driver_sync :=
     rq_in_driver_sync r; max_rq_in_driver := max_rq_in_driver r;
     hw_tag_samples := hw_tag_samples r; hw_tag := hw_tag r; last_position
     := last_position r; last_budget_start := last_budget_start r;
     last_idling_start := last_idling_start r; idle_slice_timer :=
     idle_slice_timer r; unplug_work := unplug_work r; peak_rate :=
     peak_rate r; peak_rate_samples := peak_rate_samples r; bfq_max_budget
     := bfq_max_budget r; tun := tun r; dispatch_list := dispatch_list r;
     blktrace := blktrace r |}.
Definition set_cics {T} (v : gmap nat cfq_io_context) (r : bfq_data T) : bfq_data T :=
  {| queues := queues r; cics := v; sched := sched r; active_queue :=
     active_queue r; active_cic := active_cic r; busy_queues :=
     busy_queues r; queued := queued r; sync_flight := sync_flight r;
     rq_in_driver_async := rq_in_driver_async r; rq_in_driver_sync :=
     rq_in_driver_sync r; max_rq_in_driver := max_rq_in_driver r;
     hw_tag_samples := hw_tag_samples r; hw_tag := hw_tag r; last_position
     := last_position r; last_budget_start := last_budget_start r;
     last_idling_start := last_idling_start r; idle_slice_timer :=
     idle_slice_timer r; unplug_work := unplug_work r; peak_rate :=
     peak_rate r; peak_rate_samples := peak_rate_samples r; bfq_max_budget
     := bfq_max_budget r; tun := tun r; dispatch_list := dispatch_list r;
     blktrace := blktrace r |}.
Definition set_sched {T} (v : T) (r : bfq_data T) : bfq_data T :=
  {| queues := queues r; cics := cics r; sched := v; active_queue :=
     active_queue r; active_cic := active_cic r; busy_queues :=
     busy_queues r; queued := queued r; sync_flight := sync_flight r;
     rq_in_driver_async := rq_in_driver_async r; rq_in_driver_sync :=
     rq_in_driver_sync r; max_rq_in_driver := max_rq_in_driver r;
     hw_tag_samples := hw_tag_samples r; hw_tag := hw_tag r; last_position
     := last_position r; last_budget_start := last_budget_start r;
     last_idling_start := last_idling_start r; idle_slice_timer :=
     idle_slice_timer r; unplug_work := unplug_work r; peak_rate :=
     peak_rate r; peak_rate_samples := peak_rate_samples r; bfq_max_budget
     := bfq_max_budget r; tun := tun r; dispatch_list := dispatch_list r;
     blktrace := blktrace r |}.
Definition set_active_queue {T} (v : option nat) (r : bfq_data T) : bfq_data T :=
  {| queues := queues r; cics := cics r; sched := sched r; active_queue :=
     v; active_cic := active_cic r; busy_queues := busy_queues r; queued
     := queued r; sync_flight := sync_flight r; rq_in_driver_async :=
     rq_in_driver_async r; rq_in_driver_sync := rq_in_driver_sync r;
     max_rq_in_driver := max_rq_in_driver r; hw_tag_samples :=
     hw_tag_samples r; hw_tag := hw_tag r; last_position := last_position
     r; last_budget_start := last_budget_start r; last_idling_start :=
     last_idling_start r; idle_slice_timer := idle_slice_timer r;
     unplug_work := unplug_work r; peak_rate := peak_rate r;
     peak_rate_samples := peak_rate_samples r; bfq_max_budget :=
     bfq_max_budget r; tun := tun r; dispatch_list := dispatch_list r;
     blktrace := blktrace r |}.
Definition set_active_cic {T} (v : option nat) (r : bfq_data T) : bfq_data T :=
  {| queues := queues r; cics := cics r; sched := sched r; active_queue :=
     active_queue r; active_cic := v; busy_queues := busy_queues r; queued
     := queued r; sync_flight := sync_flight r; rq_in_driver_async :=
     rq_in_driver_async r; rq_in_driver_sync := rq_in_driver_sync r;
     max_rq_in_driver := max_rq_in_driver r; hw_tag_samples :=
     hw_tag_samples r; hw_tag := hw_tag r; last_position := last_position
     r; last_budget_start := last_budget_start r; last_idling_start :=
     last_idling_start r; idle_slice_timer := idle_slice_timer r;
     unplug_work := unplug_work r; peak_rate := peak_rate r;
     peak_rate_samples := peak_rate_samples r; bfq_max_budget :=
     bfq_max_budget r; tun := tun r; dispatch_list := dispatch_list r;
     blktrace := blktrace r |}.
Definition set_busy_queues {T} (v : Z) (r : bfq_data T) : bfq_data T :=
  {| queues := queues r; cics := cics r; sched := sched r; active_queue :=
     active_queue r; active_cic := active_cic r; busy_queues := v; queued
     := queued r; sync_flight := sync_flight r; rq_in_driver_async :=
     rq_in_driver_async r; rq_in_driver_sync := rq_in_driver_sync r;
     max_rq_in_driver := max_rq_in_driver r; hw_tag_samples :=
     hw_tag_samples r; hw_tag := hw_tag r; last_position := last_position
     r; last_budget_start := last_budget_start r; last_idling_start :=
     last_idling_start r; idle_slice_timer := idle_slice_timer r;
     unplug_work := unplug_work r; peak_rate := peak_rate r;
     peak_rate_samples := peak_rate_samples r; bfq_max_budget :=
     bfq_max_budget r; tun := tun r; dispatch_list := dispatch_list r;
     blktrace := blktrace r |}.
Definition set_queued {T} (v : Z) (r : bfq_data T) : bfq_data T :=
  {| queues := queues r; cics := cics r; sched := sched r; active_queue :=
     active_queue r; active_cic := active_cic r; busy_queues :=
     busy_queues r; queued := v; sync_flight := sync_flight r;
     rq_in_driver_async := rq_in_driver_async r; rq_in_driver_sync :=
     rq_in_driver_sync r; max_rq_in_driver := max_rq_in_driver r;
     hw_tag_samples := hw_tag_samples r; hw_tag := hw_tag r; last_position
     := last_position r; last_budget_start := last_budget_start r;
     last_idling_start := last_idling_start r; idle_slice_timer :=
     idle_slice_timer r; unplug_work := unplug_work r; peak_rate :=
     peak_rate r; peak_rate_samples := peak_rate_samples r; bfq_max_budget
     := bfq_max_budget r; tun := tun r; dispatch_list := dispatch_list r;
     blktrace := blktrace r |}.
Definition set_sync_flight {T} (v : Z) (r : bfq_data T) : bfq_data T :=
  {| queues := queues r; cics := cics r; sched := sched r; active_queue :=
     active_queue r; active_cic := active_cic r; busy_queues :=
     busy_queues r; queued := queued r; sync_flight := v;
     rq_in_driver_async := rq_in_driver_async r; rq_in_driver_sync :=
     rq_in_driver_sync r; max_rq_in_driver := max_rq_in_driver r;
     hw_tag_samples := hw_tag_samples r; hw_tag := hw_tag r; last_position
     := last_position r; last_budget_start := last_budget_start r;
     last_idling_start := last_idling_start r; idle_slice_timer :=
     idle_slice_timer r; unplug_work := unplug_work r; peak_rate :=
     peak_rate r; peak_rate_samples := peak_rate_samples r; bfq_max_budget
     := bfq_max_budget r; tun := tun r; dispatch_list := dispatch_list r;
     blktrace := blktrace r |}.
Definition set_rq_in_driver_async {T} (v : Z) (r : bfq_data T) : bfq_data T :=
  {| queues := queues r; cics := cics r; sched := sched r; active_queue :=
     active_queue r; active_cic := active_cic r; busy_queues :=
     busy_queues r; queued := queued r; sync_flight := sync_flight r;
     rq_in_driver_async := v; rq_in_driver_sync := rq_in_driver_sync r;
     max_rq_in_driver := max_rq_in_driver r; hw_tag_samples :=
     hw_tag_samples r; hw_tag := hw_tag r; last_position := last_position
     r; last_budget_start := last_budget_start r; last_idling_start :=
     last_idling_start r; idle_slice_timer := idle_slice_timer r;
     unplug_work := unplug_work r; peak_rate := peak_rate r;
     peak_rate_samples := peak_rate_samples r; bfq_max_budget :=
     bfq_max_budget r; tun := tun r; dispatch_list := dispatch_list r;
     blktrace := blktrace r |}.
Definition set_rq_in_driver_sync {T} (v : Z) (r : bfq_data T) : bfq_data T :=
  {| queues := queues r; cics := cics r; sched := sched r; active_queue :=
     active_queue r; active_cic := active_cic r; busy_queues :=
     busy_queues r; queued := queued r; sync_flight := sync_flight r;
     rq_in_driver_async := rq_in_driver_async r; rq_in_driver_sync := v;
     max_rq_in_driver := max_rq_in_driver r; hw_tag_samples :=
     hw_tag_samples r; hw_tag := hw_tag r; last_position := last_position
     r; last_budget_start := last_budget_start r; last_idling_start :=
     last_idling_start r; idle_slice_timer := idle_slice_timer r;
     unplug_work := unplug_work r; peak_rate := peak_rate r;
     peak_rate_samples := peak_rate_samples r; bfq_max_budget :=
     bfq_max_budget r; tun := tun r; dispatch_list := dispatch_list r;
     blktrace := blktrace r |}.
Definition set_max_rq_in_driver {T} (v : Z) (r : bfq_data T) : bfq_data T :=
  {| queues := queues r; cics := cics r; sched := sched r; active_queue :=
     active_queue r; active_cic := active_cic r; busy_queues :=
     busy_queues r; queued := queued r; sync_flight := sync_flight r;
     rq_in_driver_async := rq_in_driver_async r; rq_in_driver_sync :=
     rq_in_driver_sync r; max_rq_in_driver := v; hw_tag_samples :=
     hw_tag_samples r; hw_tag := hw_tag r; last_position := last_position
     r; last_budget_start := last_budget_start r; last_idling_start :=
     last_idling_start r; idle_slice_timer := idle_slice_timer r;
     unplug_work := unplug_work r; peak_rate := peak_rate r;
     peak_rate_samples := peak_rate_samples r; bfq_max_budget :=
     bfq_max_budget r; tun := tun r; dispatch_list := dispatch_list r;
     blktrace := blktrace r |}.
Definition set_hw_tag_samples {T} (v : Z) (r : bfq_data T) : bfq_data T :=
  {| queues := queues r; cics := cics r; sched := sched r; active_queue :=
     active_queue r; active_cic := active_cic r; busy_queues :=
     busy_queues r; queued := queued r; sync_flight := sync_flight r;
     rq_in_driver_async := rq_in_driver_async r; rq_in_driver_sync :=
     rq_in_driver_sync r; max_rq_in_driver := max_rq_in_driver r;
     hw_tag_samples := v; hw_tag := hw_tag r; last_position :=
     last_position r; last_budget_start := last_budget_start r;
     last_idling_start := last_idling_start r; idle_slice_timer :=
     idle_slice_timer r; unplug_work := unplug_work r; peak_rate :=
     peak_rate r; peak_rate_samples := peak_rate_samples r; bfq_max_budget
     := bfq_max_budget r; tun := tun r; dispatch_list := dispatch_list r;
     blktrace := blktrace r |}.
Definition set_hw_tag {T} (v : bool) (r : bfq_data T) : bfq_data T :=
  {| queues := queues r; cics := cics r; sched := sched r; active_queue :=
     active_queue r; active_cic := active_cic r; busy_queues :=
     busy_queues r; queued := queued r; sync_flight := sync_flight r;
     rq_in_driver_async := rq_in_driver_async r; rq_in_driver_sync :=
     rq_in_driver_sync r; max_rq_in_driver := max_rq_in_driver r;
     hw_tag_samples := hw_tag_samples r; hw_tag := v; last_position :=
     last_position r; last_budget_start := last_budget_start r;
     last_idling_start := last_idling_start r; idle_slice_timer :=
     idle_slice_timer r; unplug_work := unplug_work r; peak_rate :=
     peak_rate r; peak_rate_samples := peak_rate_samples r; bfq_max_budget
     := bfq_max_budget r; tun := tun r; dispatch_list := dispatch_list r;
     blktrace := blktrace r |}.
Definition set_last_budget_start {T} (v : Z) (r : bfq_data T) : bfq_data T :=
  {| queues := queues r; cics := cics r; sched := sched r; active_queue :=
     active_queue r; active_cic := active_cic r; busy_queues :=
     busy_queues r; queued := queued r; sync_flight := sync_flight r;
     rq_in_driver_async := rq_in_driver_async r; rq_in_driver_sync :=
     rq_in_driver_sync r; max_rq_in_driver := max_rq_in_driver r;
     hw_tag_samples := hw_tag_samples r; hw_tag := hw_tag r; last_position
     := last_position r; last_budget_start := v; last_idling_start :=
     last_idling_start r; idle_slice_timer := idle_slice_timer r;
     unplug_work := unplug_work r; peak_rate := peak_rate r;
     peak_rate_samples := peak_rate_samples r; bfq_max_budget :=
     bfq_max_budget r; tun := tun r; dispatch_list := dispatch_list r;
     blktrace := blktrace r |}.
Definition set_last_idling_start {T} (v : Z) (r : bfq_data T) : bfq_data T :=
  {| queues := queues r; cics := cics r; sched := sched r; active_queue :=
     active_queue r; active_cic := active_cic r; busy_queues :=
     busy_queues r; queued := queued r; sync_flight := sync_flight r;
     rq_in_driver_async := rq_in_driver_async r; rq_in_driver_sync :=
     rq_in_driver_sync r; max_rq_in_driver := max_rq_in_driver r;
     hw_tag_samples := hw_tag_samples r; hw_tag := hw_tag r; last_position
     := last_position r; last_budget_start := last_budget_start r;
     last_idling_start := v; idle_slice_timer := idle_slice_timer r;
     unplug_work := unplug_work r; peak_rate := peak_rate r;
     peak_rate_samples := peak_rate_samples r; bfq_max_budget :=
     bfq_max_budget r; tun := tun r; dispatch_list := dispatch_list r;
     blktrace := blktrace r |}.
Definition set_idle_slice_timer {T} (v : option Z) (r : bfq_data T) : bfq_data T :=
  {| queues := queues r; cics := cics r; sched := sched r; active_queue :=
     active_queue r; active_cic := active_cic r; busy_queues :=
     busy_queues r; queued := queued r; sync_flight := sync_flight r;
     rq_in_driver_async := rq_in_driver_async r; rq_in_driver_sync :=
     rq_in_driver_sync r; max_rq_in_driver := max_rq_in_driver r;
     hw_tag_samples := hw_tag_samples r; hw_tag := hw_tag r; last_position
     := last_position r; last_budget_start := last_budget_start r;
     last_idling_start := last_idling_start r; idle_slice_timer := v;
     unplug_work := unplug_work r; peak_rate := peak_rate r;
     peak_rate_samples := peak_rate_samples r; bfq_max_budget :=
     bfq_max_budget r; tun := tun r; dispatch_list := dispatch_list r;
     blktrace := blktrace r |}.
Definition set_unplug_work {T} (v : bool) (r : bfq_data T) : bfq_data T :=
  {| queues := queues r; cics := cics r; sched := sched r; active_queue :=
     active_queue r; active_cic := active_cic r; busy_queues :=
     busy_queues r; queued := queued r; sync_flight := sync_flight r;
     rq_in_driver_async := rq_in_driver_async r; rq_in_driver_sync :=
     rq_in_driver_sync r; max_rq_in_driver := max_rq_in_driver r;
     hw_tag_samples := hw_tag_samples r; hw_tag := hw_tag r; last_position
     := last_position r; last_budget_start := last_budget_start r;
     last_idling_start := last_idling_start r; idle_slice_timer :=
     idle_slice_timer r; unplug_work := v; peak_rate := peak_rate r;
     peak_rate_samples := peak_rate_samples r; bfq_max_budget :=
     bfq_max_budget r; tun := tun r; dispatch_list := dispatch_list r;
     blktrace := blktrace r |}.
Definition set_peak_rate {T} (v : Z) (r : bfq_data T) : bfq_data T :=
  {| queues := queues r; cics := cics r; sched := sched r; active_queue :=
     active_queue r; active_cic := active_cic r; busy_queues :=
     busy_queues r; queued := queued r; sync_flight := sync_flight r;
     rq_in_driver_async := rq_in_driver_async r; rq_in_driver_sync :=
     rq_in_driver_sync r; max_rq_in_driver := max_rq_in_driver r;
     hw_tag_samples := hw_tag_samples r; hw_tag := hw_tag r; last_position
     := last_position r; last_budget_start := last_budget_start r;
     last_idling_start := last_idling_start r; idle_slice_timer :=
     idle_slice_timer r; unplug_work := unplug_work r; peak_rate := v;
     peak_rate_samples := peak_rate_samples r; bfq_max_budget :=
     bfq_max_budget r; tun := tun r; dispatch_list := dispatch_list r;
     blktrace := blktrace r |}.
Definition set_peak_rate_samples {T} (v : Z) (r : bfq_data T) : bfq_data T :=
  {| queues := queues r; cics := cics r; sched := sched r; active_queue :=
     active_queue r; active_cic := active_cic r; busy_queues :=
     busy_queues r; queued := queued r; sync_flight := sync_flight r;
     rq_in_driver_async := rq_in_driver_async r; rq_in_driver_sync :=
     rq_in_driver_sync r; max_rq_in_driver := max_rq_in_driver r;
     hw_tag_samples := hw_tag_samples r; hw_tag := hw_tag r; last_position
     := last_position r; last_budget_start := last_budget_start r;
     last_idling_start := last_idling_start r; idle_slice_timer :=
     idle_slice_timer r; unplug_work := unplug_work r; peak_rate :=
     peak_rate r; peak_rate_samples := v; bfq_max_budget := bfq_max_budget
     r; tun := tun r; dispatch_list := dispatch_list r; blktrace :=
     blktrace r |}.
Definition set_bfq_max_budget {T} (v : Z) (r : bfq_data T) : bfq_data T :=
  {| queues := queues r; cics := cics r; sched := sched r; active_queue :=
     active_queue r; active_cic := active_cic r; busy_queues :=
     busy_queues r; queued := queued r; sync_flight := sync_flight r;
     rq_in_driver_async := rq_in_driver_async r; rq_in_driver_sync :=
     rq_in_driver_sync r; max_rq_in_driver := max_rq_in_driver r;
     hw_tag_samples := hw_tag_samples r; hw_tag := hw_tag r; last_position
     := last_position r; last_budget_start := last_budget_start r;
     last_idling_start := last_idling_start r; idle_slice_timer :=
     idle_slice_timer r; unplug_work := unplug_work r; peak_rate :=
     peak_rate r; peak_rate_samples := peak_rate_samples r; bfq_max_budget
     := v; tun := tun r; dispatch_list := dispatch_list r; blktrace :=
     blktrace r |}.
Definition set_dispatch_list {T} (v : list request) (r : bfq_data T) : bfq_data T :=
  {| queues := queues r; cics := cics r; sched := sched r; active_queue :=
     active_queue r; active_cic := active_cic r; busy_queues :=
     busy_queues r; queued := queued r; sync_flight := sync_flight r;
     rq_in_driver_async := rq_in_driver_async r; rq_in_driver_sync :=
     rq_in_driver_sync r; max_rq_in_driver := max_rq_in_driver r;
     hw_tag_samples := hw_tag_samples r; hw_tag := hw_tag r; last_position
     := last_position r; last_budget_start := last_budget_start r;
     last_idling_start := last_idling_start r; idle_slice_timer :=
     idle_slice_timer r; unplug_work := unplug_work r; peak_rate :=
     peak_rate r; peak_rate_samples := peak_rate_samples r; bfq_max_budget
     := bfq_max_budget r; tun := tun r; dispatch_list := v; blktrace :=
     blktrace r |}.
Definition set_blktrace {T} (v : list bfq_event) (r : bfq_data T) : bfq_data T :=
  {| queues := queues r; cics := cics r; sched := sched r; active_queue :=
     active_queue r; active_cic := active_cic r; busy_queues :=
     busy_queues r; queued := queued r; sync_flight := sync_flight r;
     rq_in_driver_async := rq_in_driver_async r; rq_in_driver_sync :=
     rq_in_driver_sync r; max_rq_in_driver := max_rq_in_driver r;
     hw_tag_samples := hw_tag_samples r; hw_tag := hw_tag r; last_position
     := last_position r; last_budget_start := last_budget_start r;
     last_idling_start := last_idling_start r; idle_slice_timer :=
     idle_slice_timer r; unplug_work := unplug_work r; peak_rate :=
     peak_rate r; peak_rate_samples := peak_rate_samples r; bfq_max_budget
     := bfq_max_budget r; tun := tun r; dispatch_list := dispatch_list r;
     blktrace := v |}.

(** ** Results of fallible code

    [Oops] stands for a kernel oops: a failed [BUG_ON], the
    dereference of a null or dangling pointer, or a divide error.  [OutOfFuel] is returned
    by the bounded unrolling of a loop when its bound is reached. *)
Inductive result (A : Type) :=
  | Ok (a : A)
  | Oops
  | OutOfFuel.
Arguments Ok {A} a.
Arguments Oops {A}.
Arguments OutOfFuel {A}.

#[global] Instance result_ret : MRet result := λ A a, Ok a.
#[global] Instance result_bind : MBind result := λ A B f m,
  match m with
  | Ok a => f a
  | Oops => Oops
  | OutOfFuel => OutOfFuel
  end.

(** Dereference of a pointer looked up in a map. *)
Definition deref {A} (o : option A) : result A :=
  match o with
  | Some a => Ok a
  | None => Oops
  end.

(** [BUG_ON(c)]. *)
Definition BUG_ON (c : bool) : result unit :=
  if c then Oops else Ok tt.

(** [do_div(n, base)] on a 64-bit machine: the divisor is a 32-bit
    value, the quotient is left in [n]; a zero divisor raises a divide
    error. *)
Definition do_div (n base : Z) : result Z :=
  if u32 base =? 0 then Oops else Ok (u64 n / u32 base).

(** The C operator [/] on two [unsigned long]s, with its divide error
    on a zero divisor. *)
Definition udiv (n d : Z) : result Z :=
  if d =? 0 then Oops else Ok (n / d).

(** ** Interfaces to code outside the file *)

(** HZ-dependent conversions of <linux/jiffies.h> and the [ktime_t] to
    microseconds conversion of <linux/ktime.h>. *)
Class KernelTime := {
  msecs_to_jiffies : Z → Z;
  jiffies_to_msecs : Z → Z;
  ktime_to_us : Z → Z;
}.

(** The B-WF2Q+ service trees of bfq-sched.c, over a state [T]:
    selection of the next leaf, (re)activation of a leaf with its
    entity, deactivation, and propagation of a service charge. *)
Class BfqSched (T : Type) := {
  st_next_queue : T → option nat * T;
  st_activate : nat → bfq_entity → T → T;
  st_deactivate : nat → bool → T → T;
  st_served : nat → Z → T → T;
  (** [entity->tree == &st->active] for the entity of a leaf. *)
  st_on_active_tree : nat → T → bool;
  (** [entity == entity->sched_data->active_entity]. *)
  st_is_active_entity : nat → T → bool;
}.

(** ** Constants of the file *)

Definition BFQ_MIN_TT : Z := 2.
Definition BFQ_HW_QUEUE_THRESHOLD : Z := 4.
Definition BFQ_HW_QUEUE_SAMPLES : Z := 32.
Definition BFQ_BUDGET_STEP : Z := 128.
Definition BFQ_PEAK_RATE_SAMPLES : Z := 32.
Definition BFQ_RATE_SHIFT : Z := 16.
Definition bfq_max_budget_default : Z := 16 * 1024.
Definition BFQ_RQ1_WRAP : Z := 1.
Definition BFQ_RQ2_WRAP : Z := 2.

(** ** Request-level helpers *)

(** Pointer equality of two requests. *)
Definition rq_ptr_eqb (r1 r2 : request) : bool :=
  Nat.eqb (rq_id r1) (rq_id r2).

Definition opt_rq_ptr_eqb (o1 o2 : option request) : bool :=
  match o1, o2 with
  | Some r1, Some r2 => rq_ptr_eqb r1 r2
  | None, None => true
  | _, _ => false
  end.

(** [rb_prev] and [rb_next] of the node with address [id] in the
    in-order list of a tree; [None] when the node is not in the tree. *)
Fixpoint rb_neighbours (l : list request) (prev : option request) (id : nat)
  : option (option request * option request) :=
  match l with
  | [] => None
  | r :: l' =>
      if Nat.eqb (rq_id r) id then Some (prev, head l')
      else rb_neighbours l' (Some r) id
  end.

(** The list or tree without the node with address [id];
    [list_del_init] on the FIFO, which leaves the list as it is when
    the node is not on it. *)
Definition unlink_rq (id : nat) (l : list request) : list request :=
  filter (λ r, rq_id r ≠ id) l.

(** Modelled from the spec: [elv_rb_del] of block/elevator.c, the
    removal from the sort tree, with its [BUG_ON] on a node that is
    not linked in the tree. *)
Definition elv_rb_del (id : nat) (l : list request)
  : result (list request) :=
  _ ← BUG_ON (negb (bool_decide (id ∈ rq_id <$> l)));
  Ok (unlink_rq id l).

Definition RB_EMPTY_ROOT (l : list request) : bool :=
  match l with
  | [] => true
  | _ => false
  end.

(** ** Queue-level functions *)

Definition bfq_class_idle (bfqq : bfq_queue) : bool :=
  bool_decide (ioprio_class (entity bfqq) = IOPRIO_CLASS_IDLE).

Definition bfq_sample_valid (samples : Z) : bool := 80 <? samples.

Definition CIC_SEEKY (cic : cfq_io_context) : bool :=
  8 * 1024 <? seek_mean cic.

(** The proximity score of one candidate of [bfq_choose_req]: the pair
    of the distance [d] and of the wrap bit to be or-ed into the mask. *)
Definition bfq_rq_distance (last back_max back_penalty s : Z) (bit : Z)
  : Z * Z :=
  if last <=? s then (u64 (s - last), 0)
  else if last <=? u64 (s + back_max) then
    (u64 (u64 (last - s) * back_penalty), 0)
  else (0, bit).

Section Choose.
Context {T : Type}.

Definition bfq_choose_req (bfqd : bfq_data T) (rq1 rq2 : option request)
  : option request :=
  match rq1, rq2 with
  | None, _ => rq2
  | Some r1, None => rq1
  | Some r1, Some r2 =>
      if rq_ptr_eqb r1 r2 then rq2
      else if rq_is_sync r1 && negb (rq_is_sync r2) then rq1
      else if rq_is_sync r2 && negb (rq_is_sync r1) then rq2
      else if rq_is_meta r1 && negb (rq_is_meta r2) then rq1
      else if rq_is_meta r2 && negb (rq_is_meta r1) then rq2
      else
        let s1 := blk_rq_pos r1 in
        let s2 := blk_rq_pos r2 in
        let last := last_position bfqd in
        let back_max := u32 (bfq_back_max (tun bfqd) * 2) in
        let '(d1, w1) :=
          bfq_rq_distance last back_max (bfq_back_penalty (tun bfqd)) s1
            BFQ_RQ1_WRAP in
        let '(d2, w2) :=
          bfq_rq_distance last back_max (bfq_back_penalty (tun bfqd)) s2
            BFQ_RQ2_WRAP in
        let wrap := Z.lor w1 w2 in
        match wrap with
        | 0 =>
            if d1 <? d2 then rq1
            else if d2 <? d1 then rq2
            else if s2 <=? s1 then rq1 else rq2
        | 2 => rq1
        | 1 => rq2
        | _ => if s1 <=? s2 then rq1 else rq2
        end
  end.

Definition bfq_find_next_rq (bfqd : bfq_data T) (bfqq : bfq_queue)
  (last : request) : result (option request) :=
  '(prev, rbnext) ← deref (rb_neighbours (sort_list bfqq) None (rq_id last));
  let next :=
    match rbnext with
    | Some n => Some n
    | None =>
        match head (sort_list bfqq) with
        | Some first => if rq_ptr_eqb first last then None else Some first
        | None => None
        end
    end in
  Ok (bfq_choose_req bfqd next prev).
End Choose.

(** [bfq_check_fifo]: the request found past its deadline, if any, and
    the queue with its [fifo_expire] flag updated. *)
Definition bfq_check_fifo (jiffies : Z) (bfqq : bfq_queue)
  : option request * bfq_queue :=
  if flag_fifo_expire bfqq then (None, bfqq)
  else
    let bfqq := set_flag_fifo_expire true bfqq in
    match fifo bfqq with
    | [] => (None, bfqq)
    | rq :: _ =>
        if time_before jiffies (rq_fifo_time rq) then (None, bfqq)
        else (Some rq, bfqq)
    end.

Definition bfq_bfqq_budget_left (bfqq : bfq_queue) : Z :=
  u64 (budget (entity bfqq) - service (entity bfqq)).

Definition bfq_bfqq_budget_timeout (jiffies : Z) (bfqq : bfq_queue) : bool :=
  if flag_budget_new bfqq then false
  else if time_before jiffies (budget_timeout bfqq) then false
  else true.

(** The three assignments that open the loop body of
    [bfq_dispatch_requests]. *)
Definition bfq_max_dispatch (t : bfq_tunables) (bfqq : bfq_queue) : Z :=
  let max_dispatch := bfq_quantum t in
  let max_dispatch := if bfq_class_idle bfqq then 1 else max_dispatch in
  let max_dispatch :=
    if negb (flag_sync bfqq) then bfq_max_budget_async_rq t
    else max_dispatch in
  max_dispatch.

(** ** The scheduler proper *)

Section Model.
Context `{KernelTime} {T : Type} `{BfqSched T}.

(** [*bfqq = f( *bfqq )] for the queue at address [qid]. *)
Definition with_bfqq (qid : nat) (f : bfq_queue → bfq_queue)
  (bfqd : bfq_data T) : result (bfq_data T) :=
  bfqq ← deref (queues bfqd !! qid);
  Ok (set_queues (<[qid := f bfqq]> (queues bfqd)) bfqd).

(** Modelled from the spec: [rq_in_driver()] of bfq.h, the number of
    requests held by the driver in both directions ("driver empty"
    in the completion path). *)
Definition rq_in_driver (bfqd : bfq_data T) : Z :=
  rq_in_driver_async bfqd + rq_in_driver_sync bfqd.

(** Modelled from the spec: [bfq_bfqq_served] of bfq-sched.c, "on
    service charged (D sectors served to e): e.service += D"; the
    charge is propagated to the service trees. *)
Definition bfq_bfqq_served (qid : nat) (served : Z) (bfqd : bfq_data T)
  : result (bfq_data T) :=
  bfqd ← with_bfqq qid
    (λ q, set_entity
            (set_service (u64 (service (entity q) + served)) (entity q)) q)
    bfqd;
  Ok (set_sched (st_served qid served (sched bfqd)) bfqd).

(** Modelled from the spec: [bfq_bfqq_charge_full_budget] of
    bfq-sched.c, "charge full budget: set service = budget". *)
Definition bfq_bfqq_charge_full_budget (qid : nat) (bfqd : bfq_data T)
  : result (bfq_data T) :=
  bfqq ← deref (queues bfqd !! qid);
  let e := entity bfqq in
  bfqd ← with_bfqq qid (set_entity (set_service (budget e) e)) bfqd;
  Ok (set_sched (st_served qid (u64 (budget e - service e)) (sched bfqd))
        bfqd).

(** Modelled from the spec: [bfq_activate_bfqq] of bfq-sched.c, the
    (re)insertion of the leaf in its active service tree with the
    current budget of its entity. *)
Definition bfq_activate_bfqq (qid : nat) (bfqd : bfq_data T) : result (bfq_data T) :=
  bfqq ← deref (queues bfqd !! qid);
  Ok (set_sched (st_activate qid (entity bfqq) (sched bfqd)) bfqd).

(** Modelled from the spec: [bfq_del_bfqq_busy] of bfq-sched.c; the
    queue leaves the busy set ([busy_queues] counts the leaves with
    the busy flag set) and its entity is deactivated. *)
Definition bfq_del_bfqq_busy (qid : nat) (requeue : bool)
  (bfqd : bfq_data T) : result (bfq_data T) :=
  bfqd ← with_bfqq qid (set_flag_busy false) bfqd;
  let bfqd := set_busy_queues (busy_queues bfqd - 1) bfqd in
  Ok (set_sched (st_deactivate qid requeue (sched bfqd)) bfqd).

(** Modelled from the spec: [__bfq_bfqd_reset_active] of bfq-sched.c;
    the active queue and the io context that opened the slice are
    cleared, the idle-slice timer is cancelled. *)
Definition __bfq_bfqd_reset_active (bfqd : bfq_data T) : bfq_data T :=
  set_idle_slice_timer None
    (set_active_queue None (set_active_cic None bfqd)).

(** Modelled from the spec: [bfq_get_next_queue] of bfq-sched.c; the
    service trees pick the next leaf, whose slice starts with no
    service consumed. *)
Definition bfq_get_next_queue (bfqd : bfq_data T)
  : result (option nat * bfq_data T) :=
  let '(next, st) := st_next_queue (sched bfqd) in
  let bfqd := set_sched st bfqd in
  match next with
  | None => Ok (None, bfqd)
  | Some qid =>
      bfqd ← with_bfqq qid (λ q, set_entity (set_service 0 (entity q)) q)
               bfqd;
      Ok (Some qid, bfqd)
  end.

Definition bfq_schedule_dispatch (bfqd : bfq_data T) : bfq_data T :=
  if negb (queued bfqd =? 0) then set_unplug_work true bfqd else bfqd.

Definition bfq_queue_empty (bfqd : bfq_data T) : bool := queued bfqd =? 0.

Definition bfq_del_rq_rb (rq : request) (bfqd : bfq_data T) : result (bfq_data T) :=
  let qid := RQ_BFQQ rq in
  bfqq ← deref (queues bfqd !! qid);
  let sync := rq_is_sync rq in
  _ ← BUG_ON ((if sync then queued_sync bfqq else queued_async bfqq) =? 0);
  let bfqq :=
    if sync then set_queued_sync (queued_sync bfqq - 1) bfqq
    else set_queued_async (queued_async bfqq - 1) bfqq in
  let bfqd := set_queued (queued bfqd - 1) bfqd in
  sort_list' ← elv_rb_del (rq_id rq) (sort_list bfqq);
  let bfqq := set_sort_list sort_list' bfqq in
  let bfqd := set_queues (<[qid := bfqq]> (queues bfqd)) bfqd in
  if flag_busy bfqq && negb (bool_decide (active_queue bfqd = Some qid))
     && RB_EMPTY_ROOT (sort_list bfqq)
  then bfq_del_bfqq_busy qid true bfqd
  else Ok bfqd.

(** The two [BUG_ON]s of the C function inspect the service trees
    through [st_on_active_tree] and [st_is_active_entity]. *)
Definition bfq_updated_next_req (qid : nat) (bfqd : bfq_data T)
  : result (bfq_data T) :=
  bfqq ← deref (queues bfqd !! qid);
  match next_rq bfqq with
  | None => Ok bfqd
  | Some next_rq =>
      if bool_decide (active_queue bfqd = Some qid) then Ok bfqd
      else
        _ ← BUG_ON (negb (st_on_active_tree qid (sched bfqd)));
        _ ← BUG_ON (st_is_active_entity qid (sched bfqd));
        let new_budget := Z.max (max_budget bfqq) (blk_rq_sectors next_rq) in
        bfqd ← with_bfqq qid
                 (λ q, set_entity (set_budget new_budget (entity q)) q) bfqd;
        bfq_activate_bfqq qid bfqd
  end.

Definition bfq_remove_request (rq : request) (bfqd : bfq_data T)
  : result (bfq_data T) :=
  let qid := RQ_BFQQ rq in
  bfqq ← deref (queues bfqd !! qid);
  bfqd ←
    (if opt_rq_ptr_eqb (next_rq bfqq) (Some rq) then
       next ← bfq_find_next_rq bfqd bfqq rq;
       bfqd ← with_bfqq qid (set_next_rq next) bfqd;
       bfq_updated_next_req qid bfqd
     else Ok bfqd);
  bfqd ← with_bfqq qid (λ q, set_fifo (unlink_rq (rq_id rq) (fifo q)) q) bfqd;
  bfqd ← bfq_del_rq_rb rq bfqd;
  if rq_is_meta rq
  then with_bfqq qid (λ q, set_meta_pending (meta_pending q - 1) q) bfqd
  else Ok bfqd.

(** [elv_dispatch_sort] puts the request on the dispatch list of the
    request queue, at a place chosen by the block layer; the model
    appends it. *)
Definition bfq_dispatch_insert (rq : request) (bfqd : bfq_data T)
  : result (bfq_data T) :=
  let qid := RQ_BFQQ rq in
  bfqq ← deref (queues bfqd !! qid);
  next ← bfq_find_next_rq bfqd bfqq rq;
  bfqd ← with_bfqq qid (set_next_rq next) bfqd;
  bfqd ← bfq_remove_request rq bfqd;
  bfqd ← with_bfqq qid (λ q, set_dispatched (dispatched q + 1) q) bfqd;
  let bfqd := set_dispatch_list (dispatch_list bfqd ++ [rq]) bfqd in
  bfqq ← deref (queues bfqd !! qid);
  if flag_sync bfqq then Ok (set_sync_flight (sync_flight bfqd + 1) bfqd)
  else Ok bfqd.

Definition __bfq_set_active_queue (bfqq : option nat) (bfqd : bfq_data T)
  : result (bfq_data T) :=
  bfqd ←
    match bfqq with
    | Some qid =>
        with_bfqq qid
          (λ q,
             let q := set_flag_must_alloc true q in
             let q := set_flag_budget_new true q in
             let q := set_flag_fifo_expire false q in
             set_budgets_assigned ((budgets_assigned q * 7 + 256) / 8) q)
          bfqd
    | None => Ok bfqd
    end;
  Ok (set_active_queue bfqq bfqd).

Definition bfq_set_active_queue (bfqd : bfq_data T)
  : result (option nat * bfq_data T) :=
  '(bfqq, bfqd) ← bfq_get_next_queue bfqd;
  bfqd ← __bfq_set_active_queue bfqq bfqd;
  Ok (bfqq, bfqd).

(** [jiffies] and [now] are the values read from [jiffies] and
    [ktime_get()] during the call. *)
Definition bfq_arm_slice_timer (jiffies now : Z) (bfqd : bfq_data T)
  : result (bfq_data T) :=
  qid ← deref (active_queue bfqd);
  bfqq ← deref (queues bfqd !! qid);
  if (bfq_slice_idle (tun bfqd) =? 0) || negb (flag_idle_window bfqq)
  then Ok bfqd
  else
    match active_cic bfqd with
    | None => Ok bfqd
    | Some cid =>
        cic ← deref (cics bfqd !! cid);
        if nr_tasks cic =? 0 then Ok bfqd
        else
          bfqd ← with_bfqq qid (set_flag_wait_request true) bfqd;
          let sl := bfq_slice_idle (tun bfqd) in
          let sl :=
            if bfq_sample_valid (seek_samples cic) && CIC_SEEKY cic
            then Z.min sl (msecs_to_jiffies BFQ_MIN_TT)
            else sl in
          let bfqd := set_last_idling_start now bfqd in
          Ok (set_idle_slice_timer (Some (u64 (jiffies + sl))) bfqd)
    end.

Definition bfq_set_budget_timeout (jiffies now : Z) (bfqd : bfq_data T)
  : result (bfq_data T) :=
  qid ← deref (active_queue bfqd);
  let bfqd := set_last_budget_start now bfqd in
  with_bfqq qid
    (λ q,
       let q := set_flag_budget_new false q in
       set_budget_timeout
         (u64 (jiffies + (if flag_sync q then bfq_timeout_sync (tun bfqd)
                          else bfq_timeout_async (tun bfqd)))) q)
    bfqd.

Definition __bfq_bfqq_expire (qid : nat) (bfqd : bfq_data T) : result (bfq_data T) :=
  _ ← BUG_ON (negb (bool_decide (active_queue bfqd = Some qid)));
  let bfqd := __bfq_bfqd_reset_active bfqd in
  bfqq ← deref (queues bfqd !! qid);
  if RB_EMPTY_ROOT (sort_list bfqq) then bfq_del_bfqq_busy qid true bfqd
  else bfq_activate_bfqq qid bfqd.

Definition bfq_default_budget (bfqd : bfq_data T) (bfqq : bfq_queue) : Z :=
  let budget :=
    if (budgets_assigned bfqq <? 194)
       && (bfq_user_max_budget (tun bfqd) =? 0)
    then bfq_max_budget_default
    else bfq_max_budget bfqd in
  u64 (budget - budget / 4).

Definition bfq_min_budget (bfqd : bfq_data T) (bfqq : bfq_queue) : Z :=
  bfq_max_budget bfqd / 2.

(** The feedback of [__bfq_bfqq_recalc_budget] on the fields of the
    queue; [None] in [adjusted] is the early [return] of the
    [NO_MORE_REQUESTS] case. *)
Definition bfqq_recalc_budget (bfqd : bfq_data T) (bfqq : bfq_queue)
  (reason : bfqq_expiration) : bfq_queue :=
  let budget := max_budget bfqq in
  let min_budget := bfq_min_budget bfqd bfqq in
  let adjusted :=
    if flag_sync bfqq then
      match reason with
      | BFQ_BFQQ_TOO_IDLE =>
          if u64 (min_budget + BFQ_BUDGET_STEP) <? budget
          then Some (u64 (budget - BFQ_BUDGET_STEP))
          else Some min_budget
      | BFQ_BFQQ_BUDGET_TIMEOUT => Some (bfq_default_budget bfqd bfqq)
      | BFQ_BFQQ_BUDGET_EXHAUSTED =>
          Some (Z.min (u64 (budget + 8 * BFQ_BUDGET_STEP))
                  (bfq_max_budget bfqd))
      | BFQ_BFQQ_NO_MORE_REQUESTS => None
      end
    else Some (bfq_max_budget bfqd) in
  match adjusted with
  | None => bfqq
  | Some budget =>
      let bfqq := set_max_budget budget bfqq in
      let bfqq :=
        if (194 <=? budgets_assigned bfqq)
           && (bfq_user_max_budget (tun bfqd) =? 0)
           && (bfq_max_budget bfqd <? max_budget bfqq)
        then set_max_budget (bfq_max_budget bfqd) bfqq
        else bfqq in
      match next_rq bfqq with
      | Some next_rq =>
          set_entity
            (set_budget (Z.max (max_budget bfqq) (blk_rq_sectors next_rq))
               (entity bfqq)) bfqq
      | None => bfqq
      end
  end.

Definition __bfq_bfqq_recalc_budget (qid : nat) (reason : bfqq_expiration)
  (bfqd : bfq_data T) : result (bfq_data T) :=
  _ ← BUG_ON (negb (bool_decide (active_queue bfqd = Some qid)));
  with_bfqq qid (λ q, bfqq_recalc_budget bfqd q reason) bfqd.

Definition bfq_calc_max_budget (peak_rate timeout : Z) : Z :=
  let max_budget := Z.shiftr (u64 (peak_rate * 1000 * timeout)) BFQ_RATE_SHIFT in
  u64 (max_budget - max_budget / 4).

(** The bandwidth of the last slice and the service it would give
    over the sync timeout, as [bfq_update_peak_rate] computes them. *)
Definition bfq_slice_bw (bfqq : bfq_queue) (usecs : Z) : result Z :=
  do_div (Z.shiftl (service (entity bfqq)) BFQ_RATE_SHIFT) usecs.

Definition bfq_slice_expected (bw timeout : Z) : Z :=
  Z.shiftr (u64 (bw * 1000 * timeout)) BFQ_RATE_SHIFT.

(** The duration in microseconds of the slice that ends at [now]. *)
Definition bfq_slice_usecs (now : Z) (compensate : bool)
  (bfqd : bfq_data T) : Z :=
  let delta := if compensate then last_idling_start bfqd else now in
  let delta := delta - last_budget_start bfqd in
  u64 (ktime_to_us delta).

Definition bfq_update_peak_rate (now : Z) (qid : nat) (compensate : bool)
  (bfqd : bfq_data T) : result (bool * bfq_data T) :=
  bfqq ← deref (queues bfqd !! qid);
  if negb (flag_sync bfqq) || flag_budget_new bfqq then Ok (false, bfqd)
  else
    let usecs := bfq_slice_usecs now compensate bfqd in
    if (usecs <? 100) || (LONG_MAX <=? usecs) then Ok (false, bfqd)
    else
      bw ← bfq_slice_bw bfqq usecs;
      let timeout := jiffies_to_msecs (bfq_timeout_sync (tun bfqd)) in
      let bfqd :=
        if 20000 <? usecs then
          let '(bfqd, update) :=
            if peak_rate bfqd <? bw then (set_peak_rate bw bfqd, true)
            else (bfqd, false) in
          let update :=
            update || (peak_rate_samples bfqd =? BFQ_PEAK_RATE_SAMPLES - 1) in
          let bfqd :=
            if peak_rate_samples bfqd <? BFQ_PEAK_RATE_SAMPLES
            then set_peak_rate_samples (peak_rate_samples bfqd + 1) bfqd
            else bfqd in
          if (peak_rate_samples bfqd =? BFQ_PEAK_RATE_SAMPLES) && update
             && (bfq_user_max_budget (tun bfqd) =? 0)
          then set_bfq_max_budget
                 (bfq_calc_max_budget (peak_rate bfqd) timeout) bfqd
          else bfqd
        else bfqd in
      let expected := bfq_slice_expected bw timeout in
      Ok (budget (entity bfqq) <? expected, bfqd).

(** The slices on which [bfq_update_peak_rate] reaches its [do_div]
    with a zero divisor: the low 32 bits of the microsecond count of a
    slice that passed the two tests before it. *)
Definition bfq_peak_rate_traps (now : Z) (compensate : bool)
  (bfqq : bfq_queue) (bfqd : bfq_data T) : bool :=
  let usecs := bfq_slice_usecs now compensate bfqd in
  flag_sync bfqq && negb (flag_budget_new bfqq)
  && (100 <=? usecs) && (usecs <? LONG_MAX) && (u32 usecs =? 0).

Definition bfq_bfqq_expire (now : Z) (qid : nat) (compensate : bool)
  (reason : bfqq_expiration) (bfqd : bfq_data T) : result (bfq_data T) :=
  '(slow, bfqd) ← bfq_update_peak_rate now qid compensate bfqd;
  let reason :=
    if slow && bool_decide (reason = BFQ_BFQQ_TOO_IDLE)
    then BFQ_BFQQ_BUDGET_TIMEOUT else reason in
  bfqq ← deref (queues bfqd !! qid);
  bfqd ←
    (if bool_decide (reason = BFQ_BFQQ_BUDGET_TIMEOUT)
        || negb (flag_sync bfqq)
     then bfq_bfqq_charge_full_budget qid bfqd
     else Ok bfqd);
  let bfqd := set_blktrace (LogExpire qid reason slow :: blktrace bfqd) bfqd in
  bfqd ← __bfq_bfqq_recalc_budget qid reason bfqd;
  __bfq_bfqq_expire qid bfqd.

Definition timer_pending (bfqd : bfq_data T) : bool :=
  match idle_slice_timer bfqd with
  | Some _ => true
  | None => false
  end.

Definition bfq_select_queue (jiffies now : Z) (bfqd : bfq_data T)
  : result (option nat * bfq_data T) :=
  match active_queue bfqd with
  | None => bfq_set_active_queue bfqd
  | Some qid =>
      let expire reason bfqd :=
        bfqd ← bfq_bfqq_expire now qid false reason bfqd;
        bfq_set_active_queue bfqd in
      bfqq ← deref (queues bfqd !! qid);
      if bfq_bfqq_budget_timeout jiffies bfqq then
        bfqd ← bfq_bfqq_charge_full_budget qid bfqd;
        expire BFQ_BFQQ_BUDGET_TIMEOUT bfqd
      else
        match next_rq bfqq with
        | Some next_rq =>
            if bfq_bfqq_budget_left bfqq <? blk_rq_sectors next_rq
            then expire BFQ_BFQQ_BUDGET_EXHAUSTED bfqd
            else Ok (Some qid, bfqd)
        | None =>
            if timer_pending bfqd
               || (negb (dispatched bfqq =? 0) && flag_idle_window bfqq)
            then Ok (None, bfqd)
            else expire BFQ_BFQQ_NO_MORE_REQUESTS bfqd
        end
  end.

(** The [do ... while (dispatched < max_dispatch)] loop of
    [__bfq_dispatch_requests].  The result carries the count, whether
    the loop was left by [goto expire], and the state. *)
Fixpoint __bfq_dispatch_loop (fuel : nat) (jiffies : Z) (qid : nat)
  (max_dispatch nr_dispatched : Z) (bfqd : bfq_data T)
  : result (Z * bool * bfq_data T) :=
  match fuel with
  | O => OutOfFuel
  | S fuel =>
      bfqq ← deref (queues bfqd !! qid);
      let '(rq, bfqq) := bfq_check_fifo jiffies bfqq in
      let bfqd := set_queues (<[qid := bfqq]> (queues bfqd)) bfqd in
      rq ← deref (match rq with Some rq => Some rq | None => next_rq bfqq end);
      if bfq_bfqq_budget_left bfqq <? blk_rq_sectors rq then
        bfqd ← with_bfqq qid (set_next_rq (Some rq)) bfqd;
        Ok (nr_dispatched, true, bfqd)
      else
        bfqd ← bfq_bfqq_served qid (blk_rq_sectors rq) bfqd;
        bfqd ← bfq_dispatch_insert rq bfqd;
        let nr_dispatched := nr_dispatched + 1 in
        let bfqd :=
          match active_cic bfqd with
          | None => set_active_cic (Some (RQ_CIC rq)) bfqd
          | Some _ => bfqd
          end in
        bfqq ← deref (queues bfqd !! qid);
        if RB_EMPTY_ROOT (sort_list bfqq) then Ok (nr_dispatched, false, bfqd)
        else if nr_dispatched <? max_dispatch
        then __bfq_dispatch_loop fuel jiffies qid max_dispatch nr_dispatched bfqd
        else Ok (nr_dispatched, false, bfqd)
  end.

Definition __bfq_dispatch_requests (jiffies now : Z) (qid : nat)
  (max_dispatch : Z) (bfqd : bfq_data T) : result (Z * bfq_data T) :=
  bfqq ← deref (queues bfqd !! qid);
  _ ← BUG_ON (RB_EMPTY_ROOT (sort_list bfqq));
  '(nr_dispatched, expire, bfqd) ←
    __bfq_dispatch_loop (S (Z.to_nat max_dispatch)) jiffies qid
      max_dispatch 0 bfqd;
  bfqq ← deref (queues bfqd !! qid);
  if expire
     || ((1 <? busy_queues bfqd)
         && ((negb (flag_sync bfqq)
              && (bfq_max_budget_async_rq (tun bfqd) <=? nr_dispatched))
             || bfq_class_idle bfqq))
  then
    bfqd ← bfq_bfqq_expire now qid false BFQ_BFQQ_BUDGET_EXHAUSTED bfqd;
    Ok (nr_dispatched, bfqd)
  else Ok (nr_dispatched, bfqd).

(** The [while] loop of [bfq_dispatch_requests], unrolled at most
    [fuel] times. *)
Fixpoint bfq_dispatch_loop (fuel : nat) (jiffies now : Z)
  (nr_dispatched : Z) (bfqd : bfq_data T) : result (Z * bfq_data T) :=
  match fuel with
  | O => OutOfFuel
  | S fuel =>
      '(sel, bfqd) ← bfq_select_queue jiffies now bfqd;
      match sel with
      | None => Ok (nr_dispatched, bfqd)
      | Some qid =>
          bfqq ← deref (queues bfqd !! qid);
          let max_dispatch := bfq_max_dispatch (tun bfqd) bfqq in
          if (max_dispatch <=? dispatched bfqq)
             && ((1 <? busy_queues bfqd)
                 || (4 * max_dispatch <=? dispatched bfqq))
          then Ok (nr_dispatched, bfqd)
          else if flag_idle_window bfqq
                  && negb (rq_in_driver_async bfqd =? 0)
          then Ok (0, bfqd)
          else if negb (sync_flight bfqd =? 0) && negb (flag_sync bfqq)
          then Ok (nr_dispatched, bfqd)
          else
            bfqd ← with_bfqq qid (set_flag_wait_request false) bfqd;
            _ ← BUG_ON (timer_pending bfqd);
            '(n, bfqd) ←
              __bfq_dispatch_requests jiffies now qid max_dispatch bfqd;
            bfq_dispatch_loop fuel jiffies now (nr_dispatched + n) bfqd
      end
  end.

(** [bfq_dispatch_requests(q, 0)]: the non-forced dispatch.  The
    forced drain ([bfq_forced_dispatch]) is not modelled. *)
Definition bfq_dispatch_requests (fuel : nat) (jiffies now : Z)
  (bfqd : bfq_data T) : result (Z * bfq_data T) :=
  if busy_queues bfqd =? 0 then Ok (0, bfqd)
  else bfq_dispatch_loop fuel jiffies now 0 bfqd.

Definition bfq_update_hw_tag (bfqd : bfq_data T) : bfq_data T :=
  let bfqd :=
    set_max_rq_in_driver (Z.max (max_rq_in_driver bfqd) (rq_in_driver bfqd))
      bfqd in
  if rq_in_driver bfqd + queued bfqd <? BFQ_HW_QUEUE_THRESHOLD then bfqd
  else
    let samples := hw_tag_samples bfqd in
    let bfqd := set_hw_tag_samples (samples + 1) bfqd in
    if samples <? BFQ_HW_QUEUE_SAMPLES then bfqd
    else
      let bfqd :=
        set_hw_tag (BFQ_HW_QUEUE_THRESHOLD <? max_rq_in_driver bfqd) bfqd in
      set_hw_tag_samples 0 (set_max_rq_in_driver 0 bfqd).

(** The block of [bfq_completed_request] guarded by
    [if (bfqd->active_queue == bfqq)]. *)
Definition bfq_completed_active (jiffies now : Z) (sync : bool) (qid : nat)
  (bfqq : bfq_queue) (bfqd : bfq_data T) : result (bfq_data T) :=
  bfqd ←
    (if flag_budget_new bfqq then bfq_set_budget_timeout jiffies now bfqd
     else Ok bfqd);
  bfqq ← deref (queues bfqd !! qid);
  if bfq_bfqq_budget_timeout jiffies bfqq then
    bfq_bfqq_expire now qid false BFQ_BFQQ_BUDGET_TIMEOUT bfqd
  else if sync && (rq_in_driver bfqd =? 0)
          && RB_EMPTY_ROOT (sort_list bfqq)
  then bfq_arm_slice_timer jiffies now bfqd
  else Ok bfqd.

Definition bfq_completed_request (jiffies now : Z) (rq : request)
  (bfqd : bfq_data T) : result (bfq_data T) :=
  let qid := RQ_BFQQ rq in
  let sync := rq_is_sync rq in
  let bfqd := bfq_update_hw_tag bfqd in
  let bfqd :=
    if sync then set_rq_in_driver_sync (rq_in_driver_sync bfqd - 1) bfqd
    else set_rq_in_driver_async (rq_in_driver_async bfqd - 1) bfqd in
  bfqd ← with_bfqq qid (λ q, set_dispatched (dispatched q - 1) q) bfqd;
  bfqq ← deref (queues bfqd !! qid);
  let bfqd :=
    if flag_sync bfqq then set_sync_flight (sync_flight bfqd - 1) bfqd
    else bfqd in
  bfqd ←
    (if sync then
       cic ← deref (cics bfqd !! RQ_CIC rq);
       Ok (set_cics (<[RQ_CIC rq := set_last_end_request jiffies cic]>
                       (cics bfqd)) bfqd)
     else Ok bfqd);
  bfqd ←
    (if bool_decide (active_queue bfqd = Some qid)
     then bfq_completed_active jiffies now sync qid bfqq bfqd
     else Ok bfqd);
  if rq_in_driver bfqd =? 0 then Ok (bfq_schedule_dispatch bfqd)
  else Ok bfqd.

(** The handler runs with the queue lock held; the timer core has
    already taken the timer off its pending list. *)
Definition bfq_idle_slice_timer (jiffies now : Z) (bfqd : bfq_data T)
  : result (bfq_data T) :=
  bfqd ←
    match active_queue bfqd with
    | Some qid =>
        bfqq ← deref (queues bfqd !! qid);
        let reason := BFQ_BFQQ_TOO_IDLE in
        let reason :=
          if bfq_bfqq_budget_timeout jiffies bfqq
          then BFQ_BFQQ_BUDGET_TIMEOUT else reason in
        bfq_bfqq_expire now qid true reason bfqd
    | None => Ok bfqd
    end;
  Ok (bfq_schedule_dispatch bfqd).

End Model.

(** ** Concrete environments

    A kernel with HZ = 1000, and a stand-in for the service trees that
    serves the backlogged leaves in arrival order.  They are used to
    run the model on concrete states.  The leaf in service is taken
    off the list; without groups it is the active queue, for which
    [bfq_updated_next_req] returns before it looks at the trees, so
    that [st_is_active_entity] is false wherever it is read. *)

#[local] Instance hz1000 : KernelTime := {|
  msecs_to_jiffies := λ m, m;
  jiffies_to_msecs := λ j, j;
  ktime_to_us := λ ns, Z.quot ns 1000;
|}.

#[local] Instance fifo_sched : BfqSched (list nat) := {|
  st_next_queue := λ l,
    match l with
    | [] => (None, [])
    | q :: l' => (Some q, l')
    end;
  st_activate := λ q _ l, if bool_decide (q ∈ l) then l else l ++ [q];
  st_deactivate := λ q _ l, filter (λ x, x ≠ q) l;
  st_served := λ _ _ l, l;
  st_on_active_tree := λ q l, bool_decide (q ∈ l);
  st_is_active_entity := λ _ _, false;
|}.

(** The tunables installed by [bfq_init_queue], for a kernel with the
    given [HZ]; the structure is allocated zeroed, so that
    [bfq_user_max_budget] starts at 0. *)
Definition bfq_init_tunables (HZ : Z) : bfq_tunables := {|
  bfq_quantum := 4;
  bfq_back_max := 16 * 1024;
  bfq_back_penalty := 2;
  bfq_slice_idle := HZ / 125;
  bfq_user_max_budget := 0;
  bfq_max_budget_async_rq := 4;
  bfq_timeout_async := HZ / 25;
  bfq_timeout_sync := HZ / 8;
  bfq_desktop := 1;
|}.

(** The state left by [bfq_init_queue]. *)
Definition bfq_init_queue {T} (HZ : Z) (st : T) : bfq_data T := {|
  queues := ∅; cics := ∅; sched := st;
  active_queue := None; active_cic := None;
  busy_queues := 0; queued := 0; sync_flight := 0;
  rq_in_driver_async := 0; rq_in_driver_sync := 0;
  max_rq_in_driver := 0; hw_tag_samples := 0; hw_tag := true;
  last_position := 0; last_budget_start := 0; last_idling_start := 0;
  idle_slice_timer := None; unplug_work := false;
  peak_rate := 0; peak_rate_samples := 0;
  bfq_max_budget := bfq_max_budget_default;
  tun := bfq_init_tunables HZ;
  dispatch_list := []; blktrace := [];
|}.

(** A queue as [bfq_find_alloc_queue] leaves it (zeroed, with the
    default budget), holding the given requests; [idle_window] is the
    flag as the think-time and seek statistics have left it. *)
Definition mk_bfqq (sync idle_window : bool) (cls : ioprio_class_t)
  (rqs : list request) : bfq_queue := {|
  entity := {| budget := 12288; service := 0; ioprio_class := cls |};
  sort_list := rqs; fifo := rqs; next_rq := head rqs;
  queued_async := if sync then 0 else Z.of_nat (length rqs);
  queued_sync := if sync then Z.of_nat (length rqs) else 0;
  meta_pending := 0; dispatched := 0;
  max_budget := 12288; budget_timeout := 0; budgets_assigned := 0;
  flag_busy := negb (RB_EMPTY_ROOT rqs);
  flag_wait_request := false; flag_must_alloc := false;
  flag_fifo_expire := false;
  flag_idle_window := idle_window;
  flag_prio_changed := false; flag_sync := sync; flag_budget_new := false;
|}.

Definition mk_rq (id : nat) (pos sectors : Z) (sync : bool) (qid : nat)
  : request := {|
  rq_id := id; blk_rq_pos := pos; blk_rq_sectors := sectors;
  rq_is_sync := sync; rq_is_meta := false; rq_fifo_time := 250;
  RQ_CIC := qid; RQ_BFQQ := qid;
|}.

(** ** Reference definitions for the proximity rule

    The rule in the words of the design document, on unbounded
    integers: a request behind the head by more than [back_max] sectors
    is wrapped; the distance of a request behind the head is multiplied
    by the penalty. *)

Definition prox_wrapped (last back_max s : Z) : bool := s + back_max <? last.

Definition prox_distance (last back_penalty s : Z) : Z :=
  if last <=? s then s - last else (last - s) * back_penalty.

Definition prox_choice (last back_max back_penalty : Z) (r1 r2 : request)
  : request :=
  let s1 := blk_rq_pos r1 in
  let s2 := blk_rq_pos r2 in
  match prox_wrapped last back_max s1, prox_wrapped last back_max s2 with
  | false, false =>
      let d1 := prox_distance last back_penalty s1 in
      let d2 := prox_distance last back_penalty s2 in
      if d1 <? d2 then r1
      else if d2 <? d1 then r2
      else if s2 <=? s1 then r1 else r2
  | false, true => r1
  | true, false => r2
  | true, true => if s1 <=? s2 then r1 else r2
  end.

(** ** Example states

    States on which the model is run: sync and async queues holding a
    few requests, under the tunables of [bfq_init_queue] at HZ = 1000. *)

Definition ex_rq_far : request := mk_rq 1 5000 8 true 1.
Definition ex_rq_near_async : request := mk_rq 2 8 8 false 2.
Definition ex_rq_near : request := mk_rq 3 100 8 true 1.

Definition ex_bfqd0 : bfq_data (list nat) := bfq_init_queue 1000 [].

(** The shared async queue of the IDLE class with one write queued. *)
Definition ex_async_idle_bfqq : bfq_queue :=
  mk_bfqq false false IOPRIO_CLASS_IDLE [mk_rq 7 64 8 false 4].

(** Two busy sync queues and an async queue with one write in the
    driver.  Queue 1 belongs to a seeky reader and has lost its idle
    window; queue 2 still has it.  No queue is active; the service
    trees will serve queue 1, then queue 2. *)
Definition ex_bfqd_two : bfq_data (list nat) :=
  set_queues
    (<[1%nat := mk_bfqq true false IOPRIO_CLASS_BE [mk_rq 11 100 8 true 1]]>
       (<[2%nat := mk_bfqq true true IOPRIO_CLASS_BE
                     [mk_rq 21 9000 8 true 2]]>
          (<[3%nat := set_dispatched 1
                        (mk_bfqq false false IOPRIO_CLASS_BE [])]> ∅)))
    (set_cics (<[1%nat := {| nr_tasks := 1; seek_samples := 0;
                             seek_mean := 0; last_end_request := 0 |}]>
                 (<[2%nat := {| nr_tasks := 1; seek_samples := 0;
                                seek_mean := 0; last_end_request := 0 |}]>
                    ∅))
       (set_busy_queues 2
          (set_queued 2
             (set_rq_in_driver_async 1 (bfq_init_queue 1000 [1; 2]%nat))))).

(** The same queues when the idle-slice timer handler gets the lock
    late: the timer was armed while queue 1 was idling; a request for
    queue 1 arrived, a dispatch cycle ran and made queue 2 active. *)
Definition ex_bfqd_race : bfq_data (list nat) :=
  set_queues
    (<[2%nat := set_flag_budget_new true
                  (mk_bfqq true true IOPRIO_CLASS_BE
                     [mk_rq 21 9000 8 true 2])]> (queues ex_bfqd_two))
    (set_active_queue (Some 2%nat) (set_sched [1%nat] ex_bfqd_two)).


(** A sync queue, active, whose slice started at time 0, saw a
    completion ([budget_new] clear, timeout stamped at jiffy 125) and
    started idling at time [idling] (ns), with the given budget and
    service. *)
Definition ex_bfqq_slice (budget service : Z) : bfq_queue :=
  set_entity {| budget := budget; service := service;
                ioprio_class := IOPRIO_CLASS_BE |}
    (set_budget_timeout 125
       (set_flag_busy true (mk_bfqq true true IOPRIO_CLASS_BE []))).

Definition ex_bfqd_slice (budget service idling : Z) : bfq_data (list nat) :=
  set_queues (<[1%nat := ex_bfqq_slice budget service]> ∅)
    (set_last_idling_start idling
       (set_busy_queues 1
          (set_active_queue (Some 1%nat) (bfq_init_queue 1000 [])))).

(** A slice of 100 ms that served 1000 sectors of a budget of 16384:
    at that rate 1249 sectors fit in the 125 ms of the sync timeout. *)
Definition ex_bfqd_seeky : bfq_data (list nat) :=
  ex_bfqd_slice 16384 1000 100000000.

(** A slice of 50 ms that served 16000 sectors of a budget of 16384: at
    that rate 39999 sectors fit in the sync timeout. *)
Definition ex_bfqd_greedy : bfq_data (list nat) :=
  ex_bfqd_slice 16384 16000 50000000.

(** The queue with address [qid] of a state, for a call that returned. *)
Definition result_bfqq {T} (r : result (bfq_data T)) (qid : nat)
  : option bfq_queue :=
  match r with
  | Ok d => queues d !! qid
  | _ => None
  end.

(** The trace of a state, for a call that returned. *)
Definition result_blktrace {T} (r : result (bfq_data T))
  : option (list bfq_event) :=
  match r with
  | Ok d => Some (blktrace d)
  | _ => None
  end.

(** An active sync queue whose only request needs 8 sectors while 4
    are left of its budget. *)
Definition ex_bfqq_tight : bfq_queue :=
  set_entity {| budget := 4; service := 0; ioprio_class := IOPRIO_CLASS_BE |}
    (mk_bfqq true true IOPRIO_CLASS_BE [mk_rq 11 100 8 true 1]).

Definition ex_bfqd_tight : bfq_data (list nat) :=
  set_queues (<[1%nat := ex_bfqq_tight]> ∅)
    (set_busy_queues 1
       (set_queued 1
          (set_active_queue (Some 1%nat) (bfq_init_queue 1000 [])))).

(** The active queue of [ex_bfqd_seeky] about to idle: its io context
    opened the slice and its task is alive. *)
Definition ex_bfqd_idle : bfq_data (list nat) :=
  set_active_cic (Some 1%nat)
    (set_cics (<[1%nat := {| nr_tasks := 1; seek_samples := 0;
                             seek_mean := 0; last_end_request := 0 |}]> ∅)
       ex_bfqd_seeky).

(** A queue whose oldest request is past its deadline at jiffy 300,
    checked three times in a slice; a request is dispatched after each
    of the first two checks. *)
Definition ex_bfqq_fifo : bfq_queue :=
  mk_bfqq true true IOPRIO_CLASS_BE
    [mk_rq 11 100 8 true 1; mk_rq 12 200 8 true 1; mk_rq 13 300 8 true 1].

Definition ex_fifo_steps : list (Z * (bfq_queue → bfq_queue)) :=
  [(300, λ q, set_dispatched (dispatched q + 1)
                (set_fifo (tail (fifo q)) q));
   (301, λ q, set_dispatched (dispatched q + 1)
                (set_fifo (tail (fifo q)) q));
   (302, λ q, q)].

(** ** One slice seen from a queue

    A sequence of calls to [bfq_check_fifo] on one queue, each made at
    some time and followed by some work [f] on the queue; the list of
    the requests the calls return.  [keeps_fifo_expire f] says that the
    work does not clear the [fifo_expire] flag, which in the file only
    [__bfq_set_active_queue] does. *)

Fixpoint bfq_slice_fifo_checks
  (steps : list (Z * (bfq_queue → bfq_queue))) (bfqq : bfq_queue)
  : list (option request) :=
  match steps with
  | [] => []
  | (jiffies, f) :: steps =>
      let '(rq, bfqq) := bfq_check_fifo jiffies bfqq in
      rq :: bfq_slice_fifo_checks steps (f bfqq)
  end.

Definition keeps_fifo_expire (f : bfq_queue → bfq_queue) : Prop :=
  ∀ q, flag_fifo_expire q = true → flag_fifo_expire (f q) = true.

(** ** Frame predicates

    What an operation leaves alone: [bfqq_kept q q'] says that the
    queue has the same requests, in-flight count, flags and timeout
    stamp; [bfqd_kept d d'] that the device state has the same
    dispatch list, request counters, tunables and io contexts;
    [bfqd_ctl_kept d d'] that it has the same active queue and io
    context, timer, trace and number of busy queues. *)

Definition bfqq_kept (q q' : bfq_queue) : Prop :=
  next_rq q' = next_rq q
  ∧ sort_list q' = sort_list q
  ∧ fifo q' = fifo q
  ∧ dispatched q' = dispatched q
  ∧ budget_timeout q' = budget_timeout q
  ∧ budgets_assigned q' = budgets_assigned q
  ∧ flag_sync q' = flag_sync q
  ∧ flag_idle_window q' = flag_idle_window q
  ∧ flag_budget_new q' = flag_budget_new q
  ∧ flag_fifo_expire q' = flag_fifo_expire q
  ∧ flag_wait_request q' = flag_wait_request q
  ∧ ioprio_class (entity q') = ioprio_class (entity q).

Definition bfqd_kept {T} (d d' : bfq_data T) : Prop :=
  dispatch_list d' = dispatch_list d
  ∧ queued d' = queued d
  ∧ unplug_work d' = unplug_work d
  ∧ tun d' = tun d
  ∧ cics d' = cics d
  ∧ sync_flight d' = sync_flight d
  ∧ rq_in_driver_async d' = rq_in_driver_async d
  ∧ rq_in_driver_sync d' = rq_in_driver_sync d
  ∧ last_position d' = last_position d.

(** The reason under which [bfq_bfqq_expire] proceeds once the queue
    has been classified. *)
Definition bfq_expire_reason (slow : bool) (reason : bfqq_expiration)
  : bfqq_expiration :=
  if slow && bool_decide (reason = BFQ_BFQQ_TOO_IDLE)
  then BFQ_BFQQ_BUDGET_TIMEOUT else reason.

(** Whether [bfq_bfqq_expire] charges the full budget. *)
Definition bfq_expire_charges (reason : bfqq_expiration) (q : bfq_queue)
  : bool :=
  bool_decide (reason = BFQ_BFQQ_BUDGET_TIMEOUT) || negb (flag_sync q).

Definition bfqd_ctl_kept {T} (d d' : bfq_data T) : Prop :=
  active_queue d' = active_queue d
  ∧ active_cic d' = active_cic d
  ∧ idle_slice_timer d' = idle_slice_timer d
  ∧ blktrace d' = blktrace d
  ∧ busy_queues d' = busy_queues d.

(** [bfqd_disp_kept d d'] : the operation moved no request to the
    dispatch list, logged nothing, kept the active queue and the
    tunables, and kept every queue in place with its [fifo_expire] and
    [sync] flags. *)
Definition bfqd_disp_kept {T} (d d' : bfq_data T) : Prop :=
  dispatch_list d' = dispatch_list d
  ∧ blktrace d' = blktrace d
  ∧ tun d' = tun d
  ∧ active_queue d' = active_queue d
  ∧ ∀ k q, queues d !! k = Some q →
      ∃ q', queues d' !! k = Some q'
            ∧ flag_fifo_expire q' = flag_fifo_expire q
            ∧ flag_sync q' = flag_sync q.

(** A function on queues that keeps the two flags. *)
Definition keeps_flags (f : bfq_queue → bfq_queue) : Prop :=
  ∀ q, flag_fifo_expire (f q) = flag_fifo_expire q
       ∧ flag_sync (f q) = flag_sync q.

(** ** Bookkeeping of the requests of a queue

    [bfqq_rqs_kept q q'] : the queue holds the same requests, with the
    same counters; [bfqq_unlinked rq q q'] : [rq] has been taken off the
    sort list and the FIFO of the queue and is no longer counted;
    [bfqq_rq_wf q] : no request is twice in the sort list and
    [next_rq], if set, points into the sort list. *)

Definition bfqq_rqs_kept (q q' : bfq_queue) : Prop :=
  sort_list q' = sort_list q
  ∧ fifo q' = fifo q
  ∧ next_rq q' = next_rq q
  ∧ queued_sync q' = queued_sync q
  ∧ queued_async q' = queued_async q
  ∧ meta_pending q' = meta_pending q
  ∧ dispatched q' = dispatched q
  ∧ flag_sync q' = flag_sync q.

Definition bfqq_unlinked (rq : request) (q q' : bfq_queue) : Prop :=
  sort_list q' = unlink_rq (rq_id rq) (sort_list q)
  ∧ fifo q' = unlink_rq (rq_id rq) (fifo q)
  ∧ queued_sync q'
      = (if rq_is_sync rq then queued_sync q - 1 else queued_sync q)
  ∧ queued_async q'
      = (if rq_is_sync rq then queued_async q else queued_async q - 1)
  ∧ meta_pending q'
      = (if rq_is_meta rq then meta_pending q - 1 else meta_pending q)
  ∧ flag_sync q' = flag_sync q.

Definition bfqq_rq_wf (q : bfq_queue) : Prop :=
  NoDup (rq_id <$> sort_list q)
  ∧ ∀ x, next_rq q = Some x → x ∈ sort_list q.

(** [bfqd_upd qid R delta d d'] : between [d] and [d'] the queue at
    [qid] went from some [q] to some [q'] with [R q q'], the other
    queues stayed as they were, [queued] changed by [delta], and the
    dispatch list, the in-flight counters, the active queue, the
    tunables and the head position are the same. *)
Definition bfqd_upd {T} (qid : nat) (R : bfq_queue → bfq_queue → Prop)
  (delta : Z) (d d' : bfq_data T) : Prop :=
  (∃ q q', queues d !! qid = Some q ∧ queues d' !! qid = Some q' ∧ R q q')
  ∧ (∀ k, k ≠ qid → queues d' !! k = queues d !! k)
  ∧ queued d' = queued d + delta
  ∧ dispatch_list d' = dispatch_list d
  ∧ sync_flight d' = sync_flight d
  ∧ rq_in_driver_async d' = rq_in_driver_async d
  ∧ rq_in_driver_sync d' = rq_in_driver_sync d
  ∧ active_queue d' = active_queue d
  ∧ tun d' = tun d
  ∧ last_position d' = last_position d.

(** ** The forced drain of one queue

    [__bfq_forced_dispatch_bfqq]: the [while (bfqq->next_rq != NULL)]
    loop, unrolled at most [fuel] times, then the [BUG_ON] on the
    FIFO. *)

Definition list_empty (l : list request) : bool :=
  match l with
  | [] => true
  | _ => false
  end.

Section Forced.
Context {T : Type} `{BfqSched T}.

Fixpoint __bfq_forced_dispatch_loop (fuel : nat) (qid : nat)
  (nr_dispatched : Z) (bfqd : bfq_data T) : result (Z * bfq_data T) :=
  match fuel with
  | O => OutOfFuel
  | S fuel =>
      bfqq ← deref (queues bfqd !! qid);
      match next_rq bfqq with
      | None => Ok (nr_dispatched, bfqd)
      | Some rq =>
          bfqd ← bfq_dispatch_insert rq bfqd;
          __bfq_forced_dispatch_loop fuel qid (nr_dispatched + 1) bfqd
      end
  end.

Definition __bfq_forced_dispatch_bfqq (fuel : nat) (qid : nat)
  (bfqd : bfq_data T) : result (Z * bfq_data T) :=
  '(nr_dispatched, bfqd) ← __bfq_forced_dispatch_loop fuel qid 0 bfqd;
  bfqq ← deref (queues bfqd !! qid);
  _ ← BUG_ON (negb (list_empty (fifo bfqq)));
  Ok (nr_dispatched, bfqd).

End Forced.

(** The sectors of a list of requests. *)
Definition rq_sectors_sum (l : list request) : Z :=
  foldr (λ r s, blk_rq_sectors r + s) 0 l.

(** The number of requests of a list in one direction. *)
Definition count_rqs (sync : bool) (l : list request) : Z :=
  Z.of_nat (length (filter (λ r, rq_is_sync r = sync) l)).

(** [bfqq_drain_wf qid q] : the queue at [qid] is consistent: no request
    twice in the sort list; [next_rq] points into the sort list, and is
    set when the list is not empty; the requests are requests of this
    queue; the FIFO holds requests of the sort list; the two [queued]
    counters count the requests of the sort list. *)
Definition bfqq_drain_wf (qid : nat) (q : bfq_queue) : Prop :=
  bfqq_rq_wf q
  ∧ (next_rq q = None → sort_list q = [])
  ∧ (∀ x, x ∈ sort_list q → RQ_BFQQ x = qid)
  ∧ (∀ x, x ∈ fifo q → x ∈ sort_list q)
  ∧ queued_sync q = count_rqs true (sort_list q)
  ∧ queued_async q = count_rqs false (sort_list q).

(** ** Admission of a new request ([__bfq_may_queue]) *)

(** The return values of [elevator_may_queue_fn]. *)
Inductive elv_mqueue :=
  | ELV_MQUEUE_MAY
  | ELV_MQUEUE_NO
  | ELV_MQUEUE_MUST.

Definition __bfq_may_queue (bfqq : bfq_queue) : elv_mqueue * bfq_queue :=
  if flag_wait_request bfqq && flag_must_alloc bfqq
  then (ELV_MQUEUE_MUST, set_flag_must_alloc false bfqq)
  else (ELV_MQUEUE_MAY, bfqq).

(** The answers of [__bfq_may_queue] to a series of calls on one queue;
    [steps] gives what happens to the queue after each call. *)
Fixpoint bfq_may_queue_answers (steps : list (bfq_queue → bfq_queue))
  (bfqq : bfq_queue) : list elv_mqueue :=
  match steps with
  | [] => []
  | f :: steps =>
      let '(r, bfqq) := __bfq_may_queue bfqq in
      r :: bfq_may_queue_answers steps (f bfqq)
  end.

Definition keeps_must_alloc_clear (f : bfq_queue → bfq_queue) : Prop :=
  ∀ q, flag_must_alloc q = false → flag_must_alloc (f q) = false.

(** ** Requests handed to and taken back from the driver *)

Definition set_last_position {T} (v : Z) (r : bfq_data T) : bfq_data T :=
  {| queues := queues r; cics := cics r; sched := sched r; active_queue :=
     active_queue r; active_cic := active_cic r; busy_queues :=
     busy_queues r; queued := queued r; sync_flight := sync_flight r;
     rq_in_driver_async := rq_in_driver_async r; rq_in_driver_sync :=
     rq_in_driver_sync r; max_rq_in_driver := max_rq_in_driver r;
     hw_tag_samples := hw_tag_samples r; hw_tag := hw_tag r; last_position
     := v; last_budget_start := last_budget_start r;
     last_idling_start := last_idling_start r; idle_slice_timer :=
     idle_slice_timer r; unplug_work := unplug_work r; peak_rate :=
     peak_rate r; peak_rate_samples := peak_rate_samples r; bfq_max_budget
     := bfq_max_budget r; tun := tun r; dispatch_list := dispatch_list r;
     blktrace := blktrace r |}.

Definition bfq_activate_request {T} (rq : request) (bfqd : bfq_data T)
  : bfq_data T :=
  let bfqd :=
    if rq_is_sync rq
    then set_rq_in_driver_sync (rq_in_driver_sync bfqd + 1) bfqd
    else set_rq_in_driver_async (rq_in_driver_async bfqd + 1) bfqd in
  set_last_position (u64 (blk_rq_pos rq + blk_rq_sectors rq)) bfqd.

(** The [WARN_ON] of the C function only logs. *)
Definition bfq_deactivate_request {T} (rq : request) (bfqd : bfq_data T)
  : bfq_data T :=
  if rq_is_sync rq
  then set_rq_in_driver_sync (rq_in_driver_sync bfqd - 1) bfqd
  else set_rq_in_driver_async (rq_in_driver_async bfqd - 1) bfqd.

(** ** The sysfs attributes

    [parsed] is the [unsigned long] that [simple_strtoul] reads from
    the page written by the user; the [show] functions are modelled by
    the number they print with [%d].  The two [fifo_expire] attributes
    write fields that the model does not hold and are left out. *)

Definition set_tun {T} (v : bfq_tunables) (r : bfq_data T) : bfq_data T :=
  {| queues := queues r; cics := cics r; sched := sched r; active_queue :=
     active_queue r; active_cic := active_cic r; busy_queues :=
     busy_queues r; queued := queued r; sync_flight := sync_flight r;
     rq_in_driver_async := rq_in_driver_async r; rq_in_driver_sync :=
     rq_in_driver_sync r; max_rq_in_driver := max_rq_in_driver r;
     hw_tag_samples := hw_tag_samples r; hw_tag := hw_tag r; last_position
     := last_position r; last_budget_start := last_budget_start r;
     last_idling_start := last_idling_start r; idle_slice_timer :=
     idle_slice_timer r; unplug_work := unplug_work r; peak_rate :=
     peak_rate r; peak_rate_samples := peak_rate_samples r; bfq_max_budget
     := bfq_max_budget r; tun := v; dispatch_list := dispatch_list r;
     blktrace := blktrace r |}.

Definition set_bfq_quantum (v : Z) (t : bfq_tunables) : bfq_tunables :=
  {| bfq_quantum := v; bfq_back_max := bfq_back_max t;
     bfq_back_penalty := bfq_back_penalty t;
     bfq_slice_idle := bfq_slice_idle t;
     bfq_user_max_budget := bfq_user_max_budget t;
     bfq_max_budget_async_rq := bfq_max_budget_async_rq t;
     bfq_timeout_async := bfq_timeout_async t;
     bfq_timeout_sync := bfq_timeout_sync t;
     bfq_desktop := bfq_desktop t |}.
Definition set_bfq_back_max (v : Z) (t : bfq_tunables) : bfq_tunables :=
  {| bfq_quantum := bfq_quantum t; bfq_back_max := v;
     bfq_back_penalty := bfq_back_penalty t;
     bfq_slice_idle := bfq_slice_idle t;
     bfq_user_max_budget := bfq_user_max_budget t;
     bfq_max_budget_async_rq := bfq_max_budget_async_rq t;
     bfq_timeout_async := bfq_timeout_async t;
     bfq_timeout_sync := bfq_timeout_sync t;
     bfq_desktop := bfq_desktop t |}.
Definition set_bfq_back_penalty (v : Z) (t : bfq_tunables) : bfq_tunables :=
  {| bfq_quantum := bfq_quantum t; bfq_back_max := bfq_back_max t;
     bfq_back_penalty := v;
     bfq_slice_idle := bfq_slice_idle t;
     bfq_user_max_budget := bfq_user_max_budget t;
     bfq_max_budget_async_rq := bfq_max_budget_async_rq t;
     bfq_timeout_async := bfq_timeout_async t;
     bfq_timeout_sync := bfq_timeout_sync t;
     bfq_desktop := bfq_desktop t |}.
Definition set_bfq_slice_idle (v : Z) (t : bfq_tunables) : bfq_tunables :=
  {| bfq_quantum := bfq_quantum t; bfq_back_max := bfq_back_max t;
     bfq_back_penalty := bfq_back_penalty t;
     bfq_slice_idle := v;
     bfq_user_max_budget := bfq_user_max_budget t;
     bfq_max_budget_async_rq := bfq_max_budget_async_rq t;
     bfq_timeout_async := bfq_timeout_async t;
     bfq_timeout_sync := bfq_timeout_sync t;
     bfq_desktop := bfq_desktop t |}.
Definition set_bfq_user_max_budget (v : Z) (t : bfq_tunables)
  : bfq_tunables :=
  {| bfq_quantum := bfq_quantum t; bfq_back_max := bfq_back_max t;
     bfq_back_penalty := bfq_back_penalty t;
     bfq_slice_idle := bfq_slice_idle t;
     bfq_user_max_budget := v;
     bfq_max_budget_async_rq := bfq_max_budget_async_rq t;
     bfq_timeout_async := bfq_timeout_async t;
     bfq_timeout_sync := bfq_timeout_sync t;
     bfq_desktop := bfq_desktop t |}.
Definition set_bfq_max_budget_async_rq (v : Z) (t : bfq_tunables)
  : bfq_tunables :=
  {| bfq_quantum := bfq_quantum t; bfq_back_max := bfq_back_max t;
     bfq_back_penalty := bfq_back_penalty t;
     bfq_slice_idle := bfq_slice_idle t;
     bfq_user_max_budget := bfq_user_max_budget t;
     bfq_max_budget_async_rq := v;
     bfq_timeout_async := bfq_timeout_async t;
     bfq_timeout_sync := bfq_timeout_sync t;
     bfq_desktop := bfq_desktop t |}.
Definition set_bfq_timeout_async (v : Z) (t : bfq_tunables) : bfq_tunables :=
  {| bfq_quantum := bfq_quantum t; bfq_back_max := bfq_back_max t;
     bfq_back_penalty := bfq_back_penalty t;
     bfq_slice_idle := bfq_slice_idle t;
     bfq_user_max_budget := bfq_user_max_budget t;
     bfq_max_budget_async_rq := bfq_max_budget_async_rq t;
     bfq_timeout_async := v;
     bfq_timeout_sync := bfq_timeout_sync t;
     bfq_desktop := bfq_desktop t |}.
Definition set_bfq_timeout_sync (v : Z) (t : bfq_tunables) : bfq_tunables :=
  {| bfq_quantum := bfq_quantum t; bfq_back_max := bfq_back_max t;
     bfq_back_penalty := bfq_back_penalty t;
     bfq_slice_idle := bfq_slice_idle t;
     bfq_user_max_budget := bfq_user_max_budget t;
     bfq_max_budget_async_rq := bfq_max_budget_async_rq t;
     bfq_timeout_async := bfq_timeout_async t;
     bfq_timeout_sync := v;
     bfq_desktop := bfq_desktop t |}.
Definition set_bfq_desktop (v : Z) (t : bfq_tunables) : bfq_tunables :=
  {| bfq_quantum := bfq_quantum t; bfq_back_max := bfq_back_max t;
     bfq_back_penalty := bfq_back_penalty t;
     bfq_slice_idle := bfq_slice_idle t;
     bfq_user_max_budget := bfq_user_max_budget t;
     bfq_max_budget_async_rq := bfq_max_budget_async_rq t;
     bfq_timeout_async := bfq_timeout_async t;
     bfq_timeout_sync := bfq_timeout_sync t;
     bfq_desktop := v |}.

(** [%d] of an [unsigned int]. *)
Definition bfq_var_show (var : Z) : Z := (var + 2 ^ 31) mod 2 ^ 32 - 2 ^ 31.

(** [*var = simple_strtoul(p, &p, 10)] into an [unsigned int]. *)
Definition bfq_var_store (parsed : Z) : Z := u32 parsed.

Section Sysfs.
Context `{KernelTime} {T : Type}.

(** The number printed by a function generated by [SHOW_FUNCTION]. *)
Definition SHOW_FUNCTION (var : Z) (conv : bool) : Z :=
  let data := u32 var in
  let data := if conv then u32 (jiffies_to_msecs data) else data in
  bfq_var_show data.

(** The value stored by a function generated by [STORE_FUNCTION]. *)
Definition STORE_FUNCTION (MIN MAX : Z) (conv : bool) (parsed : Z) : Z :=
  let data := bfq_var_store parsed in
  let data :=
    if data <? MIN then MIN
    else if MAX <? data then MAX
    else data in
  if conv then u32 (msecs_to_jiffies data) else data.

Definition bfq_estimated_max_budget (bfqd : bfq_data T) : Z :=
  let timeout := jiffies_to_msecs (bfq_timeout_sync (tun bfqd)) in
  if BFQ_PEAK_RATE_SAMPLES <=? peak_rate_samples bfqd
  then bfq_calc_max_budget (peak_rate bfqd) timeout
  else bfq_max_budget_default.

Definition bfq_max_budget_store (parsed : Z) (bfqd : bfq_data T)
  : bfq_data T :=
  let data := bfq_var_store parsed in
  let '(data, bfqd) :=
    if data =? 0
    then (data, set_bfq_max_budget (bfq_estimated_max_budget bfqd) bfqd)
    else
      let data := if INT_MAX <? data then INT_MAX else data in
      (data, set_bfq_max_budget data bfqd) in
  set_tun (set_bfq_user_max_budget data (tun bfqd)) bfqd.

Definition bfq_timeout_sync_store (parsed : Z) (bfqd : bfq_data T)
  : bfq_data T :=
  let data := bfq_var_store parsed in
  let data :=
    if data <? 1 then 1
    else if INT_MAX <? data then INT_MAX
    else data in
  let bfqd :=
    set_tun (set_bfq_timeout_sync (u32 (msecs_to_jiffies data)) (tun bfqd))
      bfqd in
  if bfq_user_max_budget (tun bfqd) =? 0
  then set_bfq_max_budget (bfq_estimated_max_budget bfqd) bfqd
  else bfqd.

(** The entries of [bfq_attrs]. *)
Inductive bfq_attr :=
  | ATTR_quantum
  | ATTR_back_seek_max
  | ATTR_back_seek_penalty
  | ATTR_slice_idle
  | ATTR_max_budget
  | ATTR_max_budget_async_rq
  | ATTR_timeout_sync
  | ATTR_timeout_async
  | ATTR_desktop.

Definition bfq_attr_show (a : bfq_attr) (bfqd : bfq_data T) : Z :=
  match a with
  | ATTR_quantum => SHOW_FUNCTION (bfq_quantum (tun bfqd)) false
  | ATTR_back_seek_max => SHOW_FUNCTION (bfq_back_max (tun bfqd)) false
  | ATTR_back_seek_penalty =>
      SHOW_FUNCTION (bfq_back_penalty (tun bfqd)) false
  | ATTR_slice_idle => SHOW_FUNCTION (bfq_slice_idle (tun bfqd)) true
  | ATTR_max_budget => SHOW_FUNCTION (bfq_user_max_budget (tun bfqd)) false
  | ATTR_max_budget_async_rq =>
      SHOW_FUNCTION (bfq_max_budget_async_rq (tun bfqd)) false
  | ATTR_timeout_sync => SHOW_FUNCTION (bfq_timeout_sync (tun bfqd)) true
  | ATTR_timeout_async => SHOW_FUNCTION (bfq_timeout_async (tun bfqd)) true
  | ATTR_desktop => SHOW_FUNCTION (bfq_desktop (tun bfqd)) false
  end.

Definition bfq_attr_store (a : bfq_attr) (parsed : Z) (bfqd : bfq_data T)
  : bfq_data T :=
  let upd f := set_tun (f (tun bfqd)) bfqd in
  match a with
  | ATTR_quantum =>
      upd (set_bfq_quantum (STORE_FUNCTION 1 INT_MAX false parsed))
  | ATTR_back_seek_max =>
      upd (set_bfq_back_max (STORE_FUNCTION 0 INT_MAX false parsed))
  | ATTR_back_seek_penalty =>
      upd (set_bfq_back_penalty (STORE_FUNCTION 1 INT_MAX false parsed))
  | ATTR_slice_idle =>
      upd (set_bfq_slice_idle (STORE_FUNCTION 0 INT_MAX true parsed))
  | ATTR_max_budget => bfq_max_budget_store parsed bfqd
  | ATTR_max_budget_async_rq =>
      upd (set_bfq_max_budget_async_rq
             (STORE_FUNCTION 1 INT_MAX false parsed))
  | ATTR_timeout_sync => bfq_timeout_sync_store parsed bfqd
  | ATTR_timeout_async =>
      upd (set_bfq_timeout_async (STORE_FUNCTION 0 INT_MAX true parsed))
  | ATTR_desktop =>
      upd (set_bfq_desktop (STORE_FUNCTION 0 1 false parsed))
  end.

(** The range in which an attribute keeps its value, and whether it is
    kept in jiffies and shown in milliseconds. *)
Definition bfq_attr_min (a : bfq_attr) : Z :=
  match a with
  | ATTR_quantum | ATTR_back_seek_penalty | ATTR_max_budget_async_rq
  | ATTR_timeout_sync => 1
  | _ => 0
  end.

Definition bfq_attr_max (a : bfq_attr) : Z :=
  match a with
  | ATTR_desktop => 1
  | _ => INT_MAX
  end.

Definition bfq_attr_conv (a : bfq_attr) : bool :=
  match a with
  | ATTR_slice_idle | ATTR_timeout_sync | ATTR_timeout_async => true
  | _ => false
  end.

End Sysfs.

(** ** Think-time and seek statistics of an io context

    [cic_stats] holds the fields of [struct cfq_io_context] that only
    the enqueue path uses. *)

Record cic_stats := {
  ttime_total : Z;
  ttime_samples : Z;
  ttime_mean : Z;
  seek_total : Z;
  last_request_pos : Z;
}.

Definition set_seek (samples mean : Z) (r : cfq_io_context)
  : cfq_io_context :=
  {| nr_tasks := nr_tasks r; seek_samples := samples; seek_mean := mean;
     last_end_request := last_end_request r |}.

Definition bfq_update_io_thinktime {T} (jiffies : Z) (bfqd : bfq_data T)
  (cic : cfq_io_context) (st : cic_stats) : result cic_stats :=
  let elapsed := u64 (jiffies - last_end_request cic) in
  let ttime := Z.min elapsed (u64 (2 * bfq_slice_idle (tun bfqd))) in
  let samples := u64 (7 * ttime_samples st + 256) / 8 in
  let total := u64 (7 * ttime_total st + 256 * ttime) / 8 in
  mean ← udiv (u64 (total + 128)) samples;
  Ok {| ttime_total := total;
        ttime_samples := samples;
        ttime_mean := mean;
        seek_total := seek_total st;
        last_request_pos := last_request_pos st |}.

Definition bfq_update_io_seektime (rq : request) (cic : cfq_io_context)
  (st : cic_stats) : result (cfq_io_context * cic_stats) :=
  let sdist :=
    if last_request_pos st <? blk_rq_pos rq
    then u64 (blk_rq_pos rq - last_request_pos st)
    else u64 (last_request_pos st - blk_rq_pos rq) in
  let sdist :=
    if seek_samples cic =? 0 then 0
    else if seek_samples cic <=? 60
    then Z.min sdist (u64 (seek_mean cic * 4 + 2 * 1024 * 1024))
    else Z.min sdist (u64 (seek_mean cic * 4 + 2 * 1024 * 64)) in
  let samples := u32 (7 * seek_samples cic + 256) / 8 in
  let total := u64 (7 * seek_total st + 256 * sdist) / 8 in
  mean ← do_div (u64 (total + samples / 2)) samples;
  Ok (set_seek samples mean cic,
      {| ttime_total := ttime_total st;
         ttime_samples := ttime_samples st;
         ttime_mean := ttime_mean st;
         seek_total := total;
         last_request_pos := last_request_pos st |}).

(** ** Further example states *)

(** One busy sync queue holding the three requests of [ex_bfqq_fifo];
    no queue is active. *)
Definition ex_bfqd_three : bfq_data (list nat) :=
  set_queues (<[1%nat := ex_bfqq_fifo]> ∅)
    (set_cics (<[1%nat := {| nr_tasks := 1; seek_samples := 0;
                             seek_mean := 0; last_end_request := 0 |}]> ∅)
       (set_busy_queues 1 (set_queued 3 (bfq_init_queue 1000 [1%nat])))).

(** A queue the scheduler is idling on in a slice that has not yet
    answered MUST. *)
Definition ex_bfqq_waiting : bfq_queue :=
  set_flag_wait_request true
    (set_flag_must_alloc true (mk_bfqq true true IOPRIO_CLASS_BE [])).

(** ** The first slices of a queue

    [n] successive activations of the queue at [qid]; what happens to
    the queue between two of them does not touch [budgets_assigned],
    which only [__bfq_set_active_queue] writes. *)
Fixpoint bfq_activations {T} (n : nat) (qid : nat) (bfqd : bfq_data T)
  : result (bfq_data T) :=
  match n with
  | O => Ok bfqd
  | S n =>
      bfqd ← __bfq_set_active_queue (Some qid) bfqd;
      bfq_activations n qid bfqd
  end.

(** ** Example states of the budget and of the slice length *)







(** * Properties *)

(** ** Machine arithmetic *)

Lemma u64_small x : 0 ≤ x < 2 ^ 64 → u64 x = x.
Proof. intros Hx. unfold u64. apply Z.mod_small. exact Hx. Qed.

Lemma u32_small x : 0 ≤ x < 2 ^ 32 → u32 x = x.
Proof. intros Hx. unfold u32. apply Z.mod_small. exact Hx. Qed.

Lemma u64_range x : 0 ≤ u64 x < 2 ^ 64.
Proof. unfold u64. apply Z.mod_pos_bound. lia. Qed.

(** ** The elevator proximity rule ([bfq_choose_req]) *)

Section ChooseProps.
Context {T : Type}.

(** The score computed by the C code agrees with the reference
    definitions as long as no sum leaves the 64-bit range. *)
Lemma bfq_rq_distance_spec last back_max pen s bit :
  0 ≤ back_max < 2 ^ 32 → 1 ≤ pen ≤ INT_MAX →
  0 ≤ s < 2 ^ 64 → 0 ≤ last → last + back_max < 2 ^ 64 →
  bfq_rq_distance last back_max pen s bit =
    if prox_wrapped last back_max s then (0, bit)
    else (prox_distance last pen s, 0).
Proof.
  intros Hbm Hpen Hs Hl Hlb. unfold INT_MAX in Hpen.
  unfold bfq_rq_distance, prox_wrapped, prox_distance.
  destruct (Z.leb_spec last s) as [Hle | Hlt].
  - destruct (Z.ltb_spec (s + back_max) last); [lia |].
    rewrite u64_small by lia. reflexivity.
  - rewrite (u64_small (s + back_max)) by lia.
    destruct (Z.leb_spec last (s + back_max)) as [Hin | Hout].
    + destruct (Z.ltb_spec (s + back_max) last); [lia |].
      rewrite (u64_small (last - s)) by lia.
      rewrite u64_small by nia. reflexivity.
    + destruct (Z.ltb_spec (s + back_max) last); [reflexivity | lia].
Qed.

(** C4 (amended): for two distinct candidates that agree on the sync
    and on the meta flag, with the tunables in their sysfs ranges and
    positions that keep the sums within 64 bits, [bfq_choose_req]
    returns the choice of the proximity rule: a request behind the
    head by exactly [back_max = 2 * bfq_back_max] sectors is scored
    [(last - s) * back_penalty] and not wrapped, one sector further it
    is wrapped; with no wrap the smaller distance wins and a tie goes
    to the larger sector; with one wrap the other request wins; with
    two wraps the smaller sector wins. *)
Theorem bfq_choose_req_proximity (bfqd : bfq_data T) (r1 r2 : request) :
  let last := last_position bfqd in
  let back_max := 2 * bfq_back_max (tun bfqd) in
  let pen := bfq_back_penalty (tun bfqd) in
  rq_id r1 ≠ rq_id r2 →
  rq_is_sync r1 = rq_is_sync r2 →
  rq_is_meta r1 = rq_is_meta r2 →
  0 ≤ bfq_back_max (tun bfqd) ≤ INT_MAX →
  1 ≤ pen ≤ INT_MAX →
  0 ≤ blk_rq_pos r1 < 2 ^ 64 →
  0 ≤ blk_rq_pos r2 < 2 ^ 64 →
  0 ≤ last →
  last + back_max < 2 ^ 64 →
  bfq_choose_req bfqd (Some r1) (Some r2)
    = Some (prox_choice last back_max pen r1 r2)
  ∧ (∀ s bit, 0 ≤ s → last - s = back_max →
       bfq_rq_distance last (u32 back_max) pen s bit
         = ((last - s) * pen, 0))
  ∧ (∀ s bit, 0 ≤ s → last - s = back_max + 1 →
       bfq_rq_distance last (u32 back_max) pen s bit = (0, bit)).
Proof.
  intros last back_max pen Hid Hsync Hmeta Hbm Hpen Hs1 Hs2 Hl Hlb.
  assert (Hbm32 : 0 ≤ back_max < 2 ^ 32)
    by (unfold back_max, INT_MAX in *; lia).
  assert (Hu32 : u32 (bfq_back_max (tun bfqd) * 2) = back_max)
    by (rewrite u32_small; unfold back_max in *; lia).
  split; [| split].
  - unfold bfq_choose_req, rq_ptr_eqb.
    destruct (Nat.eqb_spec (rq_id r1) (rq_id r2)) as [Heq | _];
      [contradiction |].
    rewrite Hsync, Hmeta.
    rewrite !andb_negb_r. rewrite Hu32.
    fold last pen.
    rewrite !bfq_rq_distance_spec by assumption.
    unfold prox_choice.
    destruct (prox_wrapped last back_max (blk_rq_pos r1)),
             (prox_wrapped last back_max (blk_rq_pos r2)); cbn;
      repeat match goal with |- context [if ?b then _ else _] =>
               destruct b end; reflexivity.
  - intros s bit Hs Hd. rewrite u32_small by assumption.
    rewrite bfq_rq_distance_spec by (try assumption; lia).
    unfold prox_wrapped, prox_distance.
    destruct (Z.ltb_spec (s + back_max) last); [lia |].
    destruct (Z.leb_spec last s) as [Hle | Hlt]; [| reflexivity].
    f_equal. lia.
  - intros s bit Hs Hd. rewrite u32_small by assumption.
    rewrite bfq_rq_distance_spec by (try assumption; lia).
    unfold prox_wrapped.
    destruct (Z.ltb_spec (s + back_max) last); [reflexivity | lia].
Qed.
End ChooseProps.

  (** Witness of [bfq_choose_req_proximity]: two sync reads ahead of the
      head; the nearer one is chosen. *)
Lemma bfq_choose_req_proximity_witness :
  bfq_choose_req ex_bfqd0 (Some ex_rq_far) (Some ex_rq_near)
    = Some ex_rq_near.
Proof.
  pose proof (bfq_choose_req_proximity ex_bfqd0 ex_rq_far ex_rq_near) as H.
  cbv zeta in H.
  destruct H as [H _];
    [ cbn; lia | reflexivity | reflexivity
    | cbn; unfold INT_MAX; lia | cbn; unfold INT_MAX; lia
    | cbn; lia | cbn; lia | cbn; lia | cbn; lia | ].
  rewrite H. reflexivity.
Defined.

(** C4 (as stated) fails: a sync request is preferred to an async one
    before any distance is computed.  Both candidates are ahead of the
    head, the async one is nearer, yet the sync one is returned. *)
Lemma bfq_choose_req_counterexample :
  rq_id ex_rq_far ≠ rq_id ex_rq_near_async
  ∧ prox_wrapped 0 32768 (blk_rq_pos ex_rq_far) = false
  ∧ prox_wrapped 0 32768 (blk_rq_pos ex_rq_near_async) = false
  ∧ prox_distance 0 2 (blk_rq_pos ex_rq_near_async)
      < prox_distance 0 2 (blk_rq_pos ex_rq_far)
  ∧ prox_choice 0 32768 2 ex_rq_far ex_rq_near_async = ex_rq_near_async
  ∧ bfq_choose_req ex_bfqd0 (Some ex_rq_far) (Some ex_rq_near_async)
      = Some ex_rq_far.
Proof. repeat split; try reflexivity. cbn. lia. Qed.

(** ** The per-round dispatch limit *)

(** C7 (amended): the limit is [bfq_quantum] for a sync queue outside
    the IDLE class, 1 for a sync queue of the IDLE class, and
    [bfq_max_budget_async_rq] for every async queue, the IDLE class
    included; both tunables are 4 after [bfq_init_queue]. *)
Theorem bfq_max_dispatch_cases (t : bfq_tunables) (bfqq : bfq_queue) :
  bfq_max_dispatch t bfqq =
    (if flag_sync bfqq
     then if bfq_class_idle bfqq then 1 else bfq_quantum t
     else bfq_max_budget_async_rq t)
  ∧ (∀ HZ, bfq_quantum (bfq_init_tunables HZ) = 4
           ∧ bfq_max_budget_async_rq (bfq_init_tunables HZ) = 4).
Proof.
  split; [| intros HZ; split; reflexivity].
  unfold bfq_max_dispatch.
  destruct (flag_sync bfqq), (bfq_class_idle bfqq); reflexivity.
Qed.

(** C7 (as stated) fails on the async queue of the IDLE class: its
    limit is [bfq_max_budget_async_rq] (4 by default), not 1. *)
Lemma bfq_max_dispatch_counterexample :
  bfq_class_idle ex_async_idle_bfqq = true
  ∧ flag_sync ex_async_idle_bfqq = false
  ∧ bfq_max_dispatch (bfq_init_tunables 1000) ex_async_idle_bfqq = 4
  ∧ bfq_max_dispatch (bfq_init_tunables 1000) ex_async_idle_bfqq ≠ 1.
Proof. repeat split; try reflexivity. cbn. lia. Qed.

(** ** Generic facts on the result monad and on field updates *)

Lemma bind_Ok {A B} (m : result A) (f : A → result B) (b : B) :
  m ≫= f = Ok b → ∃ a, m = Ok a ∧ f a = Ok b.
Proof. destruct m as [a | |]; cbn; intros E; try discriminate. eauto. Qed.

Lemma deref_Ok {A} (o : option A) (a : A) : deref o = Ok a → o = Some a.
Proof. destruct o; cbn; intros E; congruence. Qed.

Lemma BUG_ON_Ok (c : bool) u : BUG_ON c = Ok u → c = false.
Proof. destruct c; cbn; intros E; congruence. Qed.

Lemma elv_rb_del_Ok id l l' :
  elv_rb_del id l = Ok l' → id ∈ rq_id <$> l ∧ l' = unlink_rq id l.
Proof.
  unfold elv_rb_del. intros E. apply bind_Ok in E.
  destruct E as (u & Hb & E). apply BUG_ON_Ok, negb_false_iff in Hb.
  apply bool_decide_eq_true_1 in Hb. injection E as <-. auto.
Qed.

Lemma elv_rb_del_linked id l :
  id ∈ rq_id <$> l → elv_rb_del id l = Ok (unlink_rq id l).
Proof.
  intros Hin. unfold elv_rb_del.
  rewrite bool_decide_eq_true_2 by exact Hin. reflexivity.
Qed.

Lemma elv_rb_del_unlinked id l :
  id ∉ rq_id <$> l → elv_rb_del id l = Oops.
Proof.
  intros Hin. unfold elv_rb_del.
  rewrite bool_decide_eq_false_2 by exact Hin. reflexivity.
Qed.

Ltac inv_ok :=
  repeat match goal with
  | H : _ ≫= _ = Ok _ |- _ =>
      apply bind_Ok in H; destruct H as (? & ? & H)
  | H : deref _ = Ok _ |- _ => apply deref_Ok in H
  | H : BUG_ON _ = Ok _ |- _ => apply BUG_ON_Ok in H
  | H : Ok _ = Ok _ |- _ => injection H as H; subst
  | H : mret _ = Ok _ |- _ => injection H as H; subst
  | H : (_, _) = (_, _) |- _ => injection H as ?; subst
  | H : Oops = Ok _ |- _ => discriminate H
  | H : OutOfFuel = Ok _ |- _ => discriminate H
  end.

Section Props.
Context `{KernelTime} {T : Type} `{BfqSched T}.

Lemma with_bfqq_Ok qid f (bfqd : bfq_data T) q :
  queues bfqd !! qid = Some q →
  with_bfqq qid f bfqd
    = Ok (set_queues (<[qid := f q]> (queues bfqd)) bfqd).
Proof. intros E. unfold with_bfqq. rewrite E. reflexivity. Qed.

Lemma with_bfqq_inv qid f (bfqd bfqd' : bfq_data T) :
  with_bfqq qid f bfqd = Ok bfqd' →
  ∃ q, queues bfqd !! qid = Some q
       ∧ bfqd' = set_queues (<[qid := f q]> (queues bfqd)) bfqd.
Proof. unfold with_bfqq. intros E. inv_ok. eauto. Qed.

(** ** Budget feedback ([__bfq_bfqq_recalc_budget]) *)

(** C3: on the expiration of the active queue, the new [max_budget]
    of a sync queue is [max (max_budget - 128) (global_max / 2)] for
    TOO_IDLE, [min (max_budget + 8 * 128) global_max] for
    BUDGET_EXHAUSTED, the default budget for BUDGET_TIMEOUT, each
    then clamped to the global maximum once [budgets_assigned >= 194]
    with no user-set maximum; NO_MORE_REQUESTS leaves it unchanged;
    an async queue always gets the global maximum. *)
Theorem bfq_recalc_budget_feedback (bfqd : bfq_data T) (qid : nat)
  (bfqq : bfq_queue) (reason : bfqq_expiration) :
  let gmax := bfq_max_budget bfqd in
  let clamp x :=
    if (194 <=? budgets_assigned bfqq)
       && (bfq_user_max_budget (tun bfqd) =? 0)
    then Z.min x gmax else x in
  active_queue bfqd = Some qid →
  queues bfqd !! qid = Some bfqq →
  0 ≤ gmax < 2 ^ 64 →
  0 ≤ max_budget bfqq →
  max_budget bfqq + 8 * 128 < 2 ^ 64 →
  ∃ bfqd' bfqq',
    __bfq_bfqq_recalc_budget qid reason bfqd = Ok bfqd'
    ∧ queues bfqd' !! qid = Some bfqq'
    ∧ max_budget bfqq' =
        if flag_sync bfqq then
          match reason with
          | BFQ_BFQQ_TOO_IDLE =>
              clamp (Z.max (max_budget bfqq - 128) (gmax / 2))
          | BFQ_BFQQ_BUDGET_TIMEOUT => clamp (bfq_default_budget bfqd bfqq)
          | BFQ_BFQQ_BUDGET_EXHAUSTED =>
              clamp (Z.min (max_budget bfqq + 8 * 128) gmax)
          | BFQ_BFQQ_NO_MORE_REQUESTS => max_budget bfqq
          end
        else gmax.
Proof.
  intros gmax clamp Hact Hq Hg Hb Hb'.
  unfold __bfq_bfqq_recalc_budget. rewrite Hact.
  rewrite bool_decide_eq_true_2 by reflexivity. cbn [negb BUG_ON mbind result_bind].
  rewrite (with_bfqq_Ok _ _ _ _ Hq).
  eexists _, _. split; [reflexivity |]. split.
  { cbn. apply lookup_insert_eq. }
  assert (Hclamp : ∀ x (q : bfq_queue),
    budgets_assigned q = budgets_assigned bfqq → max_budget q = x →
    max_budget
      (let q' :=
         if (194 <=? budgets_assigned q)
            && (bfq_user_max_budget (tun bfqd) =? 0)
            && (bfq_max_budget bfqd <? max_budget q)
         then set_max_budget (bfq_max_budget bfqd) q else q in
       match next_rq q' with
       | Some next_rq =>
           set_entity
             (set_budget (Z.max (max_budget q') (blk_rq_sectors next_rq))
                (entity q')) q'
       | None => q'
       end) = clamp x).
  { intros x q Hba Hx. unfold clamp. rewrite Hba. fold gmax.
    destruct ((194 <=? budgets_assigned bfqq)
              && (bfq_user_max_budget (tun bfqd) =? 0)); cbn [andb].
    - destruct (Z.ltb_spec gmax (max_budget q));
        cbv zeta; [destruct (next_rq _); cbn; lia |].
      destruct (next_rq q); cbn; lia.
    - cbv zeta. destruct (next_rq q); cbn; lia. }
  assert (Hhalf : 0 ≤ gmax / 2 < 2 ^ 63) by (Z.div_mod_to_equations; lia).
  unfold bfqq_recalc_budget, bfq_min_budget, BFQ_BUDGET_STEP. fold gmax.
  destruct (flag_sync bfqq).
  - destruct reason.
    + rewrite (u64_small (gmax / 2 + 128)).
      2:{ lia. }
      destruct (Z.ltb_spec (gmax / 2 + 128) (max_budget bfqq)).
      * rewrite u64_small by lia. cbv beta iota.
        rewrite Hclamp with (x := max_budget bfqq - 128) by reflexivity.
        f_equal. lia.
      * cbv beta iota.
        rewrite Hclamp with (x := gmax / 2) by reflexivity.
        f_equal. lia.
    + cbv beta iota. apply Hclamp; reflexivity.
    + rewrite u64_small by lia. cbv beta iota. apply Hclamp; reflexivity.
    + reflexivity.
  - cbv beta iota. rewrite Hclamp with (x := gmax) by reflexivity.
    unfold clamp. destruct (_ && _); lia.
Qed.

Ltac destr_ok :=
  repeat first
  [ progress inv_ok
  | match goal with
    | H : (if ?c then _ else _) = Ok _ |- _ => destruct c eqn:?
    | H : (match ?x with _ => _ end) = Ok _ |- _ => destruct x eqn:?
    | H : (if ?c then _ else _) ≫= _ = Ok _ |- _ => destruct c eqn:?
    | H : (match ?x with _ => _ end) ≫= _ = Ok _ |- _ => destruct x eqn:?
    end ].

Lemma bfq_slice_bw_Ok now c (bfqd : bfq_data T) q :
  flag_sync q = true → flag_budget_new q = false →
  (bfq_slice_usecs now c bfqd <? 100)
  || (LONG_MAX <=? bfq_slice_usecs now c bfqd) = false →
  bfq_peak_rate_traps now c q bfqd = false →
  ∃ bw, bfq_slice_bw q (bfq_slice_usecs now c bfqd) = Ok bw.
Proof.
  intros Hs Hn Hu Ht. unfold bfq_peak_rate_traps in Ht.
  rewrite Hs, Hn in Ht. cbn in Ht.
  apply orb_false_elim in Hu. destruct Hu as (Hu1 & Hu2).
  replace (100 <=? bfq_slice_usecs now c bfqd) with true in Ht by lia.
  replace (bfq_slice_usecs now c bfqd <? LONG_MAX) with true in Ht by lia.
  cbn in Ht. unfold bfq_slice_bw, do_div. rewrite Ht. eexists. reflexivity.
Qed.

Lemma bfq_update_peak_rate_Ok now qid c (bfqd : bfq_data T) q :
  queues bfqd !! qid = Some q →
  bfq_peak_rate_traps now c q bfqd = false →
  ∃ slow p n mb,
    bfq_update_peak_rate now qid c bfqd
      = Ok (slow, set_bfq_max_budget mb
                    (set_peak_rate_samples n (set_peak_rate p bfqd)))
    ∧ (flag_budget_new q = true → slow = false)
    ∧ (flag_sync q = false → slow = false).
Proof.
  intros Hq Ht.
  cut (∃ slow bfqd1,
         bfq_update_peak_rate now qid c bfqd = Ok (slow, bfqd1)
         ∧ bfqd1 = set_bfq_max_budget (bfq_max_budget bfqd1)
                     (set_peak_rate_samples (peak_rate_samples bfqd1)
                        (set_peak_rate (peak_rate bfqd1) bfqd))
         ∧ (flag_budget_new q = true → slow = false)
         ∧ (flag_sync q = false → slow = false)).
  { intros (slow & bfqd1 & E & Hf & Hn & Hs).
    exists slow, (peak_rate bfqd1), (peak_rate_samples bfqd1),
      (bfq_max_budget bfqd1). rewrite <- Hf. auto. }
  unfold bfq_update_peak_rate. rewrite Hq. cbn.
  destruct (flag_sync q) eqn:Hs, (flag_budget_new q) eqn:Hn; cbn;
    try (exists false, bfqd; repeat split; try reflexivity;
         destruct bfqd; reflexivity).
  destruct ((bfq_slice_usecs now c bfqd <? 100)
            || (LONG_MAX <=? bfq_slice_usecs now c bfqd)) eqn:Hu;
    [exists false, bfqd; repeat split; try congruence;
     destruct bfqd; reflexivity |].
  destruct (bfq_slice_bw_Ok now c bfqd q Hs Hn Hu Ht) as (bw & ->). cbn.
  repeat match goal with
         | |- context [if ?b then _ else _] => destruct b eqn:?
         end;
    eexists _, _; (split; [reflexivity |]);
    (split; [destruct bfqd; reflexivity | split; intros; congruence]).
Qed.

Ltac fwd :=
  repeat (cbn;
          rewrite ?lookup_insert_eq;
          try match goal with
            | Hq : queues ?d !! ?k = Some _ |- context [queues ?d !! ?k] =>
                rewrite Hq
            | Ha : active_queue ?d = _ |- context [active_queue ?d] =>
                rewrite Ha
            end;
          rewrite ?bool_decide_eq_true_2 by reflexivity).

#[local] Arguments bfqq_recalc_budget : simpl never.

Lemma bfqq_recalc_budget_kept (bfqd : bfq_data T) q reason :
  bfqq_kept q (bfqq_recalc_budget bfqd q reason)
  ∧ service (entity (bfqq_recalc_budget bfqd q reason)) = service (entity q).
Proof.
  unfold bfqq_recalc_budget, bfqq_kept.
  destruct (flag_sync q) eqn:Hs; [destruct reason |]; cbv zeta iota beta;
    repeat match goal with
           | |- context [if ?b then _ else _] => destruct b eqn:?
           end;
    repeat match goal with
           | |- context [match next_rq ?x with _ => _ end] =>
               destruct (next_rq x) eqn:?
           end; cbn; rewrite ?Hs; repeat split; try reflexivity;
    try assumption.
Qed.


(** ** Frame lemmas for the primitive operations *)

Lemma bfqq_kept_refl q : bfqq_kept q q.
Proof. unfold bfqq_kept. repeat split; reflexivity. Qed.

Lemma bfqq_kept_trans q1 q2 q3 :
  bfqq_kept q1 q2 → bfqq_kept q2 q3 → bfqq_kept q1 q3.
Proof. unfold bfqq_kept. intuition congruence. Qed.

Lemma bfqd_kept_refl (d : bfq_data T) : bfqd_kept d d.
Proof. unfold bfqd_kept. repeat split; reflexivity. Qed.

Lemma bfqd_kept_trans (d1 d2 d3 : bfq_data T) :
  bfqd_kept d1 d2 → bfqd_kept d2 d3 → bfqd_kept d1 d3.
Proof. unfold bfqd_kept. intuition congruence. Qed.

Lemma bfqd_ctl_kept_refl (d : bfq_data T) : bfqd_ctl_kept d d.
Proof. unfold bfqd_ctl_kept. repeat split; reflexivity. Qed.

Lemma bfqd_ctl_kept_trans (d1 d2 d3 : bfq_data T) :
  bfqd_ctl_kept d1 d2 → bfqd_ctl_kept d2 d3 → bfqd_ctl_kept d1 d3.
Proof. unfold bfqd_ctl_kept. intuition congruence. Qed.

Lemma with_bfqq_spec qid f (d : bfq_data T) q :
  queues d !! qid = Some q →
  ∃ d', with_bfqq qid f d = Ok d'
        ∧ queues d' = <[qid := f q]> (queues d)
        ∧ sched d' = sched d
        ∧ bfqd_kept d d' ∧ bfqd_ctl_kept d d'.
Proof.
  intros Hq. rewrite (with_bfqq_Ok _ _ _ _ Hq). eexists. split; [reflexivity |].
  unfold bfqd_kept, bfqd_ctl_kept. cbn. repeat split; reflexivity.
Qed.

Lemma bfq_update_peak_rate_traps now qid c (bfqd : bfq_data T) q :
  queues bfqd !! qid = Some q →
  bfq_peak_rate_traps now c q bfqd = true →
  bfq_update_peak_rate now qid c bfqd = Oops.
Proof.
  intros Hq Ht. unfold bfq_peak_rate_traps in Ht.
  apply andb_true_iff in Ht. destruct Ht as (Ht & Hz).
  apply andb_true_iff in Ht. destruct Ht as (Ht & Hu2).
  apply andb_true_iff in Ht. destruct Ht as (Ht & Hu1).
  apply andb_true_iff in Ht. destruct Ht as (Hs & Hn).
  apply negb_true_iff in Hn.
  unfold bfq_update_peak_rate. rewrite Hq. cbn [deref mbind result_bind].
  rewrite Hs, Hn. cbn [negb orb].
  replace (bfq_slice_usecs now c bfqd <? 100) with false by lia.
  replace (LONG_MAX <=? bfq_slice_usecs now c bfqd) with false by lia.
  cbn [orb]. unfold bfq_slice_bw, do_div. rewrite Hz. reflexivity.
Qed.

Lemma bfq_update_peak_rate_no_trap now qid c (bfqd : bfq_data T) q r :
  queues bfqd !! qid = Some q →
  bfq_update_peak_rate now qid c bfqd = Ok r →
  bfq_peak_rate_traps now c q bfqd = false.
Proof.
  intros Hq E. destruct (bfq_peak_rate_traps now c q bfqd) eqn:Ht;
    [| reflexivity].
  rewrite (bfq_update_peak_rate_traps _ _ _ _ _ Hq Ht) in E. discriminate E.
Qed.

Lemma bfq_update_peak_rate_spec now qid c (d : bfq_data T) q :
  queues d !! qid = Some q →
  bfq_peak_rate_traps now c q d = false →
  ∃ slow d',
    bfq_update_peak_rate now qid c d = Ok (slow, d')
    ∧ queues d' = queues d
    ∧ sched d' = sched d
    ∧ bfqd_kept d d' ∧ bfqd_ctl_kept d d'
    ∧ (flag_budget_new q = true → slow = false)
    ∧ (flag_sync q = false → slow = false).
Proof.
  intros Hq Ht.
  destruct (bfq_update_peak_rate_Ok now qid c d q Hq Ht)
    as (slow & p & n & mb & E & Hn & Hs).
  exists slow. eexists. split; [exact E |].
  unfold bfqd_kept, bfqd_ctl_kept. cbn. repeat split; auto.
Qed.

Lemma bfq_bfqq_charge_full_budget_spec qid (d : bfq_data T) q :
  queues d !! qid = Some q →
  ∃ d', bfq_bfqq_charge_full_budget qid d = Ok d'
        ∧ queues d'
            = <[qid := set_entity (set_service (budget (entity q)) (entity q))
                         q]> (queues d)
        ∧ bfqd_kept d d' ∧ bfqd_ctl_kept d d'.
Proof.
  intros Hq. unfold bfq_bfqq_charge_full_budget. rewrite Hq.
  cbn [deref mbind result_bind].
  rewrite (with_bfqq_Ok _ _ _ _ Hq). cbn [mbind result_bind].
  eexists. split; [reflexivity |].
  unfold bfqd_kept, bfqd_ctl_kept. cbn. repeat split; reflexivity.
Qed.

Lemma bfq_bfqq_recalc_budget_spec qid reason (d : bfq_data T) q :
  active_queue d = Some qid →
  queues d !! qid = Some q →
  ∃ d', __bfq_bfqq_recalc_budget qid reason d = Ok d'
        ∧ queues d' = <[qid := bfqq_recalc_budget d q reason]> (queues d)
        ∧ bfqd_kept d d' ∧ bfqd_ctl_kept d d'.
Proof.
  intros Ha Hq. unfold __bfq_bfqq_recalc_budget. rewrite Ha.
  rewrite bool_decide_eq_true_2 by reflexivity.
  cbn [negb BUG_ON mbind result_bind].
  rewrite (with_bfqq_Ok _ _ _ _ Hq).
  eexists. split; [reflexivity |].
  unfold bfqd_kept, bfqd_ctl_kept. cbn. repeat split; reflexivity.
Qed.

Lemma bfq_bfqq_expire_tail_spec qid (d : bfq_data T) q :
  active_queue d = Some qid →
  queues d !! qid = Some q →
  ∃ d' q',
    __bfq_bfqq_expire qid d = Ok d'
    ∧ active_queue d' = None
    ∧ active_cic d' = None
    ∧ idle_slice_timer d' = None
    ∧ blktrace d' = blktrace d
    ∧ bfqd_kept d d'
    ∧ queues d' !! qid = Some q'
    ∧ bfqq_kept q q'
    ∧ entity q' = entity q
    ∧ max_budget q' = max_budget q
    ∧ (∀ k, k ≠ qid → queues d' !! k = queues d !! k).
Proof.
  intros Ha Hq. unfold __bfq_bfqq_expire. rewrite Ha.
  rewrite bool_decide_eq_true_2 by reflexivity.
  cbn [negb BUG_ON mbind result_bind].
  assert (Hq' : queues (__bfq_bfqd_reset_active d) !! qid = Some q)
    by exact Hq.
  rewrite Hq'. cbn [deref mbind result_bind].
  destruct (RB_EMPTY_ROOT (sort_list q)).
  - unfold bfq_del_bfqq_busy. rewrite (with_bfqq_Ok _ _ _ _ Hq').
    cbn [mbind result_bind]. eexists _, _. split; [reflexivity |].
    unfold bfqd_kept, bfqq_kept. cbn.
    rewrite lookup_insert_eq.
    repeat split; try reflexivity.
    intros k Hk. apply lookup_insert_ne. congruence.
  - unfold bfq_activate_bfqq. rewrite Hq'. cbn [deref mbind result_bind].
    eexists _, _. split; [reflexivity |].
    unfold bfqd_kept, bfqq_kept. cbn.
    repeat split; try reflexivity. exact Hq.
Qed.

Lemma bfq_bfqq_expire_Ok now qid c reason (bfqd : bfq_data T) q :
  active_queue bfqd = Some qid →
  queues bfqd !! qid = Some q →
  bfq_peak_rate_traps now c q bfqd = false →
  ∃ slow bfqd1 bfqd' q',
    bfq_update_peak_rate now qid c bfqd = Ok (slow, bfqd1)
    ∧ bfq_bfqq_expire now qid c reason bfqd = Ok bfqd'
    ∧ blktrace bfqd'
        = LogExpire qid (bfq_expire_reason slow reason) slow :: blktrace bfqd
    ∧ active_queue bfqd' = None
    ∧ active_cic bfqd' = None
    ∧ idle_slice_timer bfqd' = None
    ∧ bfqd_kept bfqd bfqd'
    ∧ queues bfqd' !! qid = Some q'
    ∧ bfqq_kept q q'
    ∧ service (entity q')
        = (if bfq_expire_charges (bfq_expire_reason slow reason) q
           then budget (entity q) else service (entity q))
    ∧ (flag_budget_new q = true → slow = false)
    ∧ (flag_sync q = false → slow = false)
    ∧ (∀ k, k ≠ qid → queues bfqd' !! k = queues bfqd !! k).
Proof.
  intros Ha Hq Hnt.
  destruct (bfq_update_peak_rate_spec now qid c bfqd q Hq Hnt)
    as (slow & d1 & E1 & Hq1 & _ & Hk1 & Hc1 & Hn & Hs).
  exists slow, d1.
  unfold bfq_bfqq_expire. rewrite E1. cbn [mbind result_bind]. cbv zeta.
  fold (bfq_expire_reason slow reason).
  generalize (bfq_expire_reason slow reason). intros r.
  assert (Hq1' : queues d1 !! qid = Some q) by (rewrite Hq1; exact Hq).
  rewrite Hq1'. cbn [deref mbind result_bind].
  fold (bfq_expire_charges r q).
  assert (Hch : ∃ d2 q2,
    (if bfq_expire_charges r q then bfq_bfqq_charge_full_budget qid d1
     else Ok d1) = Ok d2
    ∧ queues d2 !! qid = Some q2
    ∧ bfqq_kept q q2
    ∧ service (entity q2)
        = (if bfq_expire_charges r q then budget (entity q)
           else service (entity q))
    ∧ bfqd_kept d1 d2 ∧ bfqd_ctl_kept d1 d2
    ∧ (∀ k, k ≠ qid → queues d2 !! k = queues d1 !! k)).
  { destruct (bfq_expire_charges r q).
    - destruct (bfq_bfqq_charge_full_budget_spec qid d1 q Hq1')
        as (d2 & E2 & Hq2 & Hk2 & Hc2).
      exists d2. eexists. split; [exact E2 |].
      rewrite Hq2. rewrite lookup_insert_eq.
      split; [reflexivity |].
      split; [unfold bfqq_kept; cbn; repeat split; reflexivity |].
      split; [reflexivity |]. split; [exact Hk2 |]. split; [exact Hc2 |].
      intros k Hk. apply lookup_insert_ne. congruence.
    - exists d1, q. split; [reflexivity |]. split; [exact Hq1' |].
      split; [apply bfqq_kept_refl |]. split; [reflexivity |].
      split; [apply bfqd_kept_refl |]. split; [apply bfqd_ctl_kept_refl |].
      reflexivity. }
  destruct Hch as (d2 & q2 & -> & Hq2 & Hkq2 & Hsv2 & Hk2 & Hc2 & Ho2).
  cbn [mbind result_bind].
  set (d3 := set_blktrace (LogExpire qid r slow :: blktrace d2) d2).
  assert (Ha3 : active_queue d3 = Some qid).
  { cbn. destruct Hc2 as (-> & _). destruct Hc1 as (-> & _). exact Ha. }
  assert (Hq3 : queues d3 !! qid = Some q2) by exact Hq2.
  destruct (bfq_bfqq_recalc_budget_spec qid r d3 q2 Ha3 Hq3)
    as (d4 & E4 & Hq4 & Hk4 & Hc4).
  rewrite E4. cbn [mbind result_bind].
  assert (Ha4 : active_queue d4 = Some qid).
  { destruct Hc4 as (-> & _). exact Ha3. }
  assert (Hq4' : queues d4 !! qid = Some (bfqq_recalc_budget d3 q2 r)).
  { rewrite Hq4. apply lookup_insert_eq. }
  destruct (bfq_bfqq_expire_tail_spec qid d4 _ Ha4 Hq4')
    as (d5 & q5 & E5 & Ha5 & Hcic5 & Ht5 & Hb5 & Hk5 & Hq5 & Hkq5 & He5 & _
        & Ho5).
  rewrite E5. exists d5, q5.
  destruct (bfqq_recalc_budget_kept d3 q2 r) as [Hkr Hsr].
  split; [reflexivity |]. split; [reflexivity |].
  split.
  { rewrite Hb5. destruct Hc4 as (_ & _ & _ & -> & _). cbn.
    destruct Hc2 as (_ & _ & _ & -> & _). destruct Hc1 as (_ & _ & _ & -> & _).
    reflexivity. }
  split; [exact Ha5 |]. split; [exact Hcic5 |]. split; [exact Ht5 |].
  split.
  { apply (bfqd_kept_trans _ d1); [exact Hk1 |].
    apply (bfqd_kept_trans _ d2); [exact Hk2 |].
    apply (bfqd_kept_trans _ d4); [| exact Hk5].
    apply (bfqd_kept_trans _ d3); [| exact Hk4].
    unfold bfqd_kept. cbn. repeat split; reflexivity. }
  split; [exact Hq5 |].
  split.
  { apply (bfqq_kept_trans _ q2); [exact Hkq2 |].
    apply (bfqq_kept_trans _ (bfqq_recalc_budget d3 q2 r)); assumption. }
  split; [rewrite He5, Hsr; exact Hsv2 |].
  split; [exact Hn |]. split; [exact Hs |].
  intros k Hk. rewrite (Ho5 k Hk), Hq4.
  rewrite lookup_insert_ne by congruence.
  change (queues d3) with (queues d2). rewrite (Ho2 k Hk), Hq1. reflexivity.
Qed.

Lemma bfq_bfqq_expire_active now qid c reason (bfqd bfqd' : bfq_data T) :
  bfq_bfqq_expire now qid c reason bfqd = Ok bfqd' →
  active_queue bfqd = Some qid ∧ ∃ q, queues bfqd !! qid = Some q.
Proof.
  unfold bfq_bfqq_expire. intros E.
  apply bind_Ok in E. destruct E as ([slow d1] & E1 & E).
  assert (Hq : ∃ q, queues bfqd !! qid = Some q).
  { unfold bfq_update_peak_rate in E1. apply bind_Ok in E1.
    destruct E1 as (q & E1 & _). apply deref_Ok in E1. eauto. }
  split; [| exact Hq]. destruct Hq as (q & Hq).
  destruct (bfq_update_peak_rate_spec now qid c bfqd q Hq
              (bfq_update_peak_rate_no_trap _ _ _ _ _ _ Hq E1))
    as (slow' & d1' & E1' & Hq1 & _ & _ & Hc1 & _).
  rewrite E1' in E1. injection E1 as -> ->.
  cbv zeta in E.
  apply bind_Ok in E. destruct E as (q1 & Eq1 & E). apply deref_Ok in Eq1.
  apply bind_Ok in E. destruct E as (d2 & E2 & E).
  apply bind_Ok in E. destruct E as (d4 & E4 & _).
  unfold __bfq_bfqq_recalc_budget in E4.
  apply bind_Ok in E4. destruct E4 as (u & Hb & _).
  apply BUG_ON_Ok, negb_false_iff, bool_decide_eq_true_1 in Hb.
  cbn in Hb.
  assert (Hc2 : active_queue d2 = active_queue d1).
  { destruct (_ || _); [| injection E2 as <-; reflexivity].
    destruct (bfq_bfqq_charge_full_budget_spec qid d1 q1 Eq1)
      as (d2' & E2' & _ & _ & Hc2).
    rewrite E2' in E2. injection E2 as <-. apply Hc2. }
  rewrite <- Hb, Hc2. symmetry. apply Hc1.
Qed.

(** Everything [bfq_bfqq_expire] does that the properties below rely
    on, for a call that returns. *)
Lemma bfq_bfqq_expire_post now qid c reason (bfqd bfqd' : bfq_data T) :
  bfq_bfqq_expire now qid c reason bfqd = Ok bfqd' →
  ∃ slow bfqd1 q q',
    active_queue bfqd = Some qid
    ∧ queues bfqd !! qid = Some q
    ∧ bfq_update_peak_rate now qid c bfqd = Ok (slow, bfqd1)
    ∧ blktrace bfqd'
        = LogExpire qid (bfq_expire_reason slow reason) slow :: blktrace bfqd
    ∧ active_queue bfqd' = None
    ∧ idle_slice_timer bfqd' = None
    ∧ bfqd_kept bfqd bfqd'
    ∧ queues bfqd' !! qid = Some q'
    ∧ bfqq_kept q q'
    ∧ (flag_budget_new q = true → slow = false).
Proof.
  intros E. destruct (bfq_bfqq_expire_active _ _ _ _ _ _ E) as (Ha & q & Hq).
  assert (Hnt : bfq_peak_rate_traps now c q bfqd = false).
  { unfold bfq_bfqq_expire in E. apply bind_Ok in E.
    destruct E as (r & E1 & _).
    exact (bfq_update_peak_rate_no_trap _ _ _ _ _ _ Hq E1). }
  destruct (bfq_bfqq_expire_Ok now qid c reason bfqd q Ha Hq Hnt)
    as (slow & bfqd1 & d' & q' & E1 & E' & Ht & Ha' & _ & Htm & Hk & Hq'
        & Hkq & _ & Hn & _).
  rewrite E in E'. injection E' as <-.
  exists slow, bfqd1, q, q'. auto 12.
Qed.

(** ** Completions *)

Lemma bfq_set_budget_timeout_spec jiffies now qid (d : bfq_data T) q :
  active_queue d = Some qid →
  queues d !! qid = Some q →
  ∃ d', bfq_set_budget_timeout jiffies now d = Ok d'
    ∧ queues d'
        = <[qid := set_budget_timeout
                     (u64 (jiffies + (if flag_sync q
                                      then bfq_timeout_sync (tun d)
                                      else bfq_timeout_async (tun d))))
                     (set_flag_budget_new false q)]> (queues d)
    ∧ bfqd_kept d d' ∧ bfqd_ctl_kept d d'.
Proof.
  intros Ha Hq. unfold bfq_set_budget_timeout. rewrite Ha.
  cbn [deref mbind result_bind].
  assert (Hq' : queues (set_last_budget_start now d) !! qid = Some q)
    by exact Hq.
  rewrite (with_bfqq_Ok _ _ _ _ Hq').
  eexists. split; [reflexivity |].
  unfold bfqd_kept, bfqd_ctl_kept. cbn. repeat split; reflexivity.
Qed.

Lemma bfq_update_hw_tag_kept (d : bfq_data T) :
  queues (bfq_update_hw_tag d) = queues d
  ∧ bfqd_kept d (bfq_update_hw_tag d)
  ∧ bfqd_ctl_kept d (bfq_update_hw_tag d).
Proof.
  unfold bfq_update_hw_tag, bfqd_kept, bfqd_ctl_kept.
  repeat match goal with
         | |- context [if ?b then _ else _] => destruct b
         end; cbn; repeat split; reflexivity.
Qed.

(** The part of [bfq_completed_request] that precedes the work on the
    active queue only moves counters and the think-time stamp. *)
Lemma bfq_completed_request_split jiffies now rq (bfqd bfqd' : bfq_data T) :
  bfq_completed_request jiffies now rq bfqd = Ok bfqd' →
  ∃ q0 d4 d5,
    queues bfqd !! RQ_BFQQ rq = Some q0
    ∧ queues d4
        = <[RQ_BFQQ rq := set_dispatched (dispatched q0 - 1) q0]>
            (queues bfqd)
    ∧ tun d4 = tun bfqd
    ∧ bfqd_ctl_kept bfqd d4
    ∧ (if bool_decide (active_queue d4 = Some (RQ_BFQQ rq))
       then bfq_completed_active jiffies now (rq_is_sync rq) (RQ_BFQQ rq)
              (set_dispatched (dispatched q0 - 1) q0) d4
       else Ok d4) = Ok d5
    ∧ queues bfqd' = queues d5
    ∧ tun bfqd' = tun d5
    ∧ bfqd_ctl_kept d5 bfqd'.
Proof.
  unfold bfq_completed_request. cbv zeta. intros E.
  destruct (bfq_update_hw_tag_kept bfqd) as (Hhq & Hhk & Hhc).
  generalize dependent (bfq_update_hw_tag bfqd). intros d0 E Hhq Hhk Hhc.
  apply bind_Ok in E. destruct E as (d2 & E1 & E).
  apply with_bfqq_inv in E1. destruct E1 as (q0 & Hq0 & ->).
  apply bind_Ok in E. destruct E as (bfqq & Hbq & E).
  apply deref_Ok in Hbq. cbn in Hbq. rewrite lookup_insert_eq in Hbq.
  injection Hbq as <-.
  apply bind_Ok in E. destruct E as (d4 & E2 & E).
  apply bind_Ok in E. destruct E as (d5 & E3 & E).
  exists q0, d4, d5.
  assert (H4 : queues d4
                 = <[RQ_BFQQ rq := set_dispatched (dispatched q0 - 1) q0]>
                     (queues bfqd)
               ∧ tun d4 = tun bfqd ∧ bfqd_ctl_kept bfqd d4).
  { clear E E3. unfold bfqd_kept, bfqd_ctl_kept in *.
    destruct Hhk as (_ & _ & _ & Htn & _).
    destruct Hhc as (Hc1 & Hc2 & Hc3 & Hc4 & Hc5).
    destruct (rq_is_sync rq), (flag_sync _); cbn in *;
      inv_ok; cbn; rewrite ?Hhq, ?Htn, ?Hc1, ?Hc2, ?Hc3, ?Hc4, ?Hc5;
      repeat split; reflexivity. }
  destruct H4 as (Hq4 & Ht4 & Hc4).
  split.
  { clear -Hq0 Hhq. destruct (rq_is_sync rq); cbn in Hq0;
      rewrite Hhq in Hq0; exact Hq0. }
  split; [exact Hq4 |]. split; [exact Ht4 |]. split; [exact Hc4 |].
  split; [exact E3 |].
  unfold bfq_schedule_dispatch, bfqd_ctl_kept in *.
  destruct (rq_in_driver d5 =? 0); [destruct (negb _) |];
    injection E as <-; cbn; repeat split; reflexivity.
Qed.

Lemma bfq_completed_active_inv jiffies now sync qid bfqq
  (d d' : bfq_data T) :
  active_queue d = Some qid →
  queues d !! qid = Some bfqq →
  bfq_completed_active jiffies now sync qid bfqq d = Ok d' →
  ∃ d6 q6,
    queues d6 !! qid = Some q6
    ∧ bfqd_kept d d6 ∧ bfqd_ctl_kept d d6
    ∧ (flag_budget_new bfqq = true →
         flag_budget_new q6 = false
         ∧ budget_timeout q6
             = u64 (jiffies + (if flag_sync bfqq
                               then bfq_timeout_sync (tun d)
                               else bfq_timeout_async (tun d))))
    ∧ (flag_budget_new bfqq = false → d6 = d ∧ q6 = bfqq)
    ∧ ((bfq_bfqq_budget_timeout jiffies q6 = true
        ∧ bfq_bfqq_expire now qid false BFQ_BFQQ_BUDGET_TIMEOUT d6 = Ok d')
       ∨ (bfq_bfqq_budget_timeout jiffies q6 = false
          ∧ (d' = d6 ∨ bfq_arm_slice_timer jiffies now d6 = Ok d'))).
Proof.
  intros Ha Hq E. unfold bfq_completed_active in E.
  apply bind_Ok in E. destruct E as (d6 & E1 & E).
  apply bind_Ok in E. destruct E as (q6 & Hq6 & E). apply deref_Ok in Hq6.
  exists d6, q6. split; [exact Hq6 |].
  assert (H6 : bfqd_kept d d6 ∧ bfqd_ctl_kept d d6
    ∧ (flag_budget_new bfqq = true →
         flag_budget_new q6 = false
         ∧ budget_timeout q6
             = u64 (jiffies + (if flag_sync bfqq
                               then bfq_timeout_sync (tun d)
                               else bfq_timeout_async (tun d))))
    ∧ (flag_budget_new bfqq = false → d6 = d ∧ q6 = bfqq)).
  { clear E. destruct (flag_budget_new bfqq).
    - destruct (bfq_set_budget_timeout_spec jiffies now qid d bfqq Ha Hq)
        as (d6' & E1' & Hq' & Hk & Hc).
      rewrite E1' in E1. injection E1 as <-.
      rewrite Hq', lookup_insert_eq in Hq6. injection Hq6 as <-.
      split; [exact Hk |]. split; [exact Hc |].
      split; [intros _; split; reflexivity | discriminate].
    - injection E1 as <-. rewrite Hq in Hq6. injection Hq6 as <-.
      split; [apply bfqd_kept_refl |]. split; [apply bfqd_ctl_kept_refl |].
      split; [discriminate | auto]. }
  destruct H6 as (Hk & Hc & Hn1 & Hn2).
  split; [exact Hk |]. split; [exact Hc |].
  split; [exact Hn1 |]. split; [exact Hn2 |].
  destruct (bfq_bfqq_budget_timeout jiffies q6); [left; auto |].
  right. split; [reflexivity |].
  destruct (_ && _); [right; exact E | left; injection E as <-; reflexivity].
Qed.

(** ** The idle-slice timer ([bfq_arm_slice_timer]) *)

(** C8: with [bfq_slice_idle = 0] the call leaves the state, hence the
    timer, untouched, and a completion cannot turn a timer that is not
    pending into a pending one.  When the call arms the timer, it
    expires [sl] jiffies from now, with [sl = bfq_slice_idle], lowered
    to [msecs_to_jiffies(BFQ_MIN_TT)] (2 ms) when the io context has
    valid seek samples and is seeky. *)
Theorem bfq_arm_slice_timer_duration (jiffies now : Z) (bfqd : bfq_data T) :
  (bfq_slice_idle (tun bfqd) = 0 →
     (bfq_arm_slice_timer jiffies now bfqd = Ok bfqd
      ∨ bfq_arm_slice_timer jiffies now bfqd = Oops)
     ∧ (∀ rq bfqd', idle_slice_timer bfqd = None →
          bfq_completed_request jiffies now rq bfqd = Ok bfqd' →
          idle_slice_timer bfqd' = None))
  ∧ (∀ bfqd', bfq_arm_slice_timer jiffies now bfqd = Ok bfqd' →
       bfqd' = bfqd
       ∨ ∃ cid cic,
           active_cic bfqd = Some cid ∧ cics bfqd !! cid = Some cic
           ∧ bfq_slice_idle (tun bfqd) ≠ 0
           ∧ idle_slice_timer bfqd'
               = Some (u64 (jiffies +
                   (if bfq_sample_valid (seek_samples cic) && CIC_SEEKY cic
                    then Z.min (bfq_slice_idle (tun bfqd))
                           (msecs_to_jiffies BFQ_MIN_TT)
                    else bfq_slice_idle (tun bfqd)))))
  ∧ (∀ qid bfqq cid cic,
       active_queue bfqd = Some qid → queues bfqd !! qid = Some bfqq →
       bfq_slice_idle (tun bfqd) ≠ 0 → flag_idle_window bfqq = true →
       active_cic bfqd = Some cid → cics bfqd !! cid = Some cic →
       nr_tasks cic ≠ 0 →
       ∃ bfqd', bfq_arm_slice_timer jiffies now bfqd = Ok bfqd'
         ∧ idle_slice_timer bfqd'
             = Some (u64 (jiffies +
                 (if bfq_sample_valid (seek_samples cic) && CIC_SEEKY cic
                  then Z.min (bfq_slice_idle (tun bfqd))
                         (msecs_to_jiffies BFQ_MIN_TT)
                  else bfq_slice_idle (tun bfqd))))).
Proof.
  split; [| split].
  - intros Hz. split.
    + unfold bfq_arm_slice_timer.
      destruct (active_queue bfqd) as [qid |]; cbn; [| right; reflexivity].
      destruct (queues bfqd !! qid) as [q |]; cbn; [| right; reflexivity].
      rewrite Hz. cbn. left; reflexivity.
    + intros rq bfqd' Ht E.
      destruct (bfq_completed_request_split _ _ _ _ _ E)
        as (q0 & d4 & d5 & Hq0 & Hq4 & Ht4 & Hc4 & E3 & _ & _ & Hc').
      destruct Hc' as (_ & _ & -> & _).
      assert (Htm4 : idle_slice_timer d4 = None).
      { destruct Hc4 as (_ & _ & -> & _). exact Ht. }
      destruct (bool_decide (active_queue d4 = Some (RQ_BFQQ rq))) eqn:Hact;
        [| injection E3 as <-; exact Htm4].
      apply bool_decide_eq_true_1 in Hact.
      apply bfq_completed_active_inv in E3;
        [| exact Hact | rewrite Hq4; apply lookup_insert_eq].
      destruct E3 as (d6 & q6 & Hq6 & Hk6 & Hc6 & _ & _ & Hcase).
      assert (Htm6 : idle_slice_timer d6 = None).
      { destruct Hc6 as (_ & _ & -> & _). exact Htm4. }
      assert (Htun6 : tun d6 = tun bfqd).
      { destruct Hk6 as (_ & _ & _ & -> & _). exact Ht4. }
      destruct Hcase as [[_ Ex] | [_ [-> | Earm]]].
      * apply bfq_bfqq_expire_post in Ex.
        destruct Ex as (? & ? & ? & ? & _ & _ & _ & _ & _ & Htm & _).
        exact Htm.
      * exact Htm6.
      * unfold bfq_arm_slice_timer in Earm.
        rewrite Htun6, Hz in Earm. cbn in Earm.
        apply bind_Ok in Earm. destruct Earm as (? & _ & Earm).
        apply bind_Ok in Earm. destruct Earm as (? & _ & Earm).
        injection Earm as <-. exact Htm6.
  - intros bfqd' E. unfold bfq_arm_slice_timer, with_bfqq in E.
    destr_ok; auto.
    right. eexists _, _. repeat split; try eassumption.
    intros Hz. rewrite Hz in Heqb. discriminate.
  - intros qid bfqq cid cic Ha Hq Hz Hw Hc Hcic Hn.
    unfold bfq_arm_slice_timer, with_bfqq.
    rewrite Ha. cbn. rewrite Hq. cbn. rewrite Hw, Hc.
    destruct (Z.eqb_spec (bfq_slice_idle (tun bfqd)) 0); [contradiction |].
    cbn. rewrite Hcic. cbn.
    destruct (Z.eqb_spec (nr_tasks cic) 0); [contradiction |].
    eexists. split; reflexivity.
Qed.

(** ** The FIFO check ([bfq_check_fifo]) *)

Lemma bfq_check_fifo_marks jiffies bfqq :
  flag_fifo_expire (snd (bfq_check_fifo jiffies bfqq)) = true.
Proof.
  unfold bfq_check_fifo. destruct (flag_fifo_expire bfqq) eqn:Hf;
    [exact Hf |].
  cbn. destruct (fifo bfqq) as [| rq l]; [reflexivity |].
  destruct (time_before jiffies (rq_fifo_time rq)); reflexivity.
Qed.

Lemma bfq_check_fifo_marked jiffies bfqq :
  flag_fifo_expire bfqq = true → bfq_check_fifo jiffies bfqq = (None, bfqq).
Proof. intros Hf. unfold bfq_check_fifo. rewrite Hf. reflexivity. Qed.

Lemma bfq_slice_fifo_checks_marked steps bfqq :
  Forall (λ s, keeps_fifo_expire (snd s)) steps →
  flag_fifo_expire bfqq = true →
  Forall (λ r, r = None) (bfq_slice_fifo_checks steps bfqq).
Proof.
  intros Hk. revert bfqq.
  induction Hk as [| [j f] steps Hf Hk IH]; intros bfqq Hm; cbn.
  - constructor.
  - rewrite (bfq_check_fifo_marked j bfqq Hm). constructor; [reflexivity |].
    apply IH. apply Hf. exact Hm.
Qed.

(** C6: a call to [bfq_check_fifo] leaves the [fifo_expire] flag set;
    with the flag set a call returns no request and changes nothing;
    [__bfq_set_active_queue] clears the flag of the queue it activates.
    Hence, over any sequence of calls within one slice, interleaved
    with work that does not clear the flag, every call after the first
    returns no request: at most one request per slice leaves the queue
    out of proximity order. *)
Theorem bfq_check_fifo_once_per_slice
  (steps : list (Z * (bfq_queue → bfq_queue))) (bfqq : bfq_queue) :
  Forall (λ s, keeps_fifo_expire (snd s)) steps →
  Forall (λ r, r = None) (tail (bfq_slice_fifo_checks steps bfqq))
  ∧ (∀ jiffies q, flag_fifo_expire (snd (bfq_check_fifo jiffies q)) = true)
  ∧ (∀ jiffies q, flag_fifo_expire q = true →
       bfq_check_fifo jiffies q = (None, q))
  ∧ (∀ (d d' : bfq_data T) qid q',
       __bfq_set_active_queue (Some qid) d = Ok d' →
       queues d' !! qid = Some q' → flag_fifo_expire q' = false).
Proof.
  intros Hk. split; [| split; [| split]].
  - destruct Hk as [| [j f] steps Hf Hk]; cbn; [constructor |].
    destruct (bfq_check_fifo j bfqq) as [r q1] eqn:E. cbn.
    apply bfq_slice_fifo_checks_marked; [exact Hk |].
    apply Hf. pose proof (bfq_check_fifo_marks j bfqq) as Hm.
    rewrite E in Hm. exact Hm.
  - apply bfq_check_fifo_marks.
  - apply bfq_check_fifo_marked.
  - intros d d' qid q' E Hq'. unfold __bfq_set_active_queue in E.
    apply bind_Ok in E. destruct E as (d1 & E1 & E).
    apply with_bfqq_inv in E1. destruct E1 as (q & Hq & ->).
    injection E as <-. cbn in Hq'. rewrite lookup_insert_eq in Hq'.
    injection Hq' as <-. reflexivity.
Qed.

(** ** Budget timeout of a fresh slice *)

Lemma bfq_set_active_queue_kept (d d' : bfq_data T) sel :
  bfq_set_active_queue d = Ok (sel, d') →
  bfqd_kept d d' ∧ blktrace d' = blktrace d ∧ active_queue d' = sel
  ∧ idle_slice_timer d' = idle_slice_timer d.
Proof.
  unfold bfq_set_active_queue, bfq_get_next_queue, __bfq_set_active_queue.
  destruct (st_next_queue (sched d)) as [next st]. intros E.
  unfold bfqd_kept.
  destruct next as [qid |]; cbn [mbind result_bind] in E.
  - apply bind_Ok in E. destruct E as ([sel1 d1] & E1 & E).
    apply bind_Ok in E1. destruct E1 as (d0 & E0 & E1).
    apply with_bfqq_inv in E0. destruct E0 as (q & Hq & ->).
    injection E1 as <- <-.
    apply bind_Ok in E. destruct E as (d2 & E2 & E).
    apply bind_Ok in E2. destruct E2 as (d3 & E3 & E2).
    apply with_bfqq_inv in E3. destruct E3 as (q2 & Hq2 & ->).
    injection E2 as <-. injection E as <- <-. cbn. repeat split; reflexivity.
  - cbn in E. injection E as <- <-. cbn. repeat split; reflexivity.
Qed.

Lemma bfq_arm_slice_timer_kept jiffies now (d d' : bfq_data T) :
  bfq_arm_slice_timer jiffies now d = Ok d' →
  bfqd_kept d d' ∧ blktrace d' = blktrace d
  ∧ active_queue d' = active_queue d.
Proof.
  unfold bfq_arm_slice_timer, with_bfqq, bfqd_kept. intros E.
  destr_ok; cbn; repeat split; reflexivity.
Qed.

Lemma bfq_expire_reason_not_idle slow reason :
  reason ≠ BFQ_BFQQ_TOO_IDLE → bfq_expire_reason slow reason = reason.
Proof.
  intros Hr. unfold bfq_expire_reason.
  rewrite bool_decide_eq_false_2 by exact Hr.
  rewrite andb_false_r. reflexivity.
Qed.

(** C10: while [budget_new] is set on the active queue, the
    budget-timeout predicate is false; queue selection then expires the
    queue, if at all, for budget exhaustion or lack of requests; the
    idle-slice timer expires it as too idle and not slow; and a
    completion logs a budget-timeout expiration only for a request of
    that queue, after the flag has been cleared and the timeout has
    been stamped. *)
Theorem bfq_budget_new_no_timeout (jiffies now : Z) (bfqd : bfq_data T)
  (qid : nat) (bfqq : bfq_queue) :
  active_queue bfqd = Some qid →
  queues bfqd !! qid = Some bfqq →
  flag_budget_new bfqq = true →
  bfq_bfqq_budget_timeout jiffies bfqq = false
  ∧ (∀ sel bfqd', bfq_select_queue jiffies now bfqd = Ok (sel, bfqd') →
       blktrace bfqd' = blktrace bfqd
       ∨ ∃ slow reason,
           blktrace bfqd' = LogExpire qid reason slow :: blktrace bfqd
           ∧ (reason = BFQ_BFQQ_BUDGET_EXHAUSTED
              ∨ reason = BFQ_BFQQ_NO_MORE_REQUESTS))
  ∧ (∀ bfqd', bfq_idle_slice_timer jiffies now bfqd = Ok bfqd' →
       blktrace bfqd'
         = LogExpire qid BFQ_BFQQ_TOO_IDLE false :: blktrace bfqd)
  ∧ (∀ rq bfqd', bfq_completed_request jiffies now rq bfqd = Ok bfqd' →
       blktrace bfqd' = blktrace bfqd
       ∨ ∃ slow q',
           RQ_BFQQ rq = qid
           ∧ blktrace bfqd'
               = LogExpire qid BFQ_BFQQ_BUDGET_TIMEOUT slow
                   :: blktrace bfqd
           ∧ queues bfqd' !! qid = Some q'
           ∧ flag_budget_new q' = false
           ∧ budget_timeout q'
               = u64 (jiffies + (if flag_sync bfqq
                                 then bfq_timeout_sync (tun bfqd)
                                 else bfq_timeout_async (tun bfqd)))).
Proof.
  intros Ha Hq Hn.
  assert (Hbt : bfq_bfqq_budget_timeout jiffies bfqq = false)
    by (unfold bfq_bfqq_budget_timeout; rewrite Hn; reflexivity).
  split; [exact Hbt |]. split; [| split].
  - intros sel bfqd' E. unfold bfq_select_queue in E.
    rewrite Ha in E. cbv zeta in E. rewrite Hq in E.
    cbn [deref mbind result_bind] in E. rewrite Hbt in E.
    assert (Hex : ∀ reason,
      reason ≠ BFQ_BFQQ_TOO_IDLE →
      bfq_bfqq_expire now qid false reason bfqd
        ≫= (λ d, bfq_set_active_queue d) = Ok (sel, bfqd') →
      ∃ slow, blktrace bfqd' = LogExpire qid reason slow :: blktrace bfqd).
    { intros reason Hr Ex. apply bind_Ok in Ex.
      destruct Ex as (d1 & Ex & Es).
      apply bfq_bfqq_expire_post in Ex.
      destruct Ex as (slow & ? & ? & ? & _ & _ & _ & Ht & _).
      apply bfq_set_active_queue_kept in Es. destruct Es as (_ & -> & _).
      rewrite (bfq_expire_reason_not_idle slow reason Hr) in Ht. eauto. }
    destruct (next_rq bfqq) as [rq |].
    + destruct (bfq_bfqq_budget_left bfqq <? blk_rq_sectors rq).
      * apply Hex in E; [| discriminate]. destruct E as (slow & E).
        right. eauto.
      * injection E as <- <-. left. reflexivity.
    + destruct (_ || _).
      * injection E as <- <-. left. reflexivity.
      * apply Hex in E; [| discriminate]. destruct E as (slow & E).
        right. eauto.
  - intros bfqd' E. unfold bfq_idle_slice_timer in E.
    rewrite Ha in E. apply bind_Ok in E. destruct E as (d1 & E & E').
    rewrite Hq in E. cbn [deref mbind result_bind] in E. cbv zeta in E.
    rewrite Hbt in E.
    apply bfq_bfqq_expire_post in E.
    destruct E as (slow & ? & q & ? & _ & Hq' & _ & Ht & _ & _ & _ & _ & _
                   & Hs).
    rewrite Hq in Hq'. injection Hq' as <-. rewrite (Hs Hn) in Ht.
    injection E' as <-. unfold bfq_schedule_dispatch.
    destruct (negb _); cbn; exact Ht.
  - intros rq bfqd' E.
    destruct (bfq_completed_request_split _ _ _ _ _ E)
      as (q0 & d4 & d5 & Hq0 & Hq4 & Ht4 & Hc4 & E3 & Hqf & _ & Hc').
    destruct Hc' as (_ & _ & _ & Hbf & _). rewrite Hbf, Hqf.
    destruct Hc4 as (Ha4 & _ & _ & Hb4 & _). rewrite Ha4, Ha in E3.
    destruct (bool_decide (Some qid = Some (RQ_BFQQ rq))) eqn:Hact;
      [| injection E3 as <-; left; exact Hb4].
    apply bool_decide_eq_true_1 in Hact. injection Hact as Hact.
    rewrite <- Hact in *. rewrite Hq in Hq0. injection Hq0 as <-.
    apply bfq_completed_active_inv in E3;
      [| rewrite Ha4; exact Ha | rewrite Hq4; apply lookup_insert_eq].
    destruct E3 as (d6 & q6 & Hq6 & Hk6 & Hc6 & Hst & _ & Hcase).
    destruct (Hst Hn) as (Hn6 & Hbt6).
    destruct Hc6 as (_ & _ & _ & Hb6 & _).
    destruct Hcase as [[_ Ex] | [_ [-> | Earm]]].
    + right. apply bfq_bfqq_expire_post in Ex.
      destruct Ex as (slow & ? & q & q' & _ & Hq6' & _ & Ht & _ & _ & _
                      & Hq' & Hkq & _).
      rewrite Hq6 in Hq6'. injection Hq6' as <-.
      exists slow, q'. split; [reflexivity |].
      split.
      { rewrite Ht, bfq_expire_reason_not_idle by discriminate.
        rewrite Hb6, Hb4. reflexivity. }
      split; [exact Hq' |].
      destruct Hkq as (_ & _ & _ & _ & Hbt' & _ & _ & _ & Hn' & _).
      split; [rewrite Hn'; exact Hn6 |].
      rewrite Hbt', Hbt6, Ht4. reflexivity.
    + left. rewrite Hb6. exact Hb4.
    + left. apply bfq_arm_slice_timer_kept in Earm.
      destruct Earm as (_ & -> & _). rewrite Hb6. exact Hb4.
Qed.

(** ** The idle-slice timer handler ([bfq_idle_slice_timer]) *)





(** ** Budget exhaustion while draining ([__bfq_dispatch_requests]) *)




(** ** Slow-queue detection ([bfq_update_peak_rate], [bfq_bfqq_expire]) *)

(** What the code computes: for a sync queue that has seen a completion
    and a slice of credible length, the value returned as [slow] is
    [expected > entity.budget]. *)
Lemma bfq_update_peak_rate_slow now qid c (bfqd : bfq_data T) q bw :
  queues bfqd !! qid = Some q →
  flag_sync q = true → flag_budget_new q = false →
  100 ≤ bfq_slice_usecs now c bfqd < LONG_MAX →
  bfq_slice_bw q (bfq_slice_usecs now c bfqd) = Ok bw →
  ∃ bfqd1,
    bfq_update_peak_rate now qid c bfqd
      = Ok (budget (entity q)
              <? bfq_slice_expected bw
                   (jiffies_to_msecs (bfq_timeout_sync (tun bfqd))),
            bfqd1).
Proof.
  intros Hq Hs Hn Hu Hbw. unfold bfq_update_peak_rate. rewrite Hq.
  cbn [deref mbind result_bind]. rewrite Hs, Hn. cbn [negb orb]. cbv zeta.
  destruct (Z.ltb_spec (bfq_slice_usecs now c bfqd) 100); [lia |].
  destruct (Z.leb_spec LONG_MAX (bfq_slice_usecs now c bfqd)); [lia |].
  cbn [orb]. rewrite Hbw. cbn [mbind result_bind]. eexists. reflexivity.
Qed.

(** ** Moving a request to the dispatch list ([bfq_dispatch_insert]) *)

Lemma bfqd_disp_kept_refl (d : bfq_data T) : bfqd_disp_kept d d.
Proof. unfold bfqd_disp_kept. repeat split; eauto. Qed.

Lemma bfqd_disp_kept_trans (d1 d2 d3 : bfq_data T) :
  bfqd_disp_kept d1 d2 → bfqd_disp_kept d2 d3 → bfqd_disp_kept d1 d3.
Proof.
  intros (Ha1 & Ha2 & Ha3 & Ha4 & Ha5) (Hb1 & Hb2 & Hb3 & Hb4 & Hb5).
  unfold bfqd_disp_kept. repeat split; try congruence.
  intros k q Hq. destruct (Ha5 k q Hq) as (q2 & Hq2 & Hf2 & Hs2).
  destruct (Hb5 k q2 Hq2) as (q3 & Hq3 & Hf3 & Hs3).
  exists q3. repeat split; congruence.
Qed.

Lemma with_bfqq_disp_kept qid f (d d' : bfq_data T) :
  keeps_flags f → with_bfqq qid f d = Ok d' → bfqd_disp_kept d d'.
Proof.
  intros Hf E. apply with_bfqq_inv in E. destruct E as (q0 & Hq0 & ->).
  unfold bfqd_disp_kept. cbn. repeat split.
  intros k q Hq. destruct (decide (k = qid)) as [-> | Hne].
  - rewrite lookup_insert_eq. rewrite Hq0 in Hq. injection Hq as <-.
    eexists. split; [reflexivity |]. apply Hf.
  - rewrite lookup_insert_ne by congruence. eauto.
Qed.

Lemma set_sched_disp_kept st (d : bfq_data T) :
  bfqd_disp_kept d (set_sched st d).
Proof. unfold bfqd_disp_kept. cbn. repeat split; eauto. Qed.

Ltac keeps_flags := intros ?; split; reflexivity.

Lemma bfq_activate_bfqq_disp_kept qid (d d' : bfq_data T) :
  bfq_activate_bfqq qid d = Ok d' → bfqd_disp_kept d d'.
Proof.
  unfold bfq_activate_bfqq. intros E.
  apply bind_Ok in E. destruct E as (q & _ & E). injection E as <-.
  apply set_sched_disp_kept.
Qed.

Lemma bfq_del_bfqq_busy_disp_kept qid r (d d' : bfq_data T) :
  bfq_del_bfqq_busy qid r d = Ok d' → bfqd_disp_kept d d'.
Proof.
  unfold bfq_del_bfqq_busy. intros E.
  apply bind_Ok in E. destruct E as (d1 & E1 & E). injection E as <-.
  apply with_bfqq_disp_kept in E1; [| keeps_flags].
  eapply bfqd_disp_kept_trans; [exact E1 |].
  unfold bfqd_disp_kept. cbn. repeat split; eauto.
Qed.

Lemma bfq_bfqq_served_disp_kept qid served (d d' : bfq_data T) :
  bfq_bfqq_served qid served d = Ok d' → bfqd_disp_kept d d'.
Proof.
  unfold bfq_bfqq_served. intros E.
  apply bind_Ok in E. destruct E as (d1 & E1 & E). injection E as <-.
  apply with_bfqq_disp_kept in E1; [| keeps_flags].
  eapply bfqd_disp_kept_trans; [exact E1 | apply set_sched_disp_kept].
Qed.

Lemma bfq_updated_next_req_disp_kept qid (d d' : bfq_data T) :
  bfq_updated_next_req qid d = Ok d' → bfqd_disp_kept d d'.
Proof.
  unfold bfq_updated_next_req. intros E.
  apply bind_Ok in E. destruct E as (q & _ & E).
  destruct (next_rq q) as [nrq |];
    [| injection E as <-; apply bfqd_disp_kept_refl].
  destruct (bool_decide _);
    [injection E as <-; apply bfqd_disp_kept_refl |].
  apply bind_Ok in E. destruct E as (u1 & _ & E).
  apply bind_Ok in E. destruct E as (u2 & _ & E).
  apply bind_Ok in E. destruct E as (d1 & E1 & E).
  apply with_bfqq_disp_kept in E1; [| keeps_flags].
  apply bfq_activate_bfqq_disp_kept in E.
  eapply bfqd_disp_kept_trans; eassumption.
Qed.

Lemma bfq_del_rq_rb_disp_kept rq (d d' : bfq_data T) :
  bfq_del_rq_rb rq d = Ok d' → bfqd_disp_kept d d'.
Proof.
  unfold bfq_del_rq_rb. cbv zeta. intros E.
  apply bind_Ok in E. destruct E as (q & Hq & E). apply deref_Ok in Hq.
  apply bind_Ok in E. destruct E as (u & _ & E).
  apply bind_Ok in E. destruct E as (sl & Hsl & E).
  apply elv_rb_del_Ok in Hsl. destruct Hsl as (_ & ->).
  match type of E with
  | (if _ then bfq_del_bfqq_busy _ _ ?d1 else _) = _ =>
      assert (H1 : bfqd_disp_kept d d1)
  end.
  { unfold bfqd_disp_kept. cbn. repeat split.
    intros k q0 Hq0. destruct (decide (k = RQ_BFQQ rq)) as [-> | Hne].
    - rewrite lookup_insert_eq. rewrite Hq in Hq0. injection Hq0 as <-.
      eexists. split; [reflexivity |].
      destruct (rq_is_sync rq); split; reflexivity.
    - rewrite lookup_insert_ne by congruence. eauto. }
  destruct (_ && _).
  - apply bfq_del_bfqq_busy_disp_kept in E.
    eapply bfqd_disp_kept_trans; eassumption.
  - injection E as <-. exact H1.
Qed.

Lemma bfq_remove_request_disp_kept rq (d d' : bfq_data T) :
  bfq_remove_request rq d = Ok d' → bfqd_disp_kept d d'.
Proof.
  unfold bfq_remove_request. cbv zeta. intros E.
  apply bind_Ok in E. destruct E as (q & _ & E).
  apply bind_Ok in E. destruct E as (d1 & E1 & E).
  assert (H1 : bfqd_disp_kept d d1).
  { destruct (opt_rq_ptr_eqb _ _);
      [| injection E1 as <-; apply bfqd_disp_kept_refl].
    apply bind_Ok in E1. destruct E1 as (nx & _ & E1).
    apply bind_Ok in E1. destruct E1 as (d0 & E0 & E1).
    apply with_bfqq_disp_kept in E0; [| keeps_flags].
    apply bfq_updated_next_req_disp_kept in E1.
    eapply bfqd_disp_kept_trans; eassumption. }
  apply bind_Ok in E. destruct E as (d2 & E2 & E).
  apply with_bfqq_disp_kept in E2; [| keeps_flags].
  apply bind_Ok in E. destruct E as (d3 & E3 & E).
  apply bfq_del_rq_rb_disp_kept in E3.
  assert (H3 : bfqd_disp_kept d d3).
  { eapply bfqd_disp_kept_trans; [exact H1 |].
    eapply bfqd_disp_kept_trans; eassumption. }
  destruct (rq_is_meta rq); [| injection E as <-; exact H3].
  apply with_bfqq_disp_kept in E; [| keeps_flags].
  eapply bfqd_disp_kept_trans; eassumption.
Qed.

(** [bfq_dispatch_insert] puts exactly the request on the dispatch
    list and keeps the flags of every queue. *)
Lemma bfq_dispatch_insert_moves_one rq (d d' : bfq_data T) :
  bfq_dispatch_insert rq d = Ok d' →
  dispatch_list d' = dispatch_list d ++ [rq]
  ∧ blktrace d' = blktrace d
  ∧ tun d' = tun d
  ∧ active_queue d' = active_queue d
  ∧ ∀ k q, queues d !! k = Some q →
      ∃ q', queues d' !! k = Some q'
            ∧ flag_fifo_expire q' = flag_fifo_expire q
            ∧ flag_sync q' = flag_sync q.
Proof.
  unfold bfq_dispatch_insert. cbv zeta. intros E.
  apply bind_Ok in E. destruct E as (q & _ & E).
  apply bind_Ok in E. destruct E as (nx & _ & E).
  apply bind_Ok in E. destruct E as (d1 & E1 & E).
  apply with_bfqq_disp_kept in E1; [| keeps_flags].
  apply bind_Ok in E. destruct E as (d2 & E2 & E).
  apply bfq_remove_request_disp_kept in E2.
  apply bind_Ok in E. destruct E as (d3 & E3 & E).
  apply with_bfqq_disp_kept in E3; [| keeps_flags].
  apply bind_Ok in E. destruct E as (q3 & _ & E).
  pose proof (bfqd_disp_kept_trans _ _ _
                (bfqd_disp_kept_trans _ _ _ E1 E2) E3)
    as (Hdl & Hbt & Htn & Haq & Hqs).
  destruct (flag_sync q3); injection E as <-; cbn;
    rewrite Hdl, Hbt, Htn, Haq; repeat split; exact Hqs.
Qed.

(** ** Counting dispatched requests *)

(** Each iteration of the inner loop that increments the count moves
    one request to the dispatch list. *)
Lemma bfq_dispatch_loop_inner_count jiffies qid max_dispatch fuel :
  ∀ n (d : bfq_data T) n' e d',
    __bfq_dispatch_loop fuel jiffies qid max_dispatch n d = Ok (n', e, d') →
    n ≤ n'
    ∧ Z.of_nat (length (dispatch_list d'))
        = Z.of_nat (length (dispatch_list d)) + (n' - n)
    ∧ blktrace d' = blktrace d
    ∧ active_queue d' = active_queue d.
Proof.
  induction fuel as [| fuel IH]; intros n d n' e d' E; [discriminate E |].
  cbn [__bfq_dispatch_loop] in E.
  apply bind_Ok in E. destruct E as (q & _ & E).
  destruct (bfq_check_fifo jiffies q) as [orq q1].
  apply bind_Ok in E. destruct E as (rq & _ & E).
  set (d0 := set_queues (<[qid:=q1]> (queues d)) d) in *.
  destruct (bfq_bfqq_budget_left q1 <? blk_rq_sectors rq).
  - apply bind_Ok in E. destruct E as (d1 & E1 & E).
    apply with_bfqq_inv in E1. destruct E1 as (q2 & _ & ->).
    injection E as <- <- <-. cbn. repeat split; lia.
  - apply bind_Ok in E. destruct E as (d1 & E1 & E).
    apply bfq_bfqq_served_disp_kept in E1.
    destruct E1 as (Hdl1 & Hbt1 & _ & Haq1 & _).
    apply bind_Ok in E. destruct E as (d2 & E2 & E).
    apply bfq_dispatch_insert_moves_one in E2.
    destruct E2 as (Hdl2 & Hbt2 & _ & Haq2 & _).
    cbv zeta in E.
    match type of E with
    | context [deref (queues ?x !! qid)] => set (d3 := x) in *
    end.
    assert (H3 : Z.of_nat (length (dispatch_list d3))
                   = Z.of_nat (length (dispatch_list d)) + 1
                 ∧ blktrace d3 = blktrace d
                 ∧ active_queue d3 = active_queue d).
    { subst d3. destruct (active_cic d2); cbn;
        rewrite Hdl2, Hbt2, Haq2, Hdl1, Hbt1, Haq1, length_app; cbn;
        repeat split; lia. }
    destruct H3 as (Hl3 & Hb3 & Ha3).
    apply bind_Ok in E. destruct E as (q3 & _ & E).
    destruct (RB_EMPTY_ROOT (sort_list q3)).
    + injection E as <- <- <-. repeat split; try assumption; lia.
    + destruct (n + 1 <? max_dispatch).
      * apply IH in E. destruct E as (Hle & Hl & Hb & Ha).
        repeat split; try congruence; lia.
      * injection E as <- <- <-. repeat split; try assumption; lia.
Qed.

(** [__bfq_dispatch_requests] returns the number of requests it moved. *)
Lemma bfq_dispatch_requests_inner_count jiffies now qid max_dispatch
  (d d' : bfq_data T) n :
  __bfq_dispatch_requests jiffies now qid max_dispatch d = Ok (n, d') →
  0 ≤ n
  ∧ Z.of_nat (length (dispatch_list d'))
      = Z.of_nat (length (dispatch_list d)) + n.
Proof.
  unfold __bfq_dispatch_requests. intros E.
  apply bind_Ok in E. destruct E as (q & _ & E).
  apply bind_Ok in E. destruct E as (u & _ & E).
  apply bind_Ok in E. destruct E as ([[n1 e] d1] & E1 & E).
  apply bfq_dispatch_loop_inner_count in E1.
  destruct E1 as (Hle & Hl & _).
  apply bind_Ok in E. destruct E as (q1 & _ & E).
  destruct (_ || _).
  - apply bind_Ok in E. destruct E as (d2 & E2 & E).
    apply bfq_bfqq_expire_post in E2.
    destruct E2 as (? & ? & ? & ? & _ & _ & _ & _ & _ & _ & Hk & _).
    destruct Hk as (Hdl & _).
    injection E as <- <-. rewrite Hdl. split; lia.
  - injection E as <- <-. split; lia.
Qed.

Lemma bfq_select_queue_dispatch_list jiffies now (d d' : bfq_data T) sel :
  bfq_select_queue jiffies now d = Ok (sel, d') →
  dispatch_list d' = dispatch_list d.
Proof.
  unfold bfq_select_queue. intros E.
  destruct (active_queue d) as [qid |].
  2:{ apply bfq_set_active_queue_kept in E. apply E. }
  cbv zeta in E. apply bind_Ok in E. destruct E as (q & Hq & E).
  apply deref_Ok in Hq.
  assert (Hex : ∀ reason (d0 : bfq_data T),
    dispatch_list d0 = dispatch_list d →
    bfq_bfqq_expire now qid false reason d0
      ≫= (λ d, bfq_set_active_queue d) = Ok (sel, d') →
    dispatch_list d' = dispatch_list d).
  { intros reason d0 Hd0 Ex. apply bind_Ok in Ex.
    destruct Ex as (d1 & Ex & Es).
    apply bfq_bfqq_expire_post in Ex.
    destruct Ex as (? & ? & ? & ? & _ & _ & _ & _ & _ & _ & Hk & _).
    apply bfq_set_active_queue_kept in Es.
    destruct Es as (Hk' & _). destruct Hk' as (-> & _).
    destruct Hk as (-> & _). exact Hd0. }
  destruct (bfq_bfqq_budget_timeout jiffies q).
  - apply bind_Ok in E. destruct E as (d1 & E1 & E).
    destruct (bfq_bfqq_charge_full_budget_spec qid d q Hq)
      as (d1' & E1' & _ & Hk & _).
    rewrite E1' in E1. injection E1 as <-.
    eapply Hex; [| exact E]. apply Hk.
  - destruct (next_rq q) as [nrq |].
    + destruct (_ <? _); [eapply Hex; [reflexivity | exact E] |].
      injection E as <- <-. reflexivity.
    + destruct (_ || _); [injection E as <- <-; reflexivity |].
      eapply Hex; [reflexivity | exact E].
Qed.

(** The count returned by a non-forced dispatch never exceeds the
    number of requests moved to the dispatch list. *)
Lemma bfq_dispatch_loop_count_le jiffies now fuel :
  ∀ n0 (d d' : bfq_data T) n,
    0 ≤ n0 →
    bfq_dispatch_loop fuel jiffies now n0 d = Ok (n, d') →
    0 ≤ n
    ∧ n - n0 ≤ Z.of_nat (length (dispatch_list d'))
               - Z.of_nat (length (dispatch_list d)).
Proof.
  induction fuel as [| fuel IH]; intros n0 d d' n Hn0 E; [discriminate E |].
  cbn [bfq_dispatch_loop] in E.
  apply bind_Ok in E. destruct E as ([sel d1] & E1 & E).
  apply bfq_select_queue_dispatch_list in E1.
  destruct sel as [qid |]; [| injection E as <- <-; rewrite E1; lia].
  apply bind_Ok in E. destruct E as (q & _ & E). cbv zeta in E.
  destruct (_ && _); [injection E as <- <-; rewrite E1; lia |].
  destruct (_ && _); [injection E as <- <-; rewrite E1; lia |].
  destruct (_ && _); [injection E as <- <-; rewrite E1; lia |].
  apply bind_Ok in E. destruct E as (d2 & E2 & E).
  apply with_bfqq_inv in E2. destruct E2 as (q2 & _ & ->).
  apply bind_Ok in E. destruct E as (u & _ & E).
  apply bind_Ok in E. destruct E as ([k d3] & E3 & E).
  apply bfq_dispatch_requests_inner_count in E3.
  destruct E3 as (Hk & Hl3). cbn in Hl3. rewrite E1 in Hl3.
  apply IH in E; [| lia]. lia.
Qed.

Lemma bfq_dispatch_requests_count_le jiffies now fuel (d d' : bfq_data T) n :
  bfq_dispatch_requests fuel jiffies now d = Ok (n, d') →
  0 ≤ n ≤ Z.of_nat (length (dispatch_list d'))
          - Z.of_nat (length (dispatch_list d)).
Proof.
  unfold bfq_dispatch_requests. intros E.
  destruct (busy_queues d =? 0); [injection E as <- <-; lia |].
  apply bfq_dispatch_loop_count_le in E; lia.
Qed.

(** * Further properties of the code *)

(** ** Choosing among two requests ([bfq_choose_req]) *)

Lemma bfq_rq_distance_cases last back_max pen s :
  (∃ dd, ∀ b, bfq_rq_distance last back_max pen s b = (dd, 0))
  ∨ (∀ b, bfq_rq_distance last back_max pen s b = (0, b)).
Proof.
  unfold bfq_rq_distance.
  destruct (last <=? s); [left; eauto |].
  destruct (last <=? u64 (s + back_max)); [left; eauto | right; auto].
Qed.

Lemma bfq_choose_req_cases (bfqd : bfq_data T) (rq1 rq2 : option request) :
  (bfq_choose_req bfqd rq1 rq2 = rq1 ∨ bfq_choose_req bfqd rq1 rq2 = rq2)
  ∧ (bfq_choose_req bfqd rq1 rq2 = None ↔ rq1 = None ∧ rq2 = None).
Proof.
  assert (Hpick : bfq_choose_req bfqd rq1 rq2 = rq1
                  ∨ bfq_choose_req bfqd rq1 rq2 = rq2).
  { unfold bfq_choose_req.
    destruct rq1 as [r1 |], rq2 as [r2 |]; auto.
    destruct (rq_ptr_eqb r1 r2); auto.
    destruct (rq_is_sync r1), (rq_is_sync r2), (rq_is_meta r1),
      (rq_is_meta r2); cbn [andb negb]; auto;
      (destruct (bfq_rq_distance_cases (last_position bfqd)
                   (u32 (bfq_back_max (tun bfqd) * 2))
                   (bfq_back_penalty (tun bfqd)) (blk_rq_pos r1))
         as [[d1 H1] | H1];
       destruct (bfq_rq_distance_cases (last_position bfqd)
                   (u32 (bfq_back_max (tun bfqd) * 2))
                   (bfq_back_penalty (tun bfqd)) (blk_rq_pos r2))
         as [[d2 H2] | H2];
       rewrite H1, H2; cbn;
       repeat match goal with
              | |- context [if ?b then _ else _] => destruct b; auto
              end). }
  split; [exact Hpick |]. split.
  - intros Hn. destruct rq1 as [r1 |], rq2 as [r2 |]; auto;
      destruct Hpick as [Hp | Hp]; rewrite Hp in Hn; try discriminate;
      cbn in *; discriminate.
  - intros [-> ->]. reflexivity.
Qed.

(** X1: [bfq_choose_req] returns one of its two arguments, and returns
    NULL only when both are NULL. *)
Theorem bfq_choose_req_picks_argument (bfqd : bfq_data T)
  (rq1 rq2 : option request) :
  (bfq_choose_req bfqd rq1 rq2 = rq1 ∨ bfq_choose_req bfqd rq1 rq2 = rq2)
  ∧ (bfq_choose_req bfqd rq1 rq2 = None ↔ rq1 = None ∧ rq2 = None).
Proof.
  exact (bfq_choose_req_cases bfqd rq1 rq2).
Qed.

(** X2: for two distinct requests at different sectors the choice does
    not depend on the order of the arguments. *)
Theorem bfq_choose_req_symmetric (bfqd : bfq_data T) (r1 r2 : request) :
  rq_id r1 ≠ rq_id r2 →
  blk_rq_pos r1 ≠ blk_rq_pos r2 →
  bfq_choose_req bfqd (Some r1) (Some r2)
    = bfq_choose_req bfqd (Some r2) (Some r1).
Proof.
  intros Hid Hpos. unfold bfq_choose_req, rq_ptr_eqb.
  destruct (Nat.eqb_spec (rq_id r1) (rq_id r2)); [contradiction |].
  destruct (Nat.eqb_spec (rq_id r2) (rq_id r1)); [congruence |].
  destruct (rq_is_sync r1), (rq_is_sync r2); cbn [andb negb];
    try reflexivity;
    (destruct (rq_is_meta r1), (rq_is_meta r2); cbn [andb negb];
     try reflexivity);
    (destruct (bfq_rq_distance_cases (last_position bfqd)
                 (u32 (bfq_back_max (tun bfqd) * 2))
                 (bfq_back_penalty (tun bfqd)) (blk_rq_pos r1))
       as [[d1 H1] | H1];
     destruct (bfq_rq_distance_cases (last_position bfqd)
                 (u32 (bfq_back_max (tun bfqd) * 2))
                 (bfq_back_penalty (tun bfqd)) (blk_rq_pos r2))
       as [[d2 H2] | H2];
     rewrite !H1, !H2; cbn;
     repeat match goal with
            | |- context [?a <? ?b] => destruct (Z.ltb_spec a b)
            | |- context [?a <=? ?b] => destruct (Z.leb_spec a b)
            end; try reflexivity; lia).
Qed.

(** ** The neighbour of a request in the sort list ([bfq_find_next_rq]) *)

Lemma rb_neighbours_spec l prev id p n :
  rb_neighbours l prev id = Some (p, n) →
  ∃ l1 r l2,
    l = l1 ++ r :: l2
    ∧ rq_id r = id
    ∧ Forall (λ x, rq_id x ≠ id) l1
    ∧ p = match last l1 with Some x => Some x | None => prev end
    ∧ n = head l2.
Proof.
  revert prev. induction l as [| r l IH]; intros prev E; [discriminate E |].
  cbn in E. destruct (Nat.eqb_spec (rq_id r) id) as [Heq | Hne].
  - injection E as <- <-. exists [], r, l. repeat split; auto.
  - apply IH in E. destruct E as (l1 & r0 & l2 & -> & Hid & Hall & -> & ->).
    exists (r :: l1), r0, l2. repeat split; auto.
    destruct l1 as [| x l1]; [reflexivity |].
    change (last (r :: x :: l1)) with (last (x :: l1)).
    destruct (last (x :: l1)) eqn:El; [reflexivity |].
    apply last_None in El. discriminate El.
Qed.

Lemma rb_neighbours_None l prev id :
  rb_neighbours l prev id = None ↔ Forall (λ x, rq_id x ≠ id) l.
Proof.
  revert prev. induction l as [| r l IH]; intros prev; cbn.
  - split; [constructor | reflexivity].
  - destruct (Nat.eqb_spec (rq_id r) id) as [Heq | Hne].
    + split; [discriminate |]. intros Hall. inversion Hall. contradiction.
    + rewrite IH. split; [constructor; assumption |].
      intros Hall. inversion Hall. assumption.
Qed.

Lemma bfq_find_next_rq_spec (bfqd : bfq_data T) (bfqq : bfq_queue)
  (lrq : request) :
  NoDup (rq_id <$> sort_list bfqq) →
  (Forall (λ x, rq_id x ≠ rq_id lrq) (sort_list bfqq) →
     bfq_find_next_rq bfqd bfqq lrq = Oops)
  ∧ (Exists (λ x, rq_id x = rq_id lrq) (sort_list bfqq) →
     ∃ r, bfq_find_next_rq bfqd bfqq lrq = Ok r
       ∧ (∀ x, r = Some x → x ∈ sort_list bfqq ∧ rq_id x ≠ rq_id lrq)
       ∧ (r = None ↔ length (sort_list bfqq) = 1%nat)).
Proof.
  intros Hnd. unfold bfq_find_next_rq. split.
  - intros Hall. apply (rb_neighbours_None _ None) in Hall.
    rewrite Hall. reflexivity.
  - intros Hex.
    destruct (rb_neighbours (sort_list bfqq) None (rq_id lrq))
      as [[p n] |] eqn:E.
    2:{ apply rb_neighbours_None in E. apply Exists_exists in Hex.
        destruct Hex as (x & Hx & Hid). rewrite Forall_forall in E.
        exfalso. exact (E x Hx Hid). }
    apply rb_neighbours_spec in E.
    destruct E as (l1 & r0 & l2 & Hl & Hid & Hall & -> & ->).
    cbn [deref mbind result_bind]. eexists. split; [reflexivity |].
    rewrite Hl in Hnd. rewrite fmap_app, fmap_cons in Hnd.
    apply NoDup_app in Hnd. destruct Hnd as (Hnd1 & Hdisj & Hnd2).
    apply NoDup_cons in Hnd2. destruct Hnd2 as (Hr0 & Hnd2).
    set (next := match head l2 with
                 | Some n => Some n
                 | None =>
                     match head (sort_list bfqq) with
                     | Some first =>
                         if rq_ptr_eqb first lrq then None else Some first
                     | None => None
                     end
                 end).
    set (prev := match last l1 with Some x => Some x | None => None end).
    assert (Hprev : ∀ x, prev = Some x →
                         x ∈ sort_list bfqq ∧ rq_id x ≠ rq_id lrq).
    { intros x Hx. subst prev. destruct (last l1) as [y |] eqn:El;
        [| discriminate]. injection Hx as ->.
      apply last_Some in El. destruct El as (l' & ->).
      split; [rewrite Hl; rewrite ?elem_of_app, ?elem_of_cons; tauto |].
      rewrite Forall_app, Forall_singleton in Hall. apply Hall. }
    assert (Hnext : ∀ x, next = Some x →
                         x ∈ sort_list bfqq ∧ rq_id x ≠ rq_id lrq).
    { intros x Hx. subst next. destruct l2 as [| y l2]; cbn in Hx.
      - rewrite Hl in Hx. destruct l1 as [| z l1]; cbn in Hx.
        + unfold rq_ptr_eqb in Hx. rewrite Hid, Nat.eqb_refl in Hx.
          discriminate.
        + unfold rq_ptr_eqb in Hx.
          destruct (Nat.eqb_spec (rq_id z) (rq_id lrq)); [discriminate |].
          injection Hx as ->. split; [rewrite Hl; rewrite ?elem_of_app, ?elem_of_cons; tauto | assumption].
      - injection Hx as ->. split; [rewrite Hl; rewrite ?elem_of_app, ?elem_of_cons; tauto |].
        intros Heq. apply Hr0. rewrite fmap_cons. rewrite Hid, <- Heq.
        rewrite ?elem_of_app, ?elem_of_cons; tauto. }
    destruct (bfq_choose_req_cases bfqd next prev)
      as ([Hc | Hc] & Hnone).
    + split; [intros x Hx; apply Hnext; congruence |].
      rewrite Hnone. subst next prev. rewrite Hl.
      destruct l1 as [| z l1], l2 as [| y l2]; cbn;
        rewrite ?length_app; cbn;
        try (destruct (last (z :: l1)) eqn:El;
             [| apply last_None in El; discriminate El]);
        unfold rq_ptr_eqb; rewrite ?Hid, ?Nat.eqb_refl;
        try (destruct (Nat.eqb_spec (rq_id z) (rq_id lrq)));
        split; intros; try lia; intuition (try discriminate; try lia).
    + split; [intros x Hx; apply Hprev; congruence |].
      rewrite Hnone. subst next prev. rewrite Hl.
      destruct l1 as [| z l1], l2 as [| y l2]; cbn;
        rewrite ?length_app; cbn;
        try (destruct (last (z :: l1)) eqn:El;
             [| apply last_None in El; discriminate El]);
        unfold rq_ptr_eqb; rewrite ?Hid, ?Nat.eqb_refl;
        try (destruct (Nat.eqb_spec (rq_id z) (rq_id lrq)));
        split; intros; try lia; intuition (try discriminate; try lia).
Qed.

(** X3: in a sort list without repeated requests, the request that
    [bfq_find_next_rq] returns for [last] is a request of the list other
    than [last]; it returns NULL exactly when [last] is the only request
    of the list; the call is a bug when [last] is not in the list. *)
Theorem bfq_find_next_rq_other (bfqd : bfq_data T) (bfqq : bfq_queue)
  (lrq : request) :
  NoDup (rq_id <$> sort_list bfqq) →
  (Forall (λ x, rq_id x ≠ rq_id lrq) (sort_list bfqq) →
     bfq_find_next_rq bfqd bfqq lrq = Oops)
  ∧ (Exists (λ x, rq_id x = rq_id lrq) (sort_list bfqq) →
     ∃ r, bfq_find_next_rq bfqd bfqq lrq = Ok r
       ∧ (∀ x, r = Some x → x ∈ sort_list bfqq ∧ rq_id x ≠ rq_id lrq)
       ∧ (r = None ↔ length (sort_list bfqq) = 1%nat)).
Proof.
  exact (bfq_find_next_rq_spec bfqd bfqq lrq).
Qed.

(** ** The budget timeout across a wrap of [jiffies] *)

Lemma time_before_offset (j a b : Z) :
  0 ≤ a < 2 ^ 63 → 0 ≤ b < 2 ^ 63 →
  time_before (u64 (j + a)) (u64 (j + b)) = (a <? b).
Proof.
  intros Ha Hb. unfold time_before, s64, u64.
  change (2 ^ 64) with 18446744073709551616 in *.
  change (2 ^ 63) with 9223372036854775808 in *.
  destruct (Z.ltb_spec a b); [apply Z.ltb_lt | apply Z.ltb_ge];
    Z.div_mod_to_equations; lia.
Qed.

(** X4: once [bfq_set_budget_timeout] has stamped the active queue at
    time [jiffies] with a timeout of [t] jiffies, the queue is found
    timed out [dt] jiffies later exactly when [t ≤ dt], wherever
    [jiffies] stands with respect to its wrap-around ([t] and [dt]
    below 2^63). *)
Theorem bfq_budget_timeout_after (jiffies now dt : Z) (bfqd : bfq_data T)
  (qid : nat) (q : bfq_queue) :
  active_queue bfqd = Some qid →
  queues bfqd !! qid = Some q →
  0 ≤ (if flag_sync q then bfq_timeout_sync (tun bfqd)
       else bfq_timeout_async (tun bfqd)) < 2 ^ 63 →
  0 ≤ dt < 2 ^ 63 →
  ∃ bfqd' q',
    bfq_set_budget_timeout jiffies now bfqd = Ok bfqd'
    ∧ queues bfqd' !! qid = Some q'
    ∧ bfq_bfqq_budget_timeout (u64 (jiffies + dt)) q'
        = bool_decide
            ((if flag_sync q then bfq_timeout_sync (tun bfqd)
              else bfq_timeout_async (tun bfqd)) ≤ dt).
Proof.
  intros Ha Hq Ht Hdt. unfold bfq_set_budget_timeout.
  rewrite Ha. cbn [deref mbind result_bind]. unfold with_bfqq.
  cbn. rewrite Hq. cbn. eexists _, _. split; [reflexivity |].
  split; [apply lookup_insert_eq |].
  unfold bfq_bfqq_budget_timeout. cbn.
  rewrite time_before_offset by assumption.
  destruct (Z.ltb_spec dt
              (if flag_sync q then bfq_timeout_sync (tun bfqd)
               else bfq_timeout_async (tun bfqd))).
  - rewrite bool_decide_eq_false_2 by lia. reflexivity.
  - rewrite bool_decide_eq_true_2 by lia. reflexivity.
Qed.

(** ** The activation counter ([__bfq_set_active_queue]) *)

(** X5: making a queue the active one opens a fresh slice (budget_new
    and must_alloc set, fifo_expire cleared) and advances its
    [budgets_assigned] counter, which never decreases, never leaves
    the range 0..256 and grows strictly as long as it is below 249. *)
Theorem bfq_set_active_queue_counter (bfqd : bfq_data T) (qid : nat)
  (q : bfq_queue) :
  queues bfqd !! qid = Some q →
  0 ≤ budgets_assigned q ≤ 256 →
  ∃ bfqd' q',
    __bfq_set_active_queue (Some qid) bfqd = Ok bfqd'
    ∧ active_queue bfqd' = Some qid
    ∧ queues bfqd' !! qid = Some q'
    ∧ budgets_assigned q ≤ budgets_assigned q' ≤ 256
    ∧ (budgets_assigned q < 249 → budgets_assigned q < budgets_assigned q')
    ∧ flag_budget_new q' = true
    ∧ flag_must_alloc q' = true
    ∧ flag_fifo_expire q' = false
    ∧ sort_list q' = sort_list q
    ∧ next_rq q' = next_rq q
    ∧ entity q' = entity q.
Proof.
  intros Hq Hb. unfold __bfq_set_active_queue, with_bfqq.
  rewrite Hq. cbn. eexists _, _. split; [reflexivity |].
  split; [reflexivity |]. split; [apply lookup_insert_eq |].
  cbn. repeat split; try (Z.div_mod_to_equations; lia).
Qed.

(** ** The peak-rate estimate ([bfq_update_peak_rate]) *)

Ltac destr_cmp :=
  repeat match goal with
         | |- context [?a <? ?b] => destruct (Z.ltb_spec a b)
         | |- context [?a <=? ?b] => destruct (Z.leb_spec a b)
         | |- context [?a =? ?b] => destruct (Z.eqb_spec a b)
         | |- context [if ?b then _ else _] => destruct b eqn:?
         end.

Lemma bfq_update_peak_rate_frame (now : Z) (qid : nat)
  (compensate : bool) (bfqd bfqd' : bfq_data T) (slow : bool) :
  bfq_update_peak_rate now qid compensate bfqd = Ok (slow, bfqd') →
  peak_rate bfqd ≤ peak_rate bfqd'
  ∧ peak_rate_samples bfqd ≤ peak_rate_samples bfqd'
  ∧ peak_rate_samples bfqd' ≤ Z.max (peak_rate_samples bfqd) 32
  ∧ (bfq_user_max_budget (tun bfqd) ≠ 0 →
     bfq_max_budget bfqd' = bfq_max_budget bfqd)
  ∧ (peak_rate_samples bfqd' ≠ 32 →
     bfq_max_budget bfqd' = bfq_max_budget bfqd)
  ∧ queues bfqd' = queues bfqd
  ∧ tun bfqd' = tun bfqd.
Proof.
  unfold bfq_update_peak_rate. intros E.
  apply bind_Ok in E. destruct E as (q & _ & E).
  unfold BFQ_PEAK_RATE_SAMPLES in E.
  destruct (negb (flag_sync q) || flag_budget_new q);
    [injection E as <- <-; repeat split; lia |].
  destruct (_ || _); [injection E as <- <-; repeat split; lia |].
  apply bind_Ok in E. destruct E as (bw & _ & E).
  injection E as _ <-.
  destruct (20000 <? _); [| repeat split; lia].
  destr_cmp; cbn in *; repeat split; intros; try reflexivity;
    try congruence; try lia.
Qed.

(** X6: the end-of-slice measurement never lowers the peak rate, never
    lowers the number of samples nor takes it past 32, leaves the
    queues and the tunables alone, and changes the device-wide maximum
    budget only when the user has not pinned one and the number of
    samples stands at 32. *)
Theorem bfq_update_peak_rate_estimate (now : Z) (qid : nat)
  (compensate : bool) (bfqd bfqd' : bfq_data T) (slow : bool) :
  bfq_update_peak_rate now qid compensate bfqd = Ok (slow, bfqd') →
  peak_rate bfqd ≤ peak_rate bfqd'
  ∧ peak_rate_samples bfqd ≤ peak_rate_samples bfqd'
  ∧ peak_rate_samples bfqd' ≤ Z.max (peak_rate_samples bfqd) 32
  ∧ (bfq_user_max_budget (tun bfqd) ≠ 0 →
     bfq_max_budget bfqd' = bfq_max_budget bfqd)
  ∧ (peak_rate_samples bfqd' ≠ 32 →
     bfq_max_budget bfqd' = bfq_max_budget bfqd)
  ∧ queues bfqd' = queues bfqd
  ∧ tun bfqd' = tun bfqd.
Proof.
  exact (bfq_update_peak_rate_frame now qid compensate bfqd bfqd' slow).
Qed.

(** ** The budget handed to the next slice ([__bfq_bfqq_recalc_budget]) *)

(** X7: unless a sync queue expires for lack of requests (the case in
    which the function returns early), the budget that the
    recalculation leaves in the entity is the larger of the new
    [max_budget] and of the size of the next request, so the next
    request always fits in the next budget. *)
Theorem bfq_recalc_budget_covers_next (bfqd : bfq_data T) (qid : nat)
  (q : bfq_queue) (reason : bfqq_expiration) (rq : request) :
  active_queue bfqd = Some qid →
  queues bfqd !! qid = Some q →
  next_rq q = Some rq →
  (flag_sync q = true → reason ≠ BFQ_BFQQ_NO_MORE_REQUESTS) →
  ∃ bfqd' q',
    __bfq_bfqq_recalc_budget qid reason bfqd = Ok bfqd'
    ∧ queues bfqd' !! qid = Some q'
    ∧ next_rq q' = Some rq
    ∧ budget (entity q') = Z.max (max_budget q') (blk_rq_sectors rq)
    ∧ blk_rq_sectors rq ≤ budget (entity q').
Proof.
  intros Ha Hq Hn Hr.
  destruct (bfq_bfqq_recalc_budget_spec qid reason bfqd q Ha Hq)
    as (d' & E & Hqs & _).
  exists d', (bfqq_recalc_budget bfqd q reason). split; [exact E |].
  split; [rewrite Hqs; apply lookup_insert_eq |].
  unfold bfqq_recalc_budget.
  destruct (flag_sync q) eqn:Hs.
  - destruct reason; try (exfalso; apply Hr; reflexivity);
      cbv zeta; cbn [next_rq set_max_budget max_budget];
      repeat match goal with
             | |- context [if ?b then _ else _] => destruct b
             end;
      cbn; rewrite ?Hn; cbn; repeat split; try assumption; lia.
  - cbv zeta; cbn [next_rq set_max_budget max_budget];
      repeat match goal with
             | |- context [if ?b then _ else _] => destruct b
             end;
      cbn; rewrite ?Hn; cbn; repeat split; try assumption; lia.
Qed.

(** X8: the feedback keeps [max_budget] between the minimum budget
    (half of the device-wide maximum) and the device-wide maximum,
    once it is there.  A budget timeout is the exception while the
    queue is young and no maximum is pinned: it then resets
    [max_budget] to three quarters of the default maximum, whatever
    the device-wide maximum is. *)
Theorem bfq_recalc_budget_range (bfqd : bfq_data T) (q : bfq_queue)
  (reason : bfqq_expiration) :
  0 ≤ bfq_max_budget bfqd < 2 ^ 63 →
  bfq_min_budget bfqd q ≤ max_budget q ≤ bfq_max_budget bfqd →
  (reason = BFQ_BFQQ_BUDGET_TIMEOUT →
   194 ≤ budgets_assigned q ∨ bfq_user_max_budget (tun bfqd) ≠ 0) →
  bfq_min_budget bfqd q
    ≤ max_budget (bfqq_recalc_budget bfqd q reason)
    ≤ bfq_max_budget bfqd.
Proof.
  intros HM Hb Ht.
  unfold bfqq_recalc_budget, bfq_default_budget, bfq_min_budget,
    BFQ_BUDGET_STEP, u64 in *.
  change (2 ^ 64) with 18446744073709551616 in *.
  change (2 ^ 63) with 9223372036854775808 in *.
  destruct (flag_sync q), reason; cbv zeta;
    cbn [next_rq set_max_budget max_budget];
    try (specialize (Ht eq_refl));
    destr_cmp; cbn in *; destruct (next_rq q); cbn; try lia;
    try (Z.div_mod_to_equations; lia).
Qed.

(** ** Loops that are unrolled with a bound *)

Lemma bind_fuel {A B} (m : result A) (f : A → result B) :
  m ≠ OutOfFuel → (∀ a, f a ≠ OutOfFuel) → m ≫= f ≠ OutOfFuel.
Proof. destruct m as [a | |]; cbn; intros Hm Hf; auto. Qed.

Lemma deref_fuel {A} (o : option A) : deref o ≠ OutOfFuel.
Proof. destruct o; discriminate. Qed.

Lemma BUG_ON_fuel (c : bool) : BUG_ON c ≠ OutOfFuel.
Proof. destruct c; discriminate. Qed.

Ltac fuel_step :=
  first
    [ discriminate
    | apply deref_fuel
    | apply BUG_ON_fuel
    | apply bind_fuel; [| intros ?]
    | match goal with
      | |- (if ?c then _ else _) ≠ OutOfFuel => destruct c
      | |- (match ?x with _ => _ end) ≠ OutOfFuel => destruct x
      | |- (let '(_, _) := ?x in _) ≠ OutOfFuel => destruct x
      end
    | assumption ].

Lemma with_bfqq_fuel qid f (d : bfq_data T) : with_bfqq qid f d ≠ OutOfFuel.
Proof. unfold with_bfqq. repeat fuel_step. Qed.

Lemma bfq_activate_bfqq_fuel qid (d : bfq_data T) :
  bfq_activate_bfqq qid d ≠ OutOfFuel.
Proof. unfold bfq_activate_bfqq. repeat fuel_step. Qed.

Lemma bfq_del_bfqq_busy_fuel qid r (d : bfq_data T) :
  bfq_del_bfqq_busy qid r d ≠ OutOfFuel.
Proof.
  unfold bfq_del_bfqq_busy.
  apply bind_fuel; [apply with_bfqq_fuel | intros; discriminate].
Qed.

Lemma bfq_bfqq_served_fuel qid n (d : bfq_data T) :
  bfq_bfqq_served qid n d ≠ OutOfFuel.
Proof.
  unfold bfq_bfqq_served.
  apply bind_fuel; [apply with_bfqq_fuel | intros; discriminate].
Qed.

Lemma bfq_find_next_rq_fuel (d : bfq_data T) q rq :
  bfq_find_next_rq d q rq ≠ OutOfFuel.
Proof. unfold bfq_find_next_rq. repeat fuel_step. Qed.

Lemma bfq_updated_next_req_fuel qid (d : bfq_data T) :
  bfq_updated_next_req qid d ≠ OutOfFuel.
Proof.
  unfold bfq_updated_next_req.
  apply bind_fuel; [apply deref_fuel | intros q].
  destruct (next_rq q); [| discriminate].
  destruct (bool_decide _); [discriminate |].
  apply bind_fuel; [apply BUG_ON_fuel | intros _].
  apply bind_fuel; [apply BUG_ON_fuel | intros _].
  apply bind_fuel; [apply with_bfqq_fuel | intros; apply bfq_activate_bfqq_fuel].
Qed.

Lemma bfq_del_rq_rb_fuel rq (d : bfq_data T) : bfq_del_rq_rb rq d ≠ OutOfFuel.
Proof.
  unfold bfq_del_rq_rb.
  apply bind_fuel; [apply deref_fuel | intros q].
  apply bind_fuel; [apply BUG_ON_fuel | intros _].
  cbv zeta.
  apply bind_fuel;
    [unfold elv_rb_del;
     apply bind_fuel; [apply BUG_ON_fuel | intros; discriminate]
    | intros sl].
  destruct (_ && _); [apply bfq_del_bfqq_busy_fuel | discriminate].
Qed.

Lemma bfq_remove_request_fuel rq (d : bfq_data T) :
  bfq_remove_request rq d ≠ OutOfFuel.
Proof.
  unfold bfq_remove_request.
  apply bind_fuel; [apply deref_fuel | intros q].
  apply bind_fuel.
  { destruct (opt_rq_ptr_eqb _ _); [| discriminate].
    apply bind_fuel; [apply bfq_find_next_rq_fuel | intros next].
    apply bind_fuel; [apply with_bfqq_fuel | intros].
    apply bfq_updated_next_req_fuel. }
  intros d1.
  apply bind_fuel; [apply with_bfqq_fuel | intros d2].
  apply bind_fuel; [apply bfq_del_rq_rb_fuel | intros d3].
  destruct (rq_is_meta rq); [apply with_bfqq_fuel | discriminate].
Qed.

Lemma bfq_dispatch_insert_fuel rq (d : bfq_data T) :
  bfq_dispatch_insert rq d ≠ OutOfFuel.
Proof.
  unfold bfq_dispatch_insert.
  apply bind_fuel; [apply deref_fuel | intros q].
  apply bind_fuel; [apply bfq_find_next_rq_fuel | intros next].
  apply bind_fuel; [apply with_bfqq_fuel | intros d1].
  apply bind_fuel; [apply bfq_remove_request_fuel | intros d2].
  apply bind_fuel; [apply with_bfqq_fuel | intros d3].
  cbv zeta.
  apply bind_fuel; [apply deref_fuel | intros q3].
  destruct (flag_sync q3); discriminate.
Qed.

Lemma bfq_bfqq_charge_full_budget_fuel qid (d : bfq_data T) :
  bfq_bfqq_charge_full_budget qid d ≠ OutOfFuel.
Proof.
  unfold bfq_bfqq_charge_full_budget.
  apply bind_fuel; [apply deref_fuel | intros q]. cbv zeta.
  apply bind_fuel; [apply with_bfqq_fuel | intros; discriminate].
Qed.

Lemma bfq_bfqq_expire_fuel now qid c reason (d : bfq_data T) :
  bfq_bfqq_expire now qid c reason d ≠ OutOfFuel.
Proof.
  unfold bfq_bfqq_expire.
  apply bind_fuel.
  { unfold bfq_update_peak_rate.
    apply bind_fuel; [apply deref_fuel | intros q].
    destruct (_ || _); [discriminate |]. cbv zeta.
    destruct (_ || _); [discriminate |].
    apply bind_fuel; [| intros; discriminate].
    unfold bfq_slice_bw, do_div. destruct (_ =? _); discriminate. }
  intros [slow d1]. cbv zeta.
  apply bind_fuel; [apply deref_fuel | intros q].
  apply bind_fuel.
  { destruct (_ || _); [apply bfq_bfqq_charge_full_budget_fuel
                       | discriminate]. }
  intros d2.
  apply bind_fuel.
  { unfold __bfq_bfqq_recalc_budget.
    apply bind_fuel; [apply BUG_ON_fuel | intros _; apply with_bfqq_fuel]. }
  intros d3. unfold __bfq_bfqq_expire.
  apply bind_fuel; [apply BUG_ON_fuel | intros _]. cbv zeta.
  apply bind_fuel; [apply deref_fuel | intros q3].
  destruct (RB_EMPTY_ROOT _);
    [apply bfq_del_bfqq_busy_fuel | apply bfq_activate_bfqq_fuel].
Qed.

Lemma bfq_dispatch_loop_inner_fuel jiffies qid max_dispatch fuel :
  ∀ n (d : bfq_data T),
    (0 < fuel)%nat →
    max_dispatch - n ≤ Z.of_nat fuel →
    __bfq_dispatch_loop fuel jiffies qid max_dispatch n d ≠ OutOfFuel.
Proof.
  induction fuel as [| fuel IH]; intros n d Hf Hm; [lia |].
  cbn [__bfq_dispatch_loop].
  apply bind_fuel; [apply deref_fuel | intros q].
  destruct (bfq_check_fifo jiffies q) as [orq q1]. cbv zeta.
  apply bind_fuel; [apply deref_fuel | intros rq].
  destruct (_ <? _).
  { apply bind_fuel; [apply with_bfqq_fuel | intros; discriminate]. }
  apply bind_fuel; [apply bfq_bfqq_served_fuel | intros d1].
  apply bind_fuel; [apply bfq_dispatch_insert_fuel | intros d2].
  apply bind_fuel; [apply deref_fuel | intros q2].
  destruct (RB_EMPTY_ROOT _); [discriminate |].
  destruct (Z.ltb_spec (n + 1) max_dispatch); [| discriminate].
  apply IH; lia.
Qed.

Lemma bfq_dispatch_loop_inner_bound jiffies qid max_dispatch fuel :
  ∀ n (d : bfq_data T) n' e d',
    __bfq_dispatch_loop fuel jiffies qid max_dispatch n d = Ok (n', e, d') →
    n' ≤ Z.max (n + 1) max_dispatch
    ∧ (e = false → n < n').
Proof.
  induction fuel as [| fuel IH]; intros n d n' e d' E; [discriminate E |].
  cbn [__bfq_dispatch_loop] in E.
  apply bind_Ok in E. destruct E as (q & _ & E).
  destruct (bfq_check_fifo jiffies q) as [orq q1]. cbv zeta in E.
  apply bind_Ok in E. destruct E as (rq & _ & E).
  destruct (_ <? _).
  { apply bind_Ok in E. destruct E as (d1 & _ & E).
    injection E as <- <- <-. split; [lia | discriminate]. }
  apply bind_Ok in E. destruct E as (d1 & _ & E).
  apply bind_Ok in E. destruct E as (d2 & _ & E).
  apply bind_Ok in E. destruct E as (q2 & _ & E).
  destruct (RB_EMPTY_ROOT _); [injection E as <- <- <-; split; lia |].
  destruct (Z.ltb_spec (n + 1) max_dispatch);
    [| injection E as <- <- <-; split; lia].
  apply IH in E. split; [lia |]. intros He. destruct E as (_ & E).
  specialize (E He). lia.
Qed.

(** ** One round of dispatch ([__bfq_dispatch_requests]) *)

(** X9: a round of dispatch on a queue always terminates; when it
    completes, the count it returns is exactly the number of requests
    that the round added to the dispatch list, and it is at most
    [max_dispatch] (at most one when [max_dispatch] is below one). *)
Theorem bfq_dispatch_round_count (jiffies now : Z) (qid : nat)
  (max_dispatch : Z) (bfqd : bfq_data T) :
  __bfq_dispatch_requests jiffies now qid max_dispatch bfqd ≠ OutOfFuel
  ∧ ∀ n bfqd',
      __bfq_dispatch_requests jiffies now qid max_dispatch bfqd
        = Ok (n, bfqd') →
      0 ≤ n ≤ Z.max 1 max_dispatch
      ∧ Z.of_nat (length (dispatch_list bfqd'))
          = Z.of_nat (length (dispatch_list bfqd)) + n.
Proof.
  split.
  - unfold __bfq_dispatch_requests.
    apply bind_fuel; [apply deref_fuel | intros q].
    apply bind_fuel; [apply BUG_ON_fuel | intros _].
    apply bind_fuel; [apply bfq_dispatch_loop_inner_fuel; lia |].
    intros [[n e] d1].
    apply bind_fuel; [apply deref_fuel | intros q1].
    destruct (_ || _); [| discriminate].
    apply bind_fuel; [apply bfq_bfqq_expire_fuel | intros; discriminate].
  - intros n bfqd' E.
    destruct (bfq_dispatch_requests_inner_count _ _ _ _ _ _ _ E)
      as (Hn & Hl).
    split; [| exact Hl]. split; [exact Hn |].
    unfold __bfq_dispatch_requests in E.
    apply bind_Ok in E. destruct E as (q & _ & E).
    apply bind_Ok in E. destruct E as (u & _ & E).
    apply bind_Ok in E. destruct E as ([[n1 e] d1] & E1 & E).
    apply bfq_dispatch_loop_inner_bound in E1. destruct E1 as (Hb & _).
    apply bind_Ok in E. destruct E as (q1 & _ & E).
    destruct (_ || _).
    + apply bind_Ok in E. destruct E as (d2 & _ & E).
      injection E as <- <-. lia.
    + injection E as <- <-. lia.
Qed.

(** ** The dispatch entry point ([bfq_dispatch_requests]) *)

(** X10: the count returned by a non-forced dispatch is never negative
    and never larger than the number of requests that the call added
    to the dispatch list. *)
Theorem bfq_dispatch_requests_never_overcounts (fuel : nat)
  (jiffies now : Z) (bfqd bfqd' : bfq_data T) (n : Z) :
  bfq_dispatch_requests fuel jiffies now bfqd = Ok (n, bfqd') →
  0 ≤ n
  ∧ Z.of_nat (length (dispatch_list bfqd)) + n
      ≤ Z.of_nat (length (dispatch_list bfqd')).
Proof.
  intros E. apply bfq_dispatch_requests_count_le in E. lia.
Qed.

(** ** Queue selection ([bfq_select_queue]) *)

Lemma bfq_set_active_queue_present (d d' : bfq_data T) qid :
  bfq_set_active_queue d = Ok (Some qid, d') →
  is_Some (queues d' !! qid).
Proof.
  unfold bfq_set_active_queue, bfq_get_next_queue, __bfq_set_active_queue.
  destruct (st_next_queue (sched d)) as [next st]. intros E.
  destruct next as [k |]; cbn [mbind result_bind] in E.
  - apply bind_Ok in E. destruct E as ([sel1 d1] & E1 & E).
    apply bind_Ok in E1. destruct E1 as (d0 & E0 & E1).
    injection E1 as <- <-.
    apply bind_Ok in E. destruct E as (d2 & E2 & E).
    apply bind_Ok in E2. destruct E2 as (d3 & E3 & E2).
    apply with_bfqq_inv in E3. destruct E3 as (q2 & Hq2 & ->).
    injection E2 as <-. injection E as <- <-. cbn.
    rewrite lookup_insert_eq. eauto.
  - cbn in E. injection E as E _. discriminate E.
Qed.

(** X11: the queue that [bfq_select_queue] returns is the active queue
    of the state it leaves and is a queue of the device; when it
    returns NULL, either no queue is active any more or nothing has
    changed (the active queue is left waiting); in no case does the
    selection touch the dispatch list. *)
Theorem bfq_select_queue_active (jiffies now : Z) (bfqd bfqd' : bfq_data T)
  (sel : option nat) :
  bfq_select_queue jiffies now bfqd = Ok (sel, bfqd') →
  dispatch_list bfqd' = dispatch_list bfqd
  ∧ (∀ qid, sel = Some qid →
       active_queue bfqd' = Some qid ∧ is_Some (queues bfqd' !! qid))
  ∧ (sel = None → active_queue bfqd' = None ∨ bfqd' = bfqd).
Proof.
  intros E. split; [exact (bfq_select_queue_dispatch_list _ _ _ _ _ E) |].
  assert (Hset : ∀ d, bfq_set_active_queue d = Ok (sel, bfqd') →
            (∀ qid, sel = Some qid →
               active_queue bfqd' = Some qid ∧ is_Some (queues bfqd' !! qid))
            ∧ (sel = None → active_queue bfqd' = None ∨ bfqd' = bfqd)).
  { intros d Ed. split.
    - intros qid ->. split.
      + apply bfq_set_active_queue_kept in Ed. apply Ed.
      + exact (bfq_set_active_queue_present _ _ _ Ed).
    - intros ->. left. apply bfq_set_active_queue_kept in Ed. apply Ed. }
  unfold bfq_select_queue in E.
  destruct (active_queue bfqd) as [qid |] eqn:Ha; [| exact (Hset _ E)].
  apply bind_Ok in E. destruct E as (q & Hq & E). apply deref_Ok in Hq.
  destruct (bfq_bfqq_budget_timeout jiffies q).
  { apply bind_Ok in E. destruct E as (d1 & _ & E).
    apply bind_Ok in E. destruct E as (d2 & _ & E). exact (Hset _ E). }
  destruct (next_rq q) as [rq |].
  - destruct (_ <? _).
    + apply bind_Ok in E. destruct E as (d2 & _ & E). exact (Hset _ E).
    + injection E as <- <-. split.
      * intros k Hk. injection Hk as <-. split; [exact Ha | eauto].
      * discriminate.
  - destruct (_ || _).
    + injection E as <- <-. split; [discriminate | auto].
    + apply bind_Ok in E. destruct E as (d2 & _ & E). exact (Hset _ E).
Qed.

(** ** Expiration of the active queue ([bfq_bfqq_expire]) *)


(** ** Taking a request off its queue ([bfq_remove_request]) *)

Lemma bfqd_upd_trans qid (R1 R2 R3 : bfq_queue → bfq_queue → Prop)
  delta1 delta2 (d1 d2 d3 : bfq_data T) :
  (∀ a b c, R1 a b → R2 b c → R3 a c) →
  bfqd_upd qid R1 delta1 d1 d2 →
  bfqd_upd qid R2 delta2 d2 d3 →
  bfqd_upd qid R3 (delta1 + delta2) d1 d3.
Proof.
  intros HR ((q1 & q2 & Hq1 & Hq2 & H12) & Ho1 & Hn1 & Hd1 & Hs1 & Ha1 & Hy1
             & Hc1 & Ht1 & Hp1)
    ((q2' & q3 & Hq2' & Hq3 & H23) & Ho2 & Hn2 & Hd2 & Hs2 & Ha2 & Hy2
     & Hc2 & Ht2 & Hp2).
  rewrite Hq2 in Hq2'. injection Hq2' as <-.
  unfold bfqd_upd. split; [exists q1, q3; eauto |].
  split; [intros k Hk; rewrite Ho2, Ho1 by exact Hk; reflexivity |].
  repeat split; try congruence. lia.
Qed.

Lemma bfqd_upd_impl qid (R1 R2 : bfq_queue → bfq_queue → Prop) delta
  (d d' : bfq_data T) :
  (∀ a b, R1 a b → R2 a b) → bfqd_upd qid R1 delta d d' →
  bfqd_upd qid R2 delta d d'.
Proof.
  intros HR ((q1 & q2 & Hq1 & Hq2 & H12) & Hrest).
  split; [exists q1, q2; eauto | exact Hrest].
Qed.

Lemma bfqd_upd_queue qid R delta (d d' : bfq_data T) q :
  bfqd_upd qid R delta d d' → queues d !! qid = Some q →
  ∃ q', queues d' !! qid = Some q' ∧ R q q'.
Proof.
  intros ((q1 & q2 & Hq1 & Hq2 & H12) & _) Hq.
  rewrite Hq in Hq1. injection Hq1 as <-. eauto.
Qed.

Lemma with_bfqq_upd qid f (d d' : bfq_data T) :
  with_bfqq qid f d = Ok d' →
  bfqd_upd qid (λ q q', q' = f q) 0 d d'.
Proof.
  intros E. apply with_bfqq_inv in E. destruct E as (q & Hq & ->).
  unfold bfqd_upd. cbn. split.
  - exists q, (f q). rewrite lookup_insert_eq. auto.
  - split; [intros k Hk; apply lookup_insert_ne; congruence |].
    repeat split; lia.
Qed.

Lemma bfq_activate_bfqq_upd qid (d d' : bfq_data T) :
  bfq_activate_bfqq qid d = Ok d' → bfqd_upd qid eq 0 d d'.
Proof.
  unfold bfq_activate_bfqq. intros E.
  apply bind_Ok in E. destruct E as (q & Hq & E). apply deref_Ok in Hq.
  injection E as <-. unfold bfqd_upd. cbn.
  split; [exists q, q; auto |]. repeat split; lia.
Qed.

Lemma bfq_del_bfqq_busy_upd qid r (d d' : bfq_data T) :
  bfq_del_bfqq_busy qid r d = Ok d' →
  bfqd_upd qid (λ q q', q' = set_flag_busy false q) 0 d d'.
Proof.
  unfold bfq_del_bfqq_busy. intros E.
  apply bind_Ok in E. destruct E as (d1 & E1 & E).
  apply with_bfqq_upd in E1. injection E as <-.
  destruct E1 as (Hq & Ho & Hrest). unfold bfqd_upd. cbn.
  split; [exact Hq |]. split; [exact Ho | exact Hrest].
Qed.

Lemma bfq_updated_next_req_upd qid (d d' : bfq_data T) :
  bfq_updated_next_req qid d = Ok d' → bfqd_upd qid bfqq_rqs_kept 0 d d'.
Proof.
  unfold bfq_updated_next_req. intros E.
  apply bind_Ok in E. destruct E as (q & Hq & E). apply deref_Ok in Hq.
  assert (Hid : bfqd_upd qid bfqq_rqs_kept 0 d d).
  { unfold bfqd_upd, bfqq_rqs_kept. split; [exists q, q; auto 12 |].
    repeat split; lia. }
  destruct (next_rq q) as [rq |]; [| injection E as <-; exact Hid].
  destruct (bool_decide _); [injection E as <-; exact Hid |].
  apply bind_Ok in E. destruct E as (u1 & _ & E).
  apply bind_Ok in E. destruct E as (u2 & _ & E).
  apply bind_Ok in E. destruct E as (d1 & E1 & E).
  apply with_bfqq_upd in E1. apply bfq_activate_bfqq_upd in E.
  change 0 with (0 + 0).
  refine (bfqd_upd_trans _ _ _ _ _ _ _ _ _ _ E1 E).
  intros a b c -> <-. unfold bfqq_rqs_kept. cbn. auto 12.
Qed.

Lemma bfq_del_rq_rb_upd rq (d d' : bfq_data T) :
  bfq_del_rq_rb rq d = Ok d' →
  bfqd_upd (RQ_BFQQ rq)
    (λ q q',
       sort_list q' = unlink_rq (rq_id rq) (sort_list q)
       ∧ fifo q' = fifo q
       ∧ next_rq q' = next_rq q
       ∧ queued_sync q'
           = (if rq_is_sync rq then queued_sync q - 1 else queued_sync q)
       ∧ queued_async q'
           = (if rq_is_sync rq then queued_async q else queued_async q - 1)
       ∧ meta_pending q' = meta_pending q
       ∧ dispatched q' = dispatched q
       ∧ flag_sync q' = flag_sync q)
    (-1) d d'.
Proof.
  unfold bfq_del_rq_rb. intros E. cbv zeta in E.
  apply bind_Ok in E. destruct E as (q & Hq & E). apply deref_Ok in Hq.
  apply bind_Ok in E. destruct E as (u & _ & E).
  apply bind_Ok in E. destruct E as (sl & Hsl & E).
  apply elv_rb_del_Ok in Hsl. destruct Hsl as (_ & ->).
  match type of E with
  | (if _ then bfq_del_bfqq_busy _ _ ?x else _) = _ => set (d1 := x) in *
  end.
  assert (H1 : bfqd_upd (RQ_BFQQ rq)
                 (λ q0 q', q' = set_sort_list
                                  (unlink_rq (rq_id rq) (sort_list q0))
                                  (if rq_is_sync rq
                                   then set_queued_sync (queued_sync q0 - 1) q0
                                   else set_queued_async
                                          (queued_async q0 - 1) q0))
                 (-1) d d1).
  { unfold bfqd_upd. subst d1. cbn. split.
    - exists q. eexists. split; [exact Hq |].
      rewrite lookup_insert_eq. split; [reflexivity |].
      destruct (rq_is_sync rq); reflexivity.
    - split; [intros k Hk; apply lookup_insert_ne; congruence |].
      repeat split; lia. }
  destruct (_ && _).
  - apply bfq_del_bfqq_busy_upd in E. change (-1) with (-1 + 0).
    refine (bfqd_upd_trans _ _ _ _ _ _ _ _ _ _ H1 E).
    intros a b c -> ->. destruct (rq_is_sync rq); cbn; auto 12.
  - injection E as <-. revert H1. apply bfqd_upd_impl.
    intros a b ->. destruct (rq_is_sync rq); cbn; auto 12.
Qed.

Lemma bfq_remove_request_upd rq (d d' : bfq_data T) q :
  bfq_remove_request rq d = Ok d' →
  queues d !! RQ_BFQQ rq = Some q →
  bfqd_upd (RQ_BFQQ rq)
    (λ q0 q',
       bfqq_unlinked rq q0 q'
       ∧ dispatched q' = dispatched q0
       ∧ if opt_rq_ptr_eqb (next_rq q0) (Some rq)
         then bfq_find_next_rq d q rq = Ok (next_rq q')
         else next_rq q' = next_rq q0)
    (-1) d d'.
Proof.
  unfold bfq_remove_request. intros E Hq. rewrite Hq in E.
  cbn [deref mbind result_bind] in E.
  apply bind_Ok in E. destruct E as (d1 & E1 & E).
  apply bind_Ok in E. destruct E as (d2 & E2 & E).
  apply bind_Ok in E. destruct E as (d3 & E3 & E).
  assert (H1 : bfqd_upd (RQ_BFQQ rq)
                 (λ q0 q', bfqq_rqs_kept q0 (set_next_rq (next_rq q0) q')
                           ∧ if opt_rq_ptr_eqb (next_rq q0) (Some rq)
                             then bfq_find_next_rq d q rq = Ok (next_rq q')
                             else next_rq q' = next_rq q0)
                 0 d d1).
  { destruct (opt_rq_ptr_eqb (next_rq q) (Some rq)) eqn:Hp.
    - apply bind_Ok in E1. destruct E1 as (next & En & E1).
      apply bind_Ok in E1. destruct E1 as (d0 & E0 & E1).
      apply with_bfqq_upd in E0. apply bfq_updated_next_req_upd in E1.
      assert (H01 : bfqd_upd (RQ_BFQQ rq)
                      (λ q0 q',
                         bfqq_rqs_kept q0 (set_next_rq (next_rq q0) q')
                         ∧ next_rq q' = next) (0 + 0) d d1).
      { refine (bfqd_upd_trans _ _ _ _ _ _ _ _ _ _ E0 E1).
        intros a b c -> Hk. unfold bfqq_rqs_kept in *. cbn in *.
        intuition congruence. }
      destruct H01 as ((q0 & q1 & Hq0 & Hq1 & Hk & Hnx) & Hrest).
      rewrite Hq in Hq0. injection Hq0 as <-.
      split; [| exact Hrest]. exists q, q1. rewrite Hp, Hnx. auto.
    - injection E1 as <-. unfold bfqd_upd. split.
      + exists q, q. rewrite Hp. unfold bfqq_rqs_kept. cbn. auto 12.
      + repeat split; lia. }
  apply with_bfqq_upd in E2. apply bfq_del_rq_rb_upd in E3.
  assert (H12 : bfqd_upd (RQ_BFQQ rq)
                  (λ q0 q',
                     sort_list q' = sort_list q0
                     ∧ fifo q' = unlink_rq (rq_id rq) (fifo q0)
                     ∧ queued_sync q' = queued_sync q0
                     ∧ queued_async q' = queued_async q0
                     ∧ meta_pending q' = meta_pending q0
                     ∧ flag_sync q' = flag_sync q0
                     ∧ dispatched q' = dispatched q0
                     ∧ if opt_rq_ptr_eqb (next_rq q0) (Some rq)
                       then bfq_find_next_rq d q rq = Ok (next_rq q')
                       else next_rq q' = next_rq q0) (0 + 0) d d2).
  { refine (bfqd_upd_trans _ _ _ _ _ _ _ _ _ _ H1 E2).
    intros a b c [Hk Hn] ->. unfold bfqq_rqs_kept in Hk. cbn in *.
    destruct Hk as (? & ? & ? & ? & ? & ? & ? & ?).
    repeat split; try congruence; try exact Hn. }
  assert (H13 : bfqd_upd (RQ_BFQQ rq)
                  (λ q0 q',
                     sort_list q' = unlink_rq (rq_id rq) (sort_list q0)
                     ∧ fifo q' = unlink_rq (rq_id rq) (fifo q0)
                     ∧ queued_sync q'
                         = (if rq_is_sync rq then queued_sync q0 - 1
                            else queued_sync q0)
                     ∧ queued_async q'
                         = (if rq_is_sync rq then queued_async q0
                            else queued_async q0 - 1)
                     ∧ meta_pending q' = meta_pending q0
                     ∧ flag_sync q' = flag_sync q0
                     ∧ dispatched q' = dispatched q0
                     ∧ if opt_rq_ptr_eqb (next_rq q0) (Some rq)
                       then bfq_find_next_rq d q rq = Ok (next_rq q')
                       else next_rq q' = next_rq q0) (0 + 0 + -1) d d3).
  { refine (bfqd_upd_trans _ _ _ _ _ _ _ _ _ _ H12 E3).
    intros a b c (? & ? & ? & ? & ? & ? & ? & Hn)
      (? & ? & Hnx & ? & ? & ? & ? & ?).
    rewrite Hnx.
    repeat split; try congruence; destruct (rq_is_sync rq); congruence. }
  change (0 + 0 + -1) with (-1 + 0) in H13.
  destruct (rq_is_meta rq) eqn:Hm.
  - apply with_bfqq_upd in E.
    refine (bfqd_upd_trans _ _ _ _ _ _ _ _ _ _ H13 E).
    intros a b c (? & ? & ? & ? & ? & ? & ? & Hn) ->.
    unfold bfqq_unlinked. rewrite Hm. cbn.
    repeat split; try congruence; try exact Hn.
  - injection E as <-. change (-1 + 0) with (-1) in H13.
    revert H13. apply bfqd_upd_impl.
    intros a b (? & ? & ? & ? & ? & ? & ? & Hn).
    unfold bfqq_unlinked. rewrite Hm.
    repeat split; try congruence; try exact Hn.
Qed.

Lemma bfq_find_next_rq_inv (d : bfq_data T) q rq r :
  bfq_find_next_rq d q rq = Ok r →
  NoDup (rq_id <$> sort_list q) →
  Exists (λ x, rq_id x = rq_id rq) (sort_list q)
  ∧ (∀ x, r = Some x → x ∈ sort_list q ∧ rq_id x ≠ rq_id rq)
  ∧ (r = None ↔ length (sort_list q) = 1%nat).
Proof.
  intros E Hnd. destruct (bfq_find_next_rq_spec d q rq Hnd) as (Hno & Hyes).
  destruct (decide (Exists (λ x, rq_id x = rq_id rq) (sort_list q)))
    as [Hex | Hnex].
  - split; [exact Hex |]. destruct (Hyes Hex) as (r' & E' & Hr').
    rewrite E in E'. injection E' as <-. exact Hr'.
  - apply not_Exists_Forall in Hnex; [| intros x; apply _].
    apply Hno in Hnex. rewrite E in Hnex. discriminate Hnex.
Qed.

Lemma unlink_rq_elem id l x :
  x ∈ unlink_rq id l ↔ rq_id x ≠ id ∧ x ∈ l.
Proof. unfold unlink_rq. apply (list_elem_of_filter (λ r, rq_id r ≠ id)). Qed.

Lemma unlink_rq_NoDup id l :
  NoDup (rq_id <$> l) → NoDup (rq_id <$> unlink_rq id l).
Proof.
  unfold unlink_rq. induction l as [| r l IH]; intros Hnd; [exact Hnd |].
  rewrite fmap_cons in Hnd. apply NoDup_cons in Hnd.
  destruct Hnd as (Hr & Hnd). rewrite filter_cons.
  destruct (decide (rq_id r ≠ id)); [| exact (IH Hnd)].
  rewrite fmap_cons. apply NoDup_cons. split; [| exact (IH Hnd)].
  intros Hin. apply Hr. apply list_elem_of_fmap in Hin.
  destruct Hin as (y & Hy & Hin).
  apply (list_elem_of_filter (λ r, rq_id r ≠ id)) in Hin.
  apply list_elem_of_fmap. exists y. tauto.
Qed.

Lemma unlink_rq_nil id l :
  NoDup (rq_id <$> l) →
  Exists (λ x, rq_id x = id) l →
  unlink_rq id l = [] ↔ length l = 1%nat.
Proof.
  intros Hnd Hex. apply Exists_exists in Hex. destruct Hex as (r & Hr & Hid).
  split.
  - intros Hnil. destruct l as [| a [| b l]]; [inversion Hr | reflexivity |].
    exfalso. rewrite !fmap_cons in Hnd.
    apply NoDup_cons in Hnd. destruct Hnd as (Ha & _).
    assert (Ha' : rq_id a = id).
    { destruct (decide (rq_id a = id)) as [| Hne]; [assumption |].
      exfalso.
      eapply (filter_nil_not_elem_of (λ r, rq_id r ≠ id) _ a Hnil);
        [exact Hne |].
      left. }
    assert (Hb' : rq_id b = id).
    { destruct (decide (rq_id b = id)) as [| Hne]; [assumption |].
      exfalso.
      eapply (filter_nil_not_elem_of (λ r, rq_id r ≠ id) _ b Hnil);
        [exact Hne |].
      right. left. }
    apply Ha. rewrite Ha', <- Hb'. left.
  - intros Hlen. destruct l as [| a [| b l]]; try discriminate Hlen.
    apply list_elem_of_singleton in Hr. subst a. unfold unlink_rq.
    rewrite (filter_cons (λ r, rq_id r ≠ id)).
    destruct (decide (rq_id r ≠ id)); [contradiction | reflexivity].
Qed.

(** X13: removing a request from a well-formed queue (no request twice
    in the sort list, [next_rq] pointing into it) takes the request off
    the sort list and the FIFO, decrements the counters of the queue
    and of the device, and leaves a well-formed queue in which nothing,
    [next_rq] included, refers to the removed request; the dispatch
    list and the other queues are not touched. *)
Theorem bfq_remove_request_unlinks (rq : request) (bfqd bfqd' : bfq_data T)
  (q : bfq_queue) :
  bfq_remove_request rq bfqd = Ok bfqd' →
  queues bfqd !! RQ_BFQQ rq = Some q →
  bfqq_rq_wf q →
  ∃ q',
    queues bfqd' !! RQ_BFQQ rq = Some q'
    ∧ bfqq_unlinked rq q q'
    ∧ dispatched q' = dispatched q
    ∧ bfqq_rq_wf q'
    ∧ (∀ x, x ∈ sort_list q' ∨ x ∈ fifo q' ∨ next_rq q' = Some x →
            rq_id x ≠ rq_id rq)
    ∧ queued bfqd' = queued bfqd - 1
    ∧ dispatch_list bfqd' = dispatch_list bfqd
    ∧ (∀ k, k ≠ RQ_BFQQ rq → queues bfqd' !! k = queues bfqd !! k).
Proof.
  intros E Hq (Hnd & Hnx).
  pose proof (bfq_remove_request_upd rq bfqd bfqd' q E Hq) as Hu.
  destruct (bfqd_upd_queue _ _ _ _ _ _ Hu Hq) as (q' & Hq' & Hul & Hd & Hn).
  destruct Hu as (_ & Ho & Hqd & Hdl & _).
  assert (Hnext : ∀ x, next_rq q' = Some x →
                       x ∈ sort_list q ∧ rq_id x ≠ rq_id rq).
  { intros x Hx. destruct (opt_rq_ptr_eqb (next_rq q) (Some rq)) eqn:Hp.
    - apply bfq_find_next_rq_inv in Hn; [| exact Hnd].
      destruct Hn as (_ & Hn & _). exact (Hn x Hx).
    - rewrite Hn in Hx. split; [exact (Hnx x Hx) |].
      rewrite Hx in Hp. cbn in Hp. unfold rq_ptr_eqb in Hp.
      apply Nat.eqb_neq in Hp. exact Hp. }
  pose proof Hul as (Hsl & Hff & _).
  exists q'. split; [exact Hq' |]. split; [exact Hul |].
  split; [exact Hd |]. split; [| split; [| split; [lia | auto]]].
  - split; [rewrite Hsl; apply unlink_rq_NoDup; exact Hnd |].
    intros x Hx. rewrite Hsl. apply unlink_rq_elem.
    destruct (Hnext x Hx). auto.
  - intros x [Hx | [Hx | Hx]].
    + rewrite Hsl in Hx. apply unlink_rq_elem in Hx. tauto.
    + rewrite Hff in Hx. apply unlink_rq_elem in Hx. tauto.
    + exact (proj2 (Hnext x Hx)).
Qed.

(** ** Moving a request to the dispatch list, in full *)

Lemma bfq_dispatch_insert_spec (rq : request) (bfqd bfqd' : bfq_data T)
  (q : bfq_queue) :
  bfq_dispatch_insert rq bfqd = Ok bfqd' →
  queues bfqd !! RQ_BFQQ rq = Some q →
  NoDup (rq_id <$> sort_list q) →
  ∃ q',
    queues bfqd' !! RQ_BFQQ rq = Some q'
    ∧ bfqq_unlinked rq q q'
    ∧ dispatched q' = dispatched q + 1
    ∧ dispatch_list bfqd' = dispatch_list bfqd ++ [rq]
    ∧ queued bfqd' = queued bfqd - 1
    ∧ sync_flight bfqd'
        = (if flag_sync q then sync_flight bfqd + 1 else sync_flight bfqd)
    ∧ bfqq_rq_wf q'
    ∧ (next_rq q' = None ↔ sort_list q' = [])
    ∧ (∀ k, k ≠ RQ_BFQQ rq → queues bfqd' !! k = queues bfqd !! k).
Proof.
  unfold bfq_dispatch_insert. intros E Hq Hnd. rewrite Hq in E.
  cbn [deref mbind result_bind] in E.
  apply bind_Ok in E. destruct E as (next & En & E).
  apply bind_Ok in E. destruct E as (d1 & E1 & E).
  apply bind_Ok in E. destruct E as (d2 & E2 & E).
  apply bind_Ok in E. destruct E as (d3 & E3 & E). cbv zeta in E.
  apply bind_Ok in E. destruct E as (q3 & Hq3 & E). apply deref_Ok in Hq3.
  cbn in Hq3.
  destruct (bfq_find_next_rq_inv _ _ _ _ En Hnd) as (Hex & Hnext & Hnone).
  apply with_bfqq_upd in E1.
  destruct (bfqd_upd_queue _ _ _ _ _ _ E1 Hq) as (q1 & Hq1 & ->).
  pose proof (bfq_remove_request_upd rq d1 d2 _ E2 Hq1) as H2.
  destruct (bfqd_upd_queue _ _ _ _ _ _ H2 Hq1)
    as (q2 & Hq2 & Hul & Hd2 & Hn2).
  cbn [next_rq set_next_rq] in Hn2.
  assert (Hp : opt_rq_ptr_eqb next (Some rq) = false).
  { destruct next as [x |]; [| reflexivity]. cbn. unfold rq_ptr_eqb.
    apply Nat.eqb_neq. exact (proj2 (Hnext x eq_refl)). }
  rewrite Hp in Hn2.
  apply with_bfqq_upd in E3.
  destruct (bfqd_upd_queue _ _ _ _ _ _ E3 Hq2) as (q3' & Hq3' & ->).
  rewrite Hq3' in Hq3. injection Hq3 as <-.
  destruct E1 as (_ & Ho1 & Hn1 & Hl1 & Hs1 & _).
  destruct H2 as (_ & Ho2 & Hn2' & Hl2 & Hs2 & _).
  destruct E3 as (_ & Ho3 & Hn3 & Hl3 & Hs3 & _).
  destruct Hul as (Hsl & Hff & Hqs & Hqa & Hmp & Hfs).
  cbn in Hsl, Hff, Hqs, Hqa, Hmp, Hfs, Hd2.
  assert (Hfin : ∃ d4, bfqd' = d4
            ∧ queues d4 = queues d3
            ∧ queued d4 = queued d3
            ∧ dispatch_list d4 = dispatch_list d3 ++ [rq]
            ∧ sync_flight d4
                = if flag_sync q then sync_flight d3 + 1 else sync_flight d3).
  { cbn in E. rewrite Hfs in E. destruct (flag_sync q);
      injection E as <-; eexists; (split; [reflexivity |]); cbn; auto. }
  destruct Hfin as (d4 & -> & Hq4 & Hn4 & Hl4 & Hs4).
  exists (set_dispatched (dispatched q2 + 1) q2).
  rewrite Hq4. split; [exact Hq3' |].
  split; [unfold bfqq_unlinked; cbn; auto 10 |].
  split; [cbn; lia |].
  split; [rewrite Hl4; congruence |].
  split; [lia |].
  split; [rewrite Hs4; destruct (flag_sync q); congruence |].
  split; [| split].
  - split; cbn; [rewrite Hsl; apply unlink_rq_NoDup; exact Hnd |].
    intros x Hx. rewrite Hsl. apply unlink_rq_elem.
    rewrite Hn2 in Hx. destruct (Hnext x Hx). auto.
  - cbn. rewrite Hn2, Hsl, Hnone. symmetry.
    apply unlink_rq_nil; assumption.
  - intros k Hk. rewrite Ho3, Ho2, Ho1 by exact Hk. reflexivity.
Qed.

(** X14: dispatching a request of a queue whose sort list has no
    request twice appends exactly that request to the dispatch list,
    takes it off the sort list and the FIFO, counts it as in flight
    (and as a sync request in flight when the queue is sync), and
    leaves [next_rq] pointing into what remains of the sort list, NULL
    exactly when nothing remains. *)
Theorem bfq_dispatch_insert_moves (rq : request) (bfqd bfqd' : bfq_data T)
  (q : bfq_queue) :
  bfq_dispatch_insert rq bfqd = Ok bfqd' →
  queues bfqd !! RQ_BFQQ rq = Some q →
  NoDup (rq_id <$> sort_list q) →
  ∃ q',
    queues bfqd' !! RQ_BFQQ rq = Some q'
    ∧ bfqq_unlinked rq q q'
    ∧ dispatched q' = dispatched q + 1
    ∧ dispatch_list bfqd' = dispatch_list bfqd ++ [rq]
    ∧ queued bfqd' = queued bfqd - 1
    ∧ sync_flight bfqd'
        = (if flag_sync q then sync_flight bfqd + 1 else sync_flight bfqd)
    ∧ bfqq_rq_wf q'
    ∧ (next_rq q' = None ↔ sort_list q' = [])
    ∧ (∀ k, k ≠ RQ_BFQQ rq → queues bfqd' !! k = queues bfqd !! k).
Proof.
  exact (bfq_dispatch_insert_spec rq bfqd bfqd' q).
Qed.

(** ** Accounting of a completion ([bfq_completed_request]) *)

Lemma bfq_arm_slice_timer_queue jiffies now (d d' : bfq_data T) k q :
  bfq_arm_slice_timer jiffies now d = Ok d' →
  queues d !! k = Some q →
  ∃ q', queues d' !! k = Some q'
        ∧ sort_list q' = sort_list q ∧ fifo q' = fifo q
        ∧ next_rq q' = next_rq q ∧ dispatched q' = dispatched q.
Proof.
  unfold bfq_arm_slice_timer. intros E Hk.
  apply bind_Ok in E. destruct E as (qid & Ha & E).
  apply bind_Ok in E. destruct E as (q0 & Hq0 & E). apply deref_Ok in Hq0.
  destruct (_ || _); [injection E as <-; eauto 6 |].
  destruct (active_cic d) as [cid |]; [| injection E as <-; eauto 6].
  apply bind_Ok in E. destruct E as (cic & _ & E).
  destruct (nr_tasks cic =? 0); [injection E as <-; eauto 6 |].
  apply bind_Ok in E. destruct E as (d1 & E1 & E).
  apply with_bfqq_inv in E1. destruct E1 as (q1 & Hq1 & ->).
  injection E as <-. cbn.
  destruct (decide (k = qid)) as [-> | Hne].
  - rewrite lookup_insert_eq. rewrite Hq1 in Hk. injection Hk as <-.
    eexists. split; [reflexivity |]. cbn. auto.
  - rewrite lookup_insert_ne by congruence. eauto 6.
Qed.

Lemma bfq_completed_active_frame jiffies now sync qid
  (d d' : bfq_data T) q :
  active_queue d = Some qid →
  queues d !! qid = Some q →
  bfq_completed_active jiffies now sync qid q d = Ok d' →
  bfqd_kept d d'
  ∧ ∃ q', queues d' !! qid = Some q'
          ∧ sort_list q' = sort_list q ∧ fifo q' = fifo q
          ∧ next_rq q' = next_rq q ∧ dispatched q' = dispatched q.
Proof.
  intros Ha Hq E. unfold bfq_completed_active in E.
  apply bind_Ok in E. destruct E as (d6 & E1 & E).
  apply bind_Ok in E. destruct E as (q6 & Hq6 & E). apply deref_Ok in Hq6.
  assert (H6 : bfqd_kept d d6
               ∧ sort_list q6 = sort_list q ∧ fifo q6 = fifo q
               ∧ next_rq q6 = next_rq q ∧ dispatched q6 = dispatched q).
  { clear E. destruct (flag_budget_new q).
    - destruct (bfq_set_budget_timeout_spec jiffies now qid d q Ha Hq)
        as (d6' & E1' & Hq' & Hk & Hc).
      rewrite E1' in E1. injection E1 as <-.
      rewrite Hq', lookup_insert_eq in Hq6. injection Hq6 as <-.
      split; [exact Hk |]. cbn. auto.
    - injection E1 as <-. rewrite Hq in Hq6. injection Hq6 as <-.
      split; [apply bfqd_kept_refl | auto]. }
  destruct H6 as (Hk6 & Hs6 & Hf6 & Hn6 & Hd6).
  destruct (bfq_bfqq_budget_timeout jiffies q6).
  - apply bfq_bfqq_expire_post in E.
    destruct E as (slow & d7 & q7 & q' & _ & Hq7 & _ & _ & _ & _ & Hk & Hq'
                   & Hkq & _).
    rewrite Hq6 in Hq7. injection Hq7 as <-.
    split; [exact (bfqd_kept_trans _ _ _ Hk6 Hk) |].
    destruct Hkq as (Hn & Hs & Hf & Hd & _).
    exists q'. split; [exact Hq' |]. repeat split; congruence.
  - destruct (_ && _).
    + destruct (bfq_arm_slice_timer_queue _ _ _ _ _ _ E Hq6)
        as (q' & Hq' & Hs & Hf & Hn & Hd).
      apply bfq_arm_slice_timer_kept in E. destruct E as (Hk & _).
      split; [exact (bfqd_kept_trans _ _ _ Hk6 Hk) |].
      exists q'. split; [exact Hq' |]. repeat split; congruence.
    + injection E as <-. split; [exact Hk6 |].
      exists q6. auto.
Qed.

Lemma bfq_completed_request_spec (jiffies now : Z) (rq : request)
  (bfqd bfqd' : bfq_data T) (q : bfq_queue) :
  bfq_completed_request jiffies now rq bfqd = Ok bfqd' →
  queues bfqd !! RQ_BFQQ rq = Some q →
  (∃ q', queues bfqd' !! RQ_BFQQ rq = Some q'
         ∧ dispatched q' = dispatched q - 1
         ∧ sort_list q' = sort_list q ∧ fifo q' = fifo q
         ∧ next_rq q' = next_rq q)
  ∧ rq_in_driver_sync bfqd'
      = (if rq_is_sync rq then rq_in_driver_sync bfqd - 1
         else rq_in_driver_sync bfqd)
  ∧ rq_in_driver_async bfqd'
      = (if rq_is_sync rq then rq_in_driver_async bfqd
         else rq_in_driver_async bfqd - 1)
  ∧ sync_flight bfqd'
      = (if flag_sync q then sync_flight bfqd - 1 else sync_flight bfqd)
  ∧ queued bfqd' = queued bfqd
  ∧ dispatch_list bfqd' = dispatch_list bfqd
  ∧ (rq_in_driver bfqd' = 0 → queued bfqd' ≠ 0 → unplug_work bfqd' = true).
Proof.
  unfold bfq_completed_request. cbv zeta. intros E Hq.
  destruct (bfq_update_hw_tag_kept bfqd) as (Hhq & Hhk & Hhc).
  generalize dependent (bfq_update_hw_tag bfqd). intros d0 E Hhq Hhk Hhc.
  apply bind_Ok in E. destruct E as (d2 & E1 & E).
  apply with_bfqq_inv in E1. destruct E1 as (q0 & Hq0 & ->).
  assert (q0 = q) as ->.
  { clear -Hq0 Hhq Hq. destruct (rq_is_sync rq); cbn in Hq0;
      rewrite Hhq, Hq in Hq0; congruence. }
  apply bind_Ok in E. destruct E as (bfqq & Hbq & E).
  apply deref_Ok in Hbq. cbn in Hbq. rewrite lookup_insert_eq in Hbq.
  injection Hbq as <-. cbn [flag_sync set_dispatched] in E.
  apply bind_Ok in E. destruct E as (d4 & E2 & E).
  apply bind_Ok in E. destruct E as (d5 & E3 & E).
  unfold bfqd_kept, bfqd_ctl_kept in Hhk, Hhc.
  destruct Hhk as (Hdl & Hqd & Huw & Htn & Hci & Hsf & Hra & Hrs & Hlp).
  destruct Hhc as (Hac & _).
  assert (H4 : queues d4 !! RQ_BFQQ rq
                 = Some (set_dispatched (dispatched q - 1) q)
               ∧ active_queue d4 = active_queue bfqd
               ∧ dispatch_list d4 = dispatch_list bfqd
               ∧ queued d4 = queued bfqd
               ∧ rq_in_driver_sync d4
                   = (if rq_is_sync rq then rq_in_driver_sync bfqd - 1
                      else rq_in_driver_sync bfqd)
               ∧ rq_in_driver_async d4
                   = (if rq_is_sync rq then rq_in_driver_async bfqd
                      else rq_in_driver_async bfqd - 1)
               ∧ sync_flight d4
                   = (if flag_sync q then sync_flight bfqd - 1
                      else sync_flight bfqd)).
  { clear E E3.
    destruct (rq_is_sync rq), (flag_sync q); cbn in *;
      inv_ok; cbn; rewrite ?lookup_insert_eq, ?Hac, ?Hdl, ?Hqd, ?Hsf, ?Hra,
        ?Hrs; repeat split; reflexivity. }
  destruct H4 as (Hq4 & Ha4 & Hd4 & Hn4 & Hs4 & Hy4 & Hf4).
  assert (H5 : bfqd_kept d4 d5
               ∧ ∃ q', queues d5 !! RQ_BFQQ rq = Some q'
                       ∧ sort_list q' = sort_list q ∧ fifo q' = fifo q
                       ∧ next_rq q' = next_rq q
                       ∧ dispatched q' = dispatched q - 1).
  { destruct (bool_decide_reflect (active_queue d4 = Some (RQ_BFQQ rq)))
      as [Ha | Hna].
    - destruct (bfq_completed_active_frame _ _ _ _ _ _ _ Ha Hq4 E3)
        as (Hk & q' & Hq' & Hs & Hf & Hn & Hd).
      split; [exact Hk |]. exists q'. cbn in Hs, Hf, Hn, Hd. auto.
    - injection E3 as <-. split; [apply bfqd_kept_refl |].
      eexists. split; [exact Hq4 |]. cbn. auto. }
  destruct H5 as (Hk5 & q' & Hq' & Hs' & Hf' & Hn' & Hd').
  unfold bfqd_kept in Hk5.
  destruct Hk5 as (Hdl5 & Hqd5 & Huw5 & Htn5 & Hci5 & Hsf5 & Hra5 & Hrs5 & _).
  assert (Hfin : queues bfqd' = queues d5
                 ∧ dispatch_list bfqd' = dispatch_list d5
                 ∧ queued bfqd' = queued d5
                 ∧ rq_in_driver_sync bfqd' = rq_in_driver_sync d5
                 ∧ rq_in_driver_async bfqd' = rq_in_driver_async d5
                 ∧ sync_flight bfqd' = sync_flight d5
                 ∧ (rq_in_driver bfqd' = 0 → queued bfqd' ≠ 0 →
                    unplug_work bfqd' = true)).
  { clear -E. unfold bfq_schedule_dispatch, rq_in_driver in *.
    destruct (Z.eqb_spec (rq_in_driver_async d5 + rq_in_driver_sync d5) 0).
    - destruct (Z.eqb_spec (queued d5) 0); injection E as <-; cbn;
        repeat split; try reflexivity; intros; congruence.
    - injection E as <-. repeat split; intros; congruence. }
  destruct Hfin as (Hqf & Hdf & Hnf & Hsf' & Hyf & Hff & Hkick).
  split; [exists q'; rewrite Hqf; auto |].
  repeat split; try congruence. exact Hkick.
Qed.

(** X15: a completion takes the request out of the counts of requests
    in flight: the driver counter of its direction and the [dispatched]
    counter of its queue drop by one, [sync_flight] drops by one when
    the queue is sync; the requests still queued and the dispatch list
    are left alone.  When the driver is left empty while requests are
    queued, the dispatch work has been kicked. *)
Theorem bfq_completed_request_accounts (jiffies now : Z) (rq : request)
  (bfqd bfqd' : bfq_data T) (q : bfq_queue) :
  bfq_completed_request jiffies now rq bfqd = Ok bfqd' →
  queues bfqd !! RQ_BFQQ rq = Some q →
  (∃ q', queues bfqd' !! RQ_BFQQ rq = Some q'
         ∧ dispatched q' = dispatched q - 1
         ∧ sort_list q' = sort_list q ∧ fifo q' = fifo q
         ∧ next_rq q' = next_rq q)
  ∧ rq_in_driver_sync bfqd'
      = (if rq_is_sync rq then rq_in_driver_sync bfqd - 1
         else rq_in_driver_sync bfqd)
  ∧ rq_in_driver_async bfqd'
      = (if rq_is_sync rq then rq_in_driver_async bfqd
         else rq_in_driver_async bfqd - 1)
  ∧ sync_flight bfqd'
      = (if flag_sync q then sync_flight bfqd - 1 else sync_flight bfqd)
  ∧ queued bfqd' = queued bfqd
  ∧ dispatch_list bfqd' = dispatch_list bfqd
  ∧ (rq_in_driver bfqd' = 0 → queued bfqd' ≠ 0 → unplug_work bfqd' = true).
Proof.
  exact (bfq_completed_request_spec jiffies now rq bfqd bfqd' q).
Qed.

(** ** The forced drain of a queue ([__bfq_forced_dispatch_bfqq]) *)

Lemma unlink_rq_all id l :
  Forall (λ x, rq_id x ≠ id) l → unlink_rq id l = l.
Proof.
  unfold unlink_rq. induction l as [| r l IH]; intros Hall; [reflexivity |].
  apply Forall_cons in Hall. destruct Hall as (Hr & Hall).
  rewrite (filter_cons (λ r, rq_id r ≠ id)).
  destruct (decide (rq_id r ≠ id)); [| contradiction].
  rewrite (IH Hall). reflexivity.
Qed.

Lemma unlink_rq_split rq l :
  NoDup (rq_id <$> l) → rq ∈ l →
  ∃ l1 l2, l = l1 ++ rq :: l2 ∧ unlink_rq (rq_id rq) l = l1 ++ l2.
Proof.
  intros Hnd Hin. apply list_elem_of_split in Hin.
  destruct Hin as (l1 & l2 & ->). exists l1, l2. split; [reflexivity |].
  rewrite fmap_app, fmap_cons in Hnd. apply NoDup_app in Hnd.
  destruct Hnd as (_ & Hdisj & Hnd2). apply NoDup_cons in Hnd2.
  destruct Hnd2 as (Hr & _).
  assert (H1 : Forall (λ x, rq_id x ≠ rq_id rq) l1).
  { apply Forall_forall. intros x Hx Heq. apply (Hdisj (rq_id x)).
    - apply list_elem_of_fmap. eauto.
    - rewrite Heq. left. }
  assert (H2 : Forall (λ x, rq_id x ≠ rq_id rq) l2).
  { apply Forall_forall. intros x Hx Heq. apply Hr. rewrite <- Heq.
    apply list_elem_of_fmap. eauto. }
  unfold unlink_rq.
  rewrite (filter_app (λ r, rq_id r ≠ rq_id rq)),
    (filter_cons (λ r, rq_id r ≠ rq_id rq)).
  destruct (decide (rq_id rq ≠ rq_id rq)); [contradiction |].
  fold (unlink_rq (rq_id rq) l1). fold (unlink_rq (rq_id rq) l2).
  rewrite (unlink_rq_all _ _ H1), (unlink_rq_all _ _ H2). reflexivity.
Qed.

Lemma count_rqs_app b l1 l2 :
  count_rqs b (l1 ++ l2) = count_rqs b l1 + count_rqs b l2.
Proof.
  unfold count_rqs. rewrite (filter_app (λ r, rq_is_sync r = b)), length_app.
  lia.
Qed.

Lemma count_rqs_cons b r l :
  count_rqs b (r :: l)
    = (if bool_decide (rq_is_sync r = b) then 1 else 0) + count_rqs b l.
Proof.
  unfold count_rqs. rewrite (filter_cons (λ r, rq_is_sync r = b)).
  destruct (decide (rq_is_sync r = b)) as [Hb | Hb].
  - rewrite bool_decide_eq_true_2 by exact Hb. cbn [length]. lia.
  - rewrite bool_decide_eq_false_2 by exact Hb. lia.
Qed.

Lemma count_rqs_nonneg b l : 0 ≤ count_rqs b l.
Proof. unfold count_rqs. lia. Qed.

Lemma bfq_del_rq_rb_some rq (d : bfq_data T) q :
  queues d !! RQ_BFQQ rq = Some q →
  (if rq_is_sync rq then queued_sync q else queued_async q) ≠ 0 →
  rq_id rq ∈ rq_id <$> sort_list q →
  ∃ d', bfq_del_rq_rb rq d = Ok d'.
Proof.
  intros Hq Hc Hin. unfold bfq_del_rq_rb. rewrite Hq.
  cbn [deref mbind result_bind].
  apply Z.eqb_neq in Hc. rewrite Hc. cbn [BUG_ON mbind result_bind].
  cbv zeta.
  replace (sort_list (if rq_is_sync rq
                      then set_queued_sync (queued_sync q - 1) q
                      else set_queued_async (queued_async q - 1) q))
    with (sort_list q) by (destruct (rq_is_sync rq); reflexivity).
  rewrite (elv_rb_del_linked _ _ Hin). cbn [mbind result_bind].
  destruct (_ && _); [| eauto].
  unfold bfq_del_bfqq_busy.
  erewrite with_bfqq_Ok by (cbn; apply lookup_insert_eq).
  cbn [mbind result_bind]. eauto.
Qed.

Lemma bfq_remove_request_some rq (d : bfq_data T) q :
  queues d !! RQ_BFQQ rq = Some q →
  opt_rq_ptr_eqb (next_rq q) (Some rq) = false →
  (if rq_is_sync rq then queued_sync q else queued_async q) ≠ 0 →
  rq_id rq ∈ rq_id <$> sort_list q →
  ∃ d', bfq_remove_request rq d = Ok d'.
Proof.
  intros Hq Hp Hc Hin. unfold bfq_remove_request. rewrite Hq.
  cbn [deref mbind result_bind]. rewrite Hp. cbn [mbind result_bind].
  rewrite (with_bfqq_Ok _ _ _ _ Hq). cbn [mbind result_bind].
  match goal with
  | |- ∃ _, bfq_del_rq_rb rq ?x ≫= _ = _ => set (d2 := x)
  end.
  destruct (bfq_del_rq_rb_some rq d2
              (set_fifo (unlink_rq (rq_id rq) (fifo q)) q)) as (d3 & E3).
  { subst d2. cbn. apply lookup_insert_eq. }
  { exact Hc. }
  { exact Hin. }
  rewrite E3. cbn [mbind result_bind].
  destruct (rq_is_meta rq); [| eauto].
  apply bfq_del_rq_rb_upd in E3. destruct E3 as ((q2 & q3 & _ & Hq3 & _) & _).
  rewrite (with_bfqq_Ok _ _ _ _ Hq3). eauto.
Qed.

Lemma bfq_dispatch_insert_some rq (d : bfq_data T) q :
  queues d !! RQ_BFQQ rq = Some q →
  NoDup (rq_id <$> sort_list q) →
  rq ∈ sort_list q →
  (if rq_is_sync rq then queued_sync q else queued_async q) ≠ 0 →
  ∃ d', bfq_dispatch_insert rq d = Ok d'.
Proof.
  intros Hq Hnd Hin Hc. unfold bfq_dispatch_insert. rewrite Hq.
  cbn [deref mbind result_bind].
  destruct (bfq_find_next_rq_spec d q rq Hnd) as (_ & Hyes).
  destruct Hyes as (r & En & Hr & _).
  { apply Exists_exists. exists rq. auto. }
  rewrite En. cbn [mbind result_bind].
  rewrite (with_bfqq_Ok _ _ _ _ Hq). cbn [mbind result_bind].
  match goal with
  | |- ∃ _, bfq_remove_request rq ?x ≫= _ = _ => set (d1 := x)
  end.
  assert (Hq1 : queues d1 !! RQ_BFQQ rq = Some (set_next_rq r q)).
  { subst d1. cbn. apply lookup_insert_eq. }
  destruct (bfq_remove_request_some rq d1 _ Hq1) as (d2 & E2).
  { cbn. destruct r as [x |]; [| reflexivity]. cbn. unfold rq_ptr_eqb.
    apply Nat.eqb_neq. exact (proj2 (Hr x eq_refl)). }
  { exact Hc. }
  { cbn. apply list_elem_of_fmap. exists rq. auto. }
  rewrite E2. cbn [mbind result_bind].
  destruct (bfqd_upd_queue _ _ _ _ _ _
              (bfq_remove_request_upd _ _ _ _ E2 Hq1) Hq1)
    as (q2 & Hq2 & _).
  rewrite (with_bfqq_Ok _ _ _ _ Hq2). cbn [mbind result_bind]. cbv zeta.
  match goal with
  | |- ∃ _, deref ?o ≫= _ = _ =>
      assert (Ho : o = Some (set_dispatched (dispatched q2 + 1) q2))
        by (cbn; apply lookup_insert_eq)
  end.
  rewrite Ho. cbn [deref mbind result_bind].
  destruct (flag_sync _); eauto.
Qed.

Lemma bfq_dispatch_insert_drain_wf rq (d d' : bfq_data T) qid q :
  bfq_dispatch_insert rq d = Ok d' →
  queues d !! qid = Some q →
  bfqq_drain_wf qid q →
  rq ∈ sort_list q →
  ∃ q',
    queues d' !! qid = Some q'
    ∧ bfqq_drain_wf qid q'
    ∧ sort_list q ≡ₚ rq :: sort_list q'
    ∧ dispatched q' = dispatched q + 1
    ∧ dispatch_list d' = dispatch_list d ++ [rq]
    ∧ queued d' = queued d - 1
    ∧ (∀ k, k ≠ qid → queues d' !! k = queues d !! k).
Proof.
  intros E Hq ((Hnd & Hnx) & Hnone & Hown & Hfifo & Hcs & Hca) Hin.
  pose proof (Hown rq Hin) as Hid. subst qid.
  destruct (bfq_dispatch_insert_spec rq d d' q E Hq Hnd)
    as (q' & Hq' & Hul & Hd & Hdl & Hqd & _ & Hwf & Hnil & Ho).
  destruct Hul as (Hsl & Hff & Hqs & Hqa & _).
  destruct (unlink_rq_split rq (sort_list q) Hnd Hin)
    as (l1 & l2 & Hl & Hu).
  exists q'. split; [exact Hq' |].
  split; [| split; [| auto]].
  - split; [exact Hwf |]. split; [apply Hnil |].
    split; [| split; [| split]].
    + intros x Hx. rewrite Hsl in Hx. apply unlink_rq_elem in Hx.
      apply Hown. tauto.
    + intros x Hx. rewrite Hff in Hx. apply unlink_rq_elem in Hx.
      destruct Hx as (Hne & Hx). rewrite Hsl. apply unlink_rq_elem.
      split; [exact Hne | exact (Hfifo x Hx)].
    + rewrite Hqs, Hcs, Hsl, Hu, Hl, !count_rqs_app, count_rqs_cons.
      destruct (rq_is_sync rq);
        [rewrite bool_decide_eq_true_2 by reflexivity
        | rewrite bool_decide_eq_false_2 by discriminate]; lia.
    + rewrite Hqa, Hca, Hsl, Hu, Hl, !count_rqs_app, count_rqs_cons.
      destruct (rq_is_sync rq);
        [rewrite bool_decide_eq_false_2 by discriminate
        | rewrite bool_decide_eq_true_2 by reflexivity]; lia.
  - rewrite Hsl, Hu, Hl. symmetry. apply Permutation_middle.
Qed.

Lemma bfq_forced_dispatch_loop_drains qid fuel :
  ∀ n0 (d : bfq_data T) q,
    queues d !! qid = Some q →
    bfqq_drain_wf qid q →
    (length (sort_list q) < fuel)%nat →
    ∃ d' q' l,
      __bfq_forced_dispatch_loop fuel qid n0 d
        = Ok (n0 + Z.of_nat (length (sort_list q)), d')
      ∧ queues d' !! qid = Some q'
      ∧ sort_list q' = [] ∧ fifo q' = [] ∧ next_rq q' = None
      ∧ dispatched q' = dispatched q + Z.of_nat (length (sort_list q))
      ∧ dispatch_list d' = dispatch_list d ++ l
      ∧ l ≡ₚ sort_list q
      ∧ queued d' = queued d - Z.of_nat (length (sort_list q))
      ∧ (∀ k, k ≠ qid → queues d' !! k = queues d !! k).
Proof.
  induction fuel as [| fuel IH]; intros n0 d q Hq Hwf Hlen; [lia |].
  cbn [__bfq_forced_dispatch_loop]. rewrite Hq.
  cbn [deref mbind result_bind].
  destruct (next_rq q) as [rq |] eqn:Hrq.
  - pose proof Hwf as ((Hnd & Hnx) & _ & Hown & _ & Hcs & Hca).
    pose proof (Hnx rq Hrq) as Hin. pose proof (Hown rq Hin) as Hid.
    destruct (bfq_dispatch_insert_some rq d q) as (d1 & E1);
      [rewrite Hid; exact Hq | exact Hnd | exact Hin | |].
    { destruct (unlink_rq_split rq (sort_list q) Hnd Hin)
        as (l1 & l2 & Hl & _).
      destruct (rq_is_sync rq) eqn:Hs.
      - rewrite Hcs, Hl, count_rqs_app, count_rqs_cons, Hs.
        rewrite bool_decide_eq_true_2 by reflexivity.
        pose proof (count_rqs_nonneg true l1).
        pose proof (count_rqs_nonneg true l2). lia.
      - rewrite Hca, Hl, count_rqs_app, count_rqs_cons, Hs.
        rewrite bool_decide_eq_true_2 by reflexivity.
        pose proof (count_rqs_nonneg false l1).
        pose proof (count_rqs_nonneg false l2). lia. }
    rewrite E1. cbn [mbind result_bind].
    destruct (bfq_dispatch_insert_drain_wf rq d d1 qid q E1 Hq Hwf Hin)
      as (q1 & Hq1 & Hwf1 & Hperm & Hd1 & Hdl1 & Hqd1 & Ho1).
    assert (Hlen1 : length (sort_list q) = S (length (sort_list q1))).
    { rewrite Hperm. reflexivity. }
    destruct (IH (n0 + 1) d1 q1 Hq1 Hwf1 ltac:(lia))
      as (d' & q' & l & E & Hq' & Hs' & Hf' & Hn' & Hd' & Hdl' & Hp' & Hqd'
          & Ho').
    exists d', q', (rq :: l). rewrite E, Hlen1.
    split; [do 2 f_equal; lia |]. split; [exact Hq' |].
    split; [exact Hs' |]. split; [exact Hf' |]. split; [exact Hn' |].
    split; [lia |].
    split; [rewrite Hdl', Hdl1, <- app_assoc; reflexivity |].
    split; [rewrite Hperm, Hp'; reflexivity |].
    split; [lia |].
    intros k Hk. rewrite Ho', Ho1 by exact Hk. reflexivity.
  - destruct Hwf as (_ & Hnone & _ & Hfifo & _).
    specialize (Hnone Hrq).
    assert (Hf : fifo q = []).
    { destruct (fifo q) as [| x f]; [reflexivity |].
      pose proof (Hfifo x ltac:(left)) as Hy.
      rewrite Hnone in Hy. inversion Hy. }
    exists d, q, []. rewrite Hnone. cbn [length].
    split; [do 2 f_equal; lia |]. split; [exact Hq |].
    split; [reflexivity |]. split; [exact Hf |]. split; [exact Hrq |].
    split; [lia |]. split; [rewrite app_nil_r; reflexivity |].
    split; [reflexivity |]. split; [lia | auto].
Qed.

(** X16: from a consistent queue, with enough fuel for its requests,
    the forced drain completes, its [BUG_ON] on the FIFO does not fire,
    and it returns the number of requests the queue held; the queue is
    left with an empty sort list, an empty FIFO and no [next_rq]; every
    request it held, and nothing else, has been appended to the
    dispatch list and is counted as in flight. *)
Theorem bfq_forced_dispatch_drains (fuel : nat) (qid : nat)
  (bfqd : bfq_data T) (q : bfq_queue) :
  queues bfqd !! qid = Some q →
  bfqq_drain_wf qid q →
  (length (sort_list q) < fuel)%nat →
  ∃ bfqd' q' l,
    __bfq_forced_dispatch_bfqq fuel qid bfqd
      = Ok (Z.of_nat (length (sort_list q)), bfqd')
    ∧ queues bfqd' !! qid = Some q'
    ∧ sort_list q' = [] ∧ fifo q' = [] ∧ next_rq q' = None
    ∧ dispatched q' = dispatched q + Z.of_nat (length (sort_list q))
    ∧ dispatch_list bfqd' = dispatch_list bfqd ++ l
    ∧ l ≡ₚ sort_list q
    ∧ queued bfqd' = queued bfqd - Z.of_nat (length (sort_list q))
    ∧ (∀ k, k ≠ qid → queues bfqd' !! k = queues bfqd !! k).
Proof.
  intros Hq Hwf Hlen.
  destruct (bfq_forced_dispatch_loop_drains qid fuel 0 bfqd q Hq Hwf Hlen)
    as (d' & q' & l & E & Hq' & Hs & Hf & Hrest).
  exists d', q', l. unfold __bfq_forced_dispatch_bfqq. rewrite E.
  cbn [mbind result_bind]. rewrite Hq'. cbn [deref mbind result_bind].
  rewrite Hf. cbn. auto 12.
Qed.

(** ** Admission of a request while idling ([__bfq_may_queue]) *)

Lemma bfq_may_queue_answers_may steps bfqq :
  Forall keeps_must_alloc_clear steps →
  flag_must_alloc bfqq = false →
  Forall (λ r, r = ELV_MQUEUE_MAY) (bfq_may_queue_answers steps bfqq).
Proof.
  intros Hk. revert bfqq. induction Hk as [| f steps Hf Hk IH];
    intros bfqq Hm; [constructor |].
  cbn [bfq_may_queue_answers]. unfold __bfq_may_queue. rewrite Hm.
  rewrite andb_false_r. constructor; [reflexivity |].
  apply IH. apply Hf. exact Hm.
Qed.

(** X17: between two activations of a queue (the only place where
    must_alloc is set), [__bfq_may_queue] answers MUST at most once:
    after the call that answers MUST, every later call answers MAY;
    and it answers MUST only for a queue the scheduler is idling on. *)
Theorem bfq_may_queue_must_once (steps : list (bfq_queue → bfq_queue))
  (bfqq : bfq_queue) (l1 l2 : list elv_mqueue) :
  Forall keeps_must_alloc_clear steps →
  bfq_may_queue_answers steps bfqq = l1 ++ ELV_MQUEUE_MUST :: l2 →
  Forall (λ r, r = ELV_MQUEUE_MAY) l2
  ∧ (l1 = [] → flag_wait_request bfqq = true).
Proof.
  intros Hk. revert bfqq l1. induction Hk as [| f steps Hf Hk IH];
    intros bfqq l1 E.
  { destruct l1; discriminate E. }
  cbn [bfq_may_queue_answers] in E. unfold __bfq_may_queue in E.
  destruct (flag_wait_request bfqq) eqn:Hw, (flag_must_alloc bfqq) eqn:Hm;
    cbn [andb] in E.
  - destruct l1 as [| r l1]; cbn in E.
    + injection E as E. split; [| reflexivity]. rewrite <- E.
      apply bfq_may_queue_answers_may; [exact Hk |].
      apply Hf. reflexivity.
    + injection E as _ E. split; [| discriminate].
      exact (proj1 (IH _ _ E)).
  - destruct l1 as [| r l1]; cbn in E; [discriminate E |].
    injection E as _ E. split; [| discriminate]. exact (proj1 (IH _ _ E)).
  - destruct l1 as [| r l1]; cbn in E; [discriminate E |].
    injection E as _ E. split; [| discriminate]. exact (proj1 (IH _ _ E)).
  - destruct l1 as [| r l1]; cbn in E; [discriminate E |].
    injection E as _ E. split; [| discriminate]. exact (proj1 (IH _ _ E)).
Qed.

(** ** The sysfs attributes *)

Lemma bfq_var_show_small c : 0 ≤ c ≤ INT_MAX → bfq_var_show c = c.
Proof.
  unfold bfq_var_show, INT_MAX. intros Hc.
  change (2 ^ 31) with 2147483648 in *. change (2 ^ 32) with 4294967296.
  Z.div_mod_to_equations. lia.
Qed.

Lemma u32_int c : 0 ≤ c ≤ INT_MAX → u32 c = c.
Proof.
  unfold INT_MAX. intros Hc. apply u32_small.
  change (2 ^ 31) with 2147483648 in *. change (2 ^ 32) with 4294967296.
  lia.
Qed.

Lemma STORE_FUNCTION_clamp lo hi parsed :
  lo ≤ hi →
  STORE_FUNCTION lo hi false parsed = Z.max lo (Z.min hi (u32 parsed)).
Proof.
  intros Hlh. unfold STORE_FUNCTION, bfq_var_store. cbv zeta.
  destruct (Z.ltb_spec (u32 parsed) lo); [lia |].
  destruct (Z.ltb_spec hi (u32 parsed)); lia.
Qed.

(** X18: writing an attribute stores the value read from the page,
    truncated to 32 bits and clamped to the range of the attribute;
    reading the attribute back shows that value (for the attributes
    kept in jiffies, when the conversion to jiffies and back gives the
    value again), and the other attributes show what they showed
    before. *)
Theorem bfq_attr_store_show (a : bfq_attr) (parsed : Z) (bfqd : bfq_data T) :
  (bfq_attr_conv a = true →
   u32 (jiffies_to_msecs
          (u32 (msecs_to_jiffies
                  (Z.max (bfq_attr_min a)
                     (Z.min (bfq_attr_max a) (u32 parsed))))))
     = Z.max (bfq_attr_min a) (Z.min (bfq_attr_max a) (u32 parsed))) →
  bfq_attr_show a (bfq_attr_store a parsed bfqd)
    = Z.max (bfq_attr_min a) (Z.min (bfq_attr_max a) (u32 parsed))
  ∧ ∀ b, b ≠ a →
      bfq_attr_show b (bfq_attr_store a parsed bfqd) = bfq_attr_show b bfqd.
Proof.
  intros Hconv.
  assert (Hu : 0 ≤ u32 parsed < 2 ^ 32).
  { unfold u32. apply Z.mod_pos_bound. reflexivity. }
  assert (Hi : 0 < INT_MAX) by reflexivity.
  split.
  - assert (Hc : 0 ≤ Z.max (bfq_attr_min a)
                       (Z.min (bfq_attr_max a) (u32 parsed)) ≤ INT_MAX).
    { destruct a; cbn [bfq_attr_min bfq_attr_max]; unfold INT_MAX in *;
        change (2 ^ 31) with 2147483648; lia. }
    revert Hconv Hc.
    destruct a; cbn [bfq_attr_min bfq_attr_max bfq_attr_conv bfq_attr_show
                       bfq_attr_store]; intros Hconv Hc;
      unfold bfq_max_budget_store, bfq_timeout_sync_store, SHOW_FUNCTION;
      cbv zeta;
      try (rewrite STORE_FUNCTION_clamp by (unfold INT_MAX; cbn; lia);
           cbn; rewrite u32_int by exact Hc;
           apply bfq_var_show_small; exact Hc).
    + unfold STORE_FUNCTION, bfq_var_store. cbv zeta. cbn.
      specialize (Hconv eq_refl).
      replace (if u32 parsed <? 0 then 0
               else if INT_MAX <? u32 parsed then INT_MAX else u32 parsed)
        with (0 `max` (INT_MAX `min` u32 parsed))
        by (destruct (Z.ltb_spec (u32 parsed) 0);
            destruct (Z.ltb_spec INT_MAX (u32 parsed)); lia).
      rewrite (u32_small (u32 _)) by apply Z.mod_pos_bound, eq_refl.
      rewrite Hconv. apply bfq_var_show_small. exact Hc.
    + unfold bfq_var_store.
      destruct (Z.eqb_spec (u32 parsed) 0) as [Hz | Hz]; cbn.
      * rewrite Hz. reflexivity.
      * destruct (Z.ltb_spec INT_MAX (u32 parsed)); cbn;
          rewrite u32_int by lia; rewrite bfq_var_show_small by lia; lia.
    + unfold bfq_var_store. specialize (Hconv eq_refl).
      replace (if u32 parsed <? 1 then 1
               else if INT_MAX <? u32 parsed then INT_MAX else u32 parsed)
        with (1 `max` (INT_MAX `min` u32 parsed))
        by (destruct (Z.ltb_spec (u32 parsed) 1);
            destruct (Z.ltb_spec INT_MAX (u32 parsed)); lia).
      destruct (_ =? 0); cbn;
        rewrite (u32_small (u32 _)) by (apply Z.mod_pos_bound, eq_refl);
        rewrite Hconv; apply bfq_var_show_small; exact Hc.
    + unfold STORE_FUNCTION, bfq_var_store. cbv zeta. cbn.
      specialize (Hconv eq_refl).
      replace (if u32 parsed <? 0 then 0
               else if INT_MAX <? u32 parsed then INT_MAX else u32 parsed)
        with (0 `max` (INT_MAX `min` u32 parsed))
        by (destruct (Z.ltb_spec (u32 parsed) 0);
            destruct (Z.ltb_spec INT_MAX (u32 parsed)); lia).
      rewrite (u32_small (u32 _)) by apply Z.mod_pos_bound, eq_refl.
      rewrite Hconv. apply bfq_var_show_small. exact Hc.
  - intros b Hb.
    destruct a, b; try contradiction; try reflexivity;
      cbn [bfq_attr_show bfq_attr_store];
      unfold bfq_max_budget_store, bfq_timeout_sync_store; cbv zeta;
      repeat match goal with
             | |- context [if ?c then _ else _] => destruct c
             end; reflexivity.
Qed.

(** X19: a non-zero value written to max_budget pins the device-wide
    maximum budget to that value (at most INT_MAX): neither the
    peak-rate measurements nor a write to timeout_sync change it
    afterwards.  Writing zero hands the maximum back to the
    estimate: the default of 16384 sectors until 32 peak-rate samples
    have been taken, the value computed from the peak rate after. *)
Theorem bfq_max_budget_store_pins (parsed : Z) (bfqd : bfq_data T) :
  (u32 parsed ≠ 0 →
   bfq_max_budget (bfq_max_budget_store parsed bfqd)
     = Z.min (u32 parsed) INT_MAX
   ∧ bfq_user_max_budget (tun (bfq_max_budget_store parsed bfqd))
       = Z.min (u32 parsed) INT_MAX
   ∧ (∀ now qid compensate slow bfqd',
        bfq_update_peak_rate now qid compensate
          (bfq_max_budget_store parsed bfqd) = Ok (slow, bfqd') →
        bfq_max_budget bfqd' = Z.min (u32 parsed) INT_MAX)
   ∧ (∀ parsed',
        bfq_max_budget
          (bfq_timeout_sync_store parsed' (bfq_max_budget_store parsed bfqd))
          = Z.min (u32 parsed) INT_MAX))
  ∧ (u32 parsed = 0 →
     bfq_user_max_budget (tun (bfq_max_budget_store parsed bfqd)) = 0
     ∧ bfq_max_budget (bfq_max_budget_store parsed bfqd)
         = bfq_estimated_max_budget bfqd
     ∧ (peak_rate_samples bfqd < 32 →
        bfq_max_budget (bfq_max_budget_store parsed bfqd) = 16384)).
Proof.
  split.
  - intros Hnz.
    assert (Hi : 0 < INT_MAX) by reflexivity.
    assert (Hu : 0 ≤ u32 parsed) by (apply Z.mod_pos_bound; reflexivity).
    assert (Hm : bfq_max_budget (bfq_max_budget_store parsed bfqd)
                 = Z.min (u32 parsed) INT_MAX
                 ∧ bfq_user_max_budget
                     (tun (bfq_max_budget_store parsed bfqd))
                   = Z.min (u32 parsed) INT_MAX).
    { unfold bfq_max_budget_store, bfq_var_store. cbv zeta.
      destruct (Z.eqb_spec (u32 parsed) 0); [contradiction |].
      destruct (Z.ltb_spec INT_MAX (u32 parsed)); cbn; lia. }
    destruct Hm as (Hm & Hum).
    split; [exact Hm |]. split; [exact Hum |]. split.
    + intros now qid c slow d' E.
      apply bfq_update_peak_rate_frame in E.
      destruct E as (_ & _ & _ & Hpin & _).
      rewrite Hpin, Hm; [reflexivity |]. rewrite Hum. lia.
    + intros parsed'. unfold bfq_timeout_sync_store. cbv zeta.
      cbn [tun set_tun bfq_user_max_budget set_bfq_timeout_sync].
      rewrite Hum. destruct (Z.eqb_spec (u32 parsed `min` INT_MAX) 0);
        [lia |]. exact Hm.
  - intros Hz. unfold bfq_max_budget_store, bfq_var_store. cbv zeta.
    rewrite Hz. cbn. split; [reflexivity |]. split; [reflexivity |].
    intros Hs. unfold bfq_estimated_max_budget, BFQ_PEAK_RATE_SAMPLES.
    destruct (Z.leb_spec 32 (peak_rate_samples bfqd)); [lia | reflexivity].
Qed.

(** ** A request on its way through the driver *)

(** X20: the in-flight accounting is balanced.  Once a request has
    been dispatched, handed to the driver and completed, the
    [dispatched] counter of its queue, [sync_flight] and the driver
    counters are back to what they were, while the request is gone
    from the queue and counted out of [queued].  Taking an activated
    request back from the driver also restores the driver counters. *)
Theorem bfq_request_flight_balanced (jiffies now : Z) (rq : request)
  (bfqd bfqd1 bfqd3 : bfq_data T) (q : bfq_queue) :
  bfq_dispatch_insert rq bfqd = Ok bfqd1 →
  queues bfqd !! RQ_BFQQ rq = Some q →
  NoDup (rq_id <$> sort_list q) →
  bfq_completed_request jiffies now rq (bfq_activate_request rq bfqd1)
    = Ok bfqd3 →
  (∃ q3,
     queues bfqd3 !! RQ_BFQQ rq = Some q3
     ∧ dispatched q3 = dispatched q
     ∧ sort_list q3 = unlink_rq (rq_id rq) (sort_list q)
     ∧ fifo q3 = unlink_rq (rq_id rq) (fifo q))
  ∧ sync_flight bfqd3 = sync_flight bfqd
  ∧ rq_in_driver_sync bfqd3 = rq_in_driver_sync bfqd
  ∧ rq_in_driver_async bfqd3 = rq_in_driver_async bfqd
  ∧ queued bfqd3 = queued bfqd - 1
  ∧ dispatch_list bfqd3 = dispatch_list bfqd ++ [rq]
  ∧ rq_in_driver_sync (bfq_deactivate_request rq
                         (bfq_activate_request rq bfqd1))
      = rq_in_driver_sync bfqd1
  ∧ rq_in_driver_async (bfq_deactivate_request rq
                          (bfq_activate_request rq bfqd1))
      = rq_in_driver_async bfqd1.
Proof.
  intros E1 Hq Hnd E3.
  destruct (bfq_dispatch_insert_spec rq bfqd bfqd1 q E1 Hq Hnd)
    as (q1 & Hq1 & Hul & Hd1 & Hdl1 & Hqd1 & Hsf1 & _).
  destruct Hul as (Hsl & Hff & _ & _ & _ & Hfs).
  assert (Hq2 : queues (bfq_activate_request rq bfqd1) !! RQ_BFQQ rq
                = Some q1).
  { unfold bfq_activate_request. destruct (rq_is_sync rq); exact Hq1. }
  destruct (bfq_completed_request_spec _ _ _ _ _ _ E3 Hq2)
    as ((q3 & Hq3 & Hd3 & Hs3 & Hf3 & _) & Hrs & Hra & Hsf3 & Hqd3 & Hdl3
        & _).
  assert (Hin : rq_in_driver_sync bfqd1 = rq_in_driver_sync bfqd
                ∧ rq_in_driver_async bfqd1 = rq_in_driver_async bfqd).
  { unfold bfq_dispatch_insert in E1. rewrite Hq in E1.
    cbn [deref mbind result_bind] in E1.
    apply bind_Ok in E1. destruct E1 as (next & _ & E1).
    apply bind_Ok in E1. destruct E1 as (d1 & Ea & E1).
    apply bind_Ok in E1. destruct E1 as (d2 & Eb & E1).
    apply bind_Ok in E1. destruct E1 as (d3 & Ec & E1). cbv zeta in E1.
    apply bind_Ok in E1. destruct E1 as (q4 & _ & E1).
    apply with_bfqq_upd in Ea. apply with_bfqq_upd in Ec.
    assert (Hq1' : queues d1 !! RQ_BFQQ rq = Some (set_next_rq next q)).
    { destruct (bfqd_upd_queue _ _ _ _ _ _ Ea Hq) as (? & ? & ->).
      assumption. }
    pose proof (bfq_remove_request_upd _ _ _ _ Eb Hq1') as Hb.
    destruct Ea as (_ & _ & _ & _ & _ & Haa & Has & _).
    destruct Hb as (_ & _ & _ & _ & _ & Hba & Hbs & _).
    destruct Ec as (_ & _ & _ & _ & _ & Hca & Hcs & _).
    destruct (flag_sync q4); injection E1 as <-; cbn; split; congruence. }
  destruct Hin as (Hins & Hina).
  split.
  { exists q3. split; [exact Hq3 |]. split; [lia |].
    split; congruence. }
  unfold bfq_activate_request, bfq_deactivate_request in *.
  rewrite Hfs in Hsf3.
  destruct (rq_is_sync rq), (flag_sync q); cbn in *;
    repeat split; try lia; try congruence.
Qed.

(** ** Progress of a round of dispatch *)

(** X21: a round of dispatch that completes has either moved at least
    one request to the dispatch list or expired the queue, in which
    case no queue is active when it returns: a round never leaves the
    same queue active without having served it. *)
Theorem bfq_dispatch_round_progress (jiffies now : Z) (qid : nat)
  (max_dispatch : Z) (bfqd bfqd' : bfq_data T) (n : Z) :
  __bfq_dispatch_requests jiffies now qid max_dispatch bfqd = Ok (n, bfqd') →
  1 ≤ n
  ∨ (n = 0
     ∧ dispatch_list bfqd' = dispatch_list bfqd
     ∧ active_queue bfqd' = None
     ∧ idle_slice_timer bfqd' = None).
Proof.
  intros E. pose proof E as E0.
  apply bfq_dispatch_requests_inner_count in E0. destruct E0 as (Hn & Hlen).
  unfold __bfq_dispatch_requests in E.
  apply bind_Ok in E. destruct E as (q & _ & E).
  apply bind_Ok in E. destruct E as (u & _ & E).
  apply bind_Ok in E. destruct E as ([[n1 e] d1] & E1 & E).
  pose proof (bfq_dispatch_loop_inner_bound _ _ _ _ _ _ _ _ _ E1)
    as (_ & Hpos).
  pose proof (bfq_dispatch_loop_inner_count _ _ _ _ _ _ _ _ _ E1)
    as (Hle & Hl1 & _).
  apply bind_Ok in E. destruct E as (q1 & _ & E).
  destruct e.
  - cbn [orb] in E. apply bind_Ok in E. destruct E as (d2 & E2 & E).
    injection E as <- <-.
    destruct (Z.eq_dec n1 0) as [-> | Hne]; [| left; lia].
    right. apply bfq_bfqq_expire_post in E2.
    destruct E2 as (slow & d3 & q2 & q3 & _ & _ & _ & _ & Ha & Ht & Hk & _).
    destruct Hk as (Hdl & _).
    assert (Hd1 : length (dispatch_list d1) = length (dispatch_list bfqd))
      by lia.
    split; [reflexivity |]. split; [| auto].
    rewrite Hdl.
    clear -E1. revert E1.
    generalize (S (Z.to_nat max_dispatch)). intros fuel.
    destruct fuel as [| fuel]; [discriminate |].
    cbn [__bfq_dispatch_loop]. intros E.
    apply bind_Ok in E. destruct E as (q & _ & E).
    destruct (bfq_check_fifo jiffies q) as [orq q1]. cbv zeta in E.
    apply bind_Ok in E. destruct E as (rq & _ & E).
    destruct (_ <? _).
    + apply bind_Ok in E. destruct E as (d2 & E2 & E).
      apply with_bfqq_inv in E2. destruct E2 as (? & _ & ->).
      injection E as <-. reflexivity.
    + apply bind_Ok in E. destruct E as (d2 & _ & E).
      apply bind_Ok in E. destruct E as (d3 & _ & E).
      apply bind_Ok in E. destruct E as (q3 & _ & E).
      destruct (RB_EMPTY_ROOT _); [injection E as E _ _; lia |].
      destruct (Z.ltb_spec (0 + 1) max_dispatch);
        [| injection E as E _ _; lia].
      apply bfq_dispatch_loop_inner_count in E. lia.
  - specialize (Hpos eq_refl).
    destruct (_ || _).
    + apply bind_Ok in E. destruct E as (d2 & _ & E).
      injection E as <- <-. left. lia.
    + injection E as <- <-. left. lia.
Qed.

(** ** The statistics of an io context *)

(** X22: the sample weights of the think-time and seek statistics stay
    within 32..256 once updated and never decrease, so that the two
    divisions by them never divide by zero and the [do_div] of the
    seek statistic returns; a statistic is valid
    (more than 80) after an update exactly when its weight was at
    least 56 before, that is from the third update of a fresh context
    on. *)
Theorem bfq_update_io_stats_weights (jiffies : Z) (bfqd : bfq_data T)
  (rq : request) (cic : cfq_io_context) (st : cic_stats) :
  0 ≤ ttime_samples st ≤ 256 →
  0 ≤ seek_samples cic ≤ 256 →
  (∃ st',
     bfq_update_io_thinktime jiffies bfqd cic st = Ok st'
     ∧ 32 ≤ ttime_samples st' ≤ 256
     ∧ ttime_samples st ≤ ttime_samples st'
     ∧ (bfq_sample_valid (ttime_samples st') = true
        ↔ 56 ≤ ttime_samples st))
  ∧ ∃ cic' st',
      bfq_update_io_seektime rq cic st = Ok (cic', st')
      ∧ 32 ≤ seek_samples cic' ≤ 256
      ∧ seek_samples cic ≤ seek_samples cic'
      ∧ (bfq_sample_valid (seek_samples cic') = true
         ↔ 56 ≤ seek_samples cic)
      ∧ nr_tasks cic' = nr_tasks cic
      ∧ last_end_request cic' = last_end_request cic.
Proof.
  intros Ht Hs. split.
  - unfold bfq_update_io_thinktime, bfq_sample_valid. cbv zeta.
    rewrite (u64_small (7 * ttime_samples st + 256))
      by (change (2 ^ 64) with 18446744073709551616; lia).
    unfold udiv.
    destruct (Z.eqb_spec ((7 * ttime_samples st + 256) / 8) 0);
      [Z.div_mod_to_equations; lia |].
    cbn [mbind result_bind]. eexists. split; [reflexivity |].
    cbn [ttime_samples].
    repeat split;
      try (Z.div_mod_to_equations; lia);
      try (intros Hv; apply Z.ltb_lt in Hv; Z.div_mod_to_equations; lia);
      try (intros Hv; apply Z.ltb_lt; Z.div_mod_to_equations; lia).
  - unfold bfq_update_io_seektime, bfq_sample_valid. cbv zeta.
    rewrite (u32_small (7 * seek_samples cic + 256))
      by (change (2 ^ 32) with 4294967296; lia).
    assert (Hr : 32 ≤ (7 * seek_samples cic + 256) / 8 ≤ 256)
      by (Z.div_mod_to_equations; lia).
    unfold do_div.
    rewrite (u32_small ((7 * seek_samples cic + 256) / 8))
      by (change (2 ^ 32) with 4294967296; lia).
    destruct (Z.eqb_spec ((7 * seek_samples cic + 256) / 8) 0); [lia |].
    cbn [mbind result_bind]. eexists _, _. split; [reflexivity |].
    cbn [seek_samples set_seek nr_tasks last_end_request].
    repeat split; try reflexivity;
      try (Z.div_mod_to_equations; lia);
      try (intros Hv; apply Z.ltb_lt in Hv; Z.div_mod_to_equations; lia);
      try (intros Hv; apply Z.ltb_lt; Z.div_mod_to_equations; lia).
Qed.

(** ** The first slices of a queue *)

Lemma budgets_assigned_iter_range k x :
  0 ≤ x ≤ 256 →
  x ≤ Nat.iter k (λ x, (x * 7 + 256) / 8) x ≤ 256.
Proof.
  intros Hx. induction k as [| k IH]; [cbn; lia |].
  change (Nat.iter (S k) (λ x, (x * 7 + 256) / 8) x)
    with ((Nat.iter k (λ x, (x * 7 + 256) / 8) x * 7 + 256) / 8).
  revert IH. generalize (Nat.iter k (λ x, (x * 7 + 256) / 8) x).
  intros y Hy. Z.div_mod_to_equations. lia.
Qed.

Lemma bfq_activations_counter n :
  ∀ (d : bfq_data T) qid q,
    queues d !! qid = Some q →
    ∃ d' q',
      bfq_activations n qid d = Ok d'
      ∧ queues d' !! qid = Some q'
      ∧ budgets_assigned q'
          = Nat.iter n (λ x, (x * 7 + 256) / 8) (budgets_assigned q)
      ∧ tun d' = tun d
      ∧ bfq_max_budget d' = bfq_max_budget d.
Proof.
  induction n as [| n IH]; intros d qid q Hq.
  - exists d, q. cbn. auto.
  - cbn [bfq_activations]. unfold __bfq_set_active_queue.
    rewrite (with_bfqq_Ok _ _ _ _ Hq). cbn [mbind result_bind].
    match goal with
    | |- ∃ _ _, bfq_activations n qid ?x = _ ∧ _ =>
        destruct (IH x qid
                    (set_budgets_assigned
                       ((budgets_assigned q * 7 + 256) / 8)
                       (set_flag_fifo_expire false
                          (set_flag_budget_new true
                             (set_flag_must_alloc true q)))))
          as (d' & q' & E & Hq' & Hb & Ht & Hm)
    end.
    { cbn. apply lookup_insert_eq. }
    exists d', q'. split; [exact E |]. split; [exact Hq' |].
    split; [| split; [exact Ht | exact Hm]].
    rewrite Hb. cbn [budgets_assigned set_budgets_assigned].
    symmetry.
    exact (Nat.iter_succ_r n (λ x, (x * 7 + 256) / 8) (budgets_assigned q)).
Qed.

(** X23: a queue is young for exactly its first ten slices.  Starting
    from the zeroed counter of a new queue, [budgets_assigned] reaches
    the threshold of 194 at the eleventh activation and stays at or
    above it: until then (and unless the user has pinned a maximum)
    the default budget of the queue is 12288 sectors whatever the
    device-wide maximum, from then on it is three quarters of the
    device-wide maximum. *)
Theorem bfq_default_budget_young (n : nat) (bfqd : bfq_data T) (qid : nat)
  (q : bfq_queue) :
  queues bfqd !! qid = Some q →
  budgets_assigned q = 0 →
  ∃ bfqd' q',
    bfq_activations n qid bfqd = Ok bfqd'
    ∧ queues bfqd' !! qid = Some q'
    ∧ (194 ≤ budgets_assigned q' ↔ (11 ≤ n)%nat)
    ∧ ((n < 11)%nat → bfq_user_max_budget (tun bfqd) = 0 →
       bfq_default_budget bfqd' q' = 12288)
    ∧ ((11 ≤ n)%nat →
       bfq_default_budget bfqd' q'
         = u64 (bfq_max_budget bfqd - bfq_max_budget bfqd / 4)).
Proof.
  intros Hq Hz.
  destruct (bfq_activations_counter n bfqd qid q Hq)
    as (d' & q' & E & Hq' & Hb & Ht & Hm).
  rewrite Hz in Hb.
  assert (Hiff : 194 ≤ budgets_assigned q' ↔ (11 ≤ n)%nat).
  { rewrite Hb. split.
    - intros Hge. destruct (le_lt_dec 11 n) as [| Hlt]; [assumption |].
      exfalso. revert Hge.
      do 11 (destruct n as [| n]; [vm_compute; congruence |]). lia.
    - intros Hle. replace n with ((n - 11) + 11)%nat by lia.
      rewrite Nat.iter_add.
      change (Nat.iter 11 (λ x, (x * 7 + 256) / 8) 0) with 194.
      apply budgets_assigned_iter_range. lia. }
  exists d', q'. split; [exact E |]. split; [exact Hq' |].
  split; [exact Hiff |].
  unfold bfq_default_budget. rewrite Ht, Hm. split.
  - intros Hlt Hu. rewrite Hu.
    destruct (Z.ltb_spec (budgets_assigned q') 194) as [| Hge];
      [reflexivity |].
    apply Hiff in Hge. lia.
  - intros Hle. apply Hiff in Hle.
    destruct (Z.ltb_spec (budgets_assigned q') 194); [lia | reflexivity].
Qed.

(** ** Service within the budget *)

Lemma bfq_del_rq_rb_entity rq (d d' : bfq_data T) :
  bfq_del_rq_rb rq d = Ok d' →
  bfqd_upd (RQ_BFQQ rq) (λ q q', entity q' = entity q) (-1) d d'.
Proof.
  unfold bfq_del_rq_rb. intros E. cbv zeta in E.
  apply bind_Ok in E. destruct E as (q & Hq & E). apply deref_Ok in Hq.
  apply bind_Ok in E. destruct E as (u & _ & E).
  apply bind_Ok in E. destruct E as (sl & Hsl & E).
  apply elv_rb_del_Ok in Hsl. destruct Hsl as (_ & ->).
  match type of E with
  | (if _ then bfq_del_bfqq_busy _ _ ?x else _) = _ => set (d1 := x) in *
  end.
  assert (H1 : bfqd_upd (RQ_BFQQ rq) (λ q0 q', entity q' = entity q0)
                 (-1) d d1).
  { unfold bfqd_upd. subst d1. cbn. split.
    - exists q. eexists. split; [exact Hq |].
      rewrite lookup_insert_eq. split; [reflexivity |].
      destruct (rq_is_sync rq); reflexivity.
    - split; [intros k Hk; apply lookup_insert_ne; congruence |].
      repeat split; lia. }
  destruct (_ && _).
  - apply bfq_del_bfqq_busy_upd in E. change (-1) with (-1 + 0).
    refine (bfqd_upd_trans _ _ _ _ _ _ _ _ _ _ H1 E).
    intros a b c Hab ->. exact Hab.
  - injection E as <-. exact H1.
Qed.

Lemma bfq_remove_request_entity rq (d d' : bfq_data T) q :
  bfq_remove_request rq d = Ok d' →
  queues d !! RQ_BFQQ rq = Some q →
  opt_rq_ptr_eqb (next_rq q) (Some rq) = false →
  bfqd_upd (RQ_BFQQ rq) (λ q q', entity q' = entity q) (-1) d d'.
Proof.
  unfold bfq_remove_request. intros E Hq Hp. rewrite Hq in E.
  cbn [deref mbind result_bind] in E. rewrite Hp in E.
  cbn [mbind result_bind] in E.
  apply bind_Ok in E. destruct E as (d2 & E2 & E).
  apply bind_Ok in E. destruct E as (d3 & E3 & E).
  apply with_bfqq_upd in E2. apply bfq_del_rq_rb_entity in E3.
  assert (H13 : bfqd_upd (RQ_BFQQ rq) (λ q0 q', entity q' = entity q0)
                  (0 + -1) d d3).
  { refine (bfqd_upd_trans _ _ _ _ _ _ _ _ _ _ E2 E3).
    intros a b c -> Hbc. exact Hbc. }
  destruct (rq_is_meta rq).
  - apply with_bfqq_upd in E. change (-1) with (0 + -1 + 0).
    refine (bfqd_upd_trans _ _ _ _ _ _ _ _ _ _ H13 E).
    intros a b c Hab ->. exact Hab.
  - injection E as <-. exact H13.
Qed.

Lemma bfq_dispatch_insert_entity rq (d d' : bfq_data T) q :
  bfq_dispatch_insert rq d = Ok d' →
  queues d !! RQ_BFQQ rq = Some q →
  NoDup (rq_id <$> sort_list q) →
  ∃ q', queues d' !! RQ_BFQQ rq = Some q' ∧ entity q' = entity q.
Proof.
  unfold bfq_dispatch_insert. intros E Hq Hnd. rewrite Hq in E.
  cbn [deref mbind result_bind] in E.
  apply bind_Ok in E. destruct E as (next & En & E).
  apply bind_Ok in E. destruct E as (d1 & E1 & E).
  apply bind_Ok in E. destruct E as (d2 & E2 & E).
  apply bind_Ok in E. destruct E as (d3 & E3 & E). cbv zeta in E.
  apply bind_Ok in E. destruct E as (q3 & _ & E).
  destruct (bfq_find_next_rq_inv _ _ _ _ En Hnd) as (_ & Hnext & _).
  apply with_bfqq_upd in E1.
  destruct (bfqd_upd_queue _ _ _ _ _ _ E1 Hq) as (q1 & Hq1 & ->).
  apply bfq_remove_request_entity with (q := set_next_rq next q) in E2;
    [| exact Hq1 |].
  2:{ cbn. destruct next as [x |]; [| reflexivity]. cbn. unfold rq_ptr_eqb.
      apply Nat.eqb_neq. exact (proj2 (Hnext x eq_refl)). }
  destruct (bfqd_upd_queue _ _ _ _ _ _ E2 Hq1) as (q2 & Hq2 & He2).
  apply with_bfqq_upd in E3.
  destruct (bfqd_upd_queue _ _ _ _ _ _ E3 Hq2) as (q3' & Hq3' & ->).
  exists (set_dispatched (dispatched q2 + 1) q2). split.
  - destruct (flag_sync q3); injection E as <-; exact Hq3'.
  - exact He2.
Qed.

Lemma bfq_check_fifo_wf jiffies q :
  entity (bfq_check_fifo jiffies q).2 = entity q
  ∧ sort_list (bfq_check_fifo jiffies q).2 = sort_list q
  ∧ fifo (bfq_check_fifo jiffies q).2 = fifo q
  ∧ next_rq (bfq_check_fifo jiffies q).2 = next_rq q
  ∧ queued_sync (bfq_check_fifo jiffies q).2 = queued_sync q
  ∧ queued_async (bfq_check_fifo jiffies q).2 = queued_async q
  ∧ ∀ x, (bfq_check_fifo jiffies q).1 = Some x → x ∈ fifo q.
Proof.
  unfold bfq_check_fifo. destruct q. cbn.
  repeat match goal with
         | |- context [if ?b then _ else _] => destruct b; cbn
         | |- context [match ?l with [] => _ | _ :: _ => _ end] =>
             destruct l; cbn
         end;
    repeat split; try reflexivity; try (intros; discriminate).
  intros x Hx. injection Hx as <-. left.
Qed.

Lemma bfqq_drain_wf_eq qid q q1 :
  sort_list q1 = sort_list q → fifo q1 = fifo q →
  queued_sync q1 = queued_sync q → queued_async q1 = queued_async q →
  (∀ x, next_rq q1 = Some x → x ∈ sort_list q) →
  (next_rq q1 = None → sort_list q = []) →
  bfqq_drain_wf qid q → bfqq_drain_wf qid q1.
Proof.
  intros Hs Hf Hqs Hqa Hn Hnone ((Hnd & _) & _ & Hown & Hfifo & Hcs & Hca).
  unfold bfqq_drain_wf, bfqq_rq_wf. rewrite Hs, Hf, Hqs, Hqa. auto 10.
Qed.

Lemma bfq_bfqq_served_queue qid s (d d' : bfq_data T) q :
  bfq_bfqq_served qid s d = Ok d' →
  queues d !! qid = Some q →
  queues d' !! qid
    = Some (set_entity (set_service (u64 (service (entity q) + s))
                          (entity q)) q)
  ∧ dispatch_list d' = dispatch_list d.
Proof.
  unfold bfq_bfqq_served. intros E Hq.
  rewrite (with_bfqq_Ok _ _ _ _ Hq) in E. cbn [mbind result_bind] in E.
  injection E as <-. cbn. rewrite lookup_insert_eq. auto.
Qed.

Lemma bfq_dispatch_loop_within_budget jiffies qid max_dispatch fuel :
  ∀ n (d : bfq_data T) n' e d' q,
    __bfq_dispatch_loop fuel jiffies qid max_dispatch n d = Ok (n', e, d') →
    queues d !! qid = Some q →
    bfqq_drain_wf qid q →
    (∀ x, x ∈ sort_list q → 0 ≤ blk_rq_sectors x) →
    0 ≤ service (entity q) ≤ budget (entity q) →
    budget (entity q) < 2 ^ 64 →
    ∃ q' l,
      queues d' !! qid = Some q'
      ∧ dispatch_list d' = dispatch_list d ++ l
      ∧ n' = n + Z.of_nat (length l)
      ∧ (∀ x, x ∈ l → x ∈ sort_list q)
      ∧ budget (entity q') = budget (entity q)
      ∧ service (entity q') = service (entity q) + rq_sectors_sum l
      ∧ service (entity q') ≤ budget (entity q').
Proof.
  induction fuel as [| fuel IH]; intros n d n' e d' q E Hq Hwf Hsane Hsb Hb;
    [discriminate E |].
  cbn [__bfq_dispatch_loop] in E. rewrite Hq in E.
  cbn [deref mbind result_bind] in E.
  destruct (bfq_check_fifo_wf jiffies q)
    as (Hce & Hcs & Hcf & Hcn & Hcqs & Hcqa & Hcx).
  destruct (bfq_check_fifo jiffies q) as [orq q1]. cbn [fst snd] in *.
  cbv zeta in E.
  apply bind_Ok in E. destruct E as (rq & Hrq & E). apply deref_Ok in Hrq.
  pose proof Hwf as ((Hnd & Hnx) & Hnone & Hown & Hfifo & _).
  assert (Hin : rq ∈ sort_list q).
  { destruct orq as [x |].
    - injection Hrq as ->. apply Hfifo, Hcx. reflexivity.
    - apply Hnx. rewrite <- Hcn. exact Hrq. }
  pose proof (Hown rq Hin) as Hown_rq.
  pose proof (Hsane rq Hin) as Hsec.
  assert (Hwf1 : bfqq_drain_wf qid q1).
  { apply (bfqq_drain_wf_eq qid q q1); try assumption.
    - intros x Hx. apply Hnx. congruence.
    - intros Hx. apply Hnone. congruence. }
  assert (Hleft : bfq_bfqq_budget_left q1
                  = budget (entity q) - service (entity q)).
  { unfold bfq_bfqq_budget_left. rewrite Hce. apply u64_small. lia. }
  match type of E with
  | context [with_bfqq qid (set_next_rq (Some rq)) ?x] => set (d0 := x) in *
  end.
  assert (Hq0 : queues d0 !! qid = Some q1).
  { subst d0. cbn. apply lookup_insert_eq. }
  destruct (Z.ltb_spec (bfq_bfqq_budget_left q1) (blk_rq_sectors rq))
    as [Hlt | Hge].
  - apply bind_Ok in E. destruct E as (d1 & E1 & E).
    apply with_bfqq_inv in E1. destruct E1 as (q1' & Hq1' & ->).
    rewrite Hq0 in Hq1'. injection Hq1' as <-.
    injection E as <- <- <-.
    exists (set_next_rq (Some rq) q1), []. cbn.
    rewrite lookup_insert_eq, app_nil_r, Hce.
    split; [reflexivity |]. split; [reflexivity |]. split; [lia |].
    split; [intros x Hx; inversion Hx |]. split; [reflexivity |].
    split; lia.
  - apply bind_Ok in E. destruct E as (d2 & E2 & E).
    apply bind_Ok in E. destruct E as (d3 & E3 & E).
    destruct (bfq_bfqq_served_queue _ _ _ _ _ E2 Hq0) as (Hq2 & Hdl2).
    set (q2 := set_entity
                 (set_service (u64 (service (entity q1) + blk_rq_sectors rq))
                    (entity q1)) q1) in *.
    assert (Hwf2 : bfqq_drain_wf qid q2).
    { apply (bfqq_drain_wf_eq qid q1 q2); try reflexivity; try assumption.
      - destruct Hwf1 as ((_ & H1) & _). exact H1.
      - destruct Hwf1 as (_ & H1 & _). exact H1. }
    assert (Hin2 : rq ∈ sort_list q2) by (cbn; rewrite Hcs; exact Hin).
    assert (Hq2' : queues d2 !! RQ_BFQQ rq = Some q2)
      by (rewrite Hown_rq; exact Hq2).
    destruct (bfq_dispatch_insert_drain_wf rq d2 d3 qid q2 E3 Hq2 Hwf2 Hin2)
      as (q3 & Hq3 & Hwf3 & Hperm & _ & Hdl3 & _).
    destruct (bfq_dispatch_insert_entity rq d2 d3 q2 E3 Hq2')
      as (q3' & Hq3' & He3).
    { destruct Hwf2 as ((H1 & _) & _). exact H1. }
    rewrite Hown_rq, Hq3 in Hq3'. injection Hq3' as <-.
    assert (Hs3 : service (entity q3)
                  = service (entity q) + blk_rq_sectors rq).
    { rewrite He3. cbn. rewrite Hce. apply u64_small. lia. }
    assert (Hb3 : budget (entity q3) = budget (entity q)).
    { rewrite He3. cbn. rewrite Hce. reflexivity. }
    assert (Hsub : ∀ x, x ∈ sort_list q3 → x ∈ sort_list q).
    { intros x Hx. rewrite <- Hcs.
      change (sort_list q1) with (sort_list q2).
      rewrite Hperm. right. exact Hx. }
    match type of E with
    | context [queues ?x !! qid] => set (d4 := x) in *
    end.
    assert (H4 : queues d4 = queues d3
                 ∧ dispatch_list d4 = dispatch_list d3).
    { subst d4. destruct (active_cic d3); auto. }
    destruct H4 as (Hq4 & Hdl4).
    apply bind_Ok in E. destruct E as (q4 & Hq4' & E). apply deref_Ok in Hq4'.
    rewrite Hq4, Hq3 in Hq4'. injection Hq4' as <-.
    assert (Hstop : ∃ q' l,
              queues d4 !! qid = Some q'
              ∧ dispatch_list d4 = dispatch_list d ++ l
              ∧ n + 1 = n + Z.of_nat (length l)
              ∧ (∀ x, x ∈ l → x ∈ sort_list q)
              ∧ budget (entity q') = budget (entity q)
              ∧ service (entity q') = service (entity q) + rq_sectors_sum l
              ∧ service (entity q') ≤ budget (entity q')).
    { exists q3, [rq]. rewrite Hq4, Hdl4, Hdl3, Hdl2. cbn.
      split; [exact Hq3 |]. split; [reflexivity |]. split; [lia |].
      split; [intros x Hx; apply list_elem_of_singleton in Hx; subst x;
              exact Hin |].
      split; [exact Hb3 |]. split; lia. }
    destruct (RB_EMPTY_ROOT _); [injection E as <- <- <-; exact Hstop |].
    destruct (n + 1 <? max_dispatch);
      [| injection E as <- <- <-; exact Hstop].
    assert (Hq4'' : queues d4 !! qid = Some q3) by (rewrite Hq4; exact Hq3).
    destruct (IH _ _ _ _ _ q3 E Hq4'' Hwf3)
      as (q' & l & Hq' & Hdl' & Hn' & Hl' & Hb' & Hs' & Hle');
      [intros x Hx; apply Hsane, Hsub, Hx | lia | lia |].
    exists q', (rq :: l). split; [exact Hq' |].
    split; [rewrite Hdl', Hdl4, Hdl3, Hdl2, <- app_assoc; reflexivity |].
    split; [cbn [length]; lia |].
    split.
    { intros x Hx. apply elem_of_cons in Hx. destruct Hx as [-> | Hx];
        [exact Hin | apply Hsub, Hl', Hx]. }
    split; [congruence |]. cbn [rq_sectors_sum foldr].
    fold (rq_sectors_sum l). split; lia.
Qed.

(** X24: a round of dispatch never serves a queue beyond its budget.
    For a consistent queue whose service does not exceed its budget,
    the requests that the round adds to the dispatch list are requests
    of the queue, as many as the count returned, and their sectors add
    up to no more than the budget left when the round starts. *)
Theorem bfq_dispatch_round_within_budget (jiffies now : Z) (qid : nat)
  (max_dispatch : Z) (bfqd bfqd' : bfq_data T) (n : Z) (q : bfq_queue) :
  __bfq_dispatch_requests jiffies now qid max_dispatch bfqd = Ok (n, bfqd') →
  queues bfqd !! qid = Some q →
  bfqq_drain_wf qid q →
  (∀ x, x ∈ sort_list q → 0 ≤ blk_rq_sectors x) →
  0 ≤ service (entity q) ≤ budget (entity q) →
  budget (entity q) < 2 ^ 64 →
  ∃ l,
    dispatch_list bfqd' = dispatch_list bfqd ++ l
    ∧ n = Z.of_nat (length l)
    ∧ (∀ x, x ∈ l → x ∈ sort_list q)
    ∧ rq_sectors_sum l ≤ bfq_bfqq_budget_left q.
Proof.
  intros E Hq Hwf Hsane Hsb Hb. unfold __bfq_dispatch_requests in E.
  apply bind_Ok in E. destruct E as (q0 & _ & E).
  apply bind_Ok in E. destruct E as (u & _ & E).
  apply bind_Ok in E. destruct E as ([[n1 e] d1] & E1 & E).
  destruct (bfq_dispatch_loop_within_budget _ _ _ _ _ _ _ _ _ _ E1 Hq Hwf
              Hsane Hsb Hb)
    as (q' & l & _ & Hdl & Hn & Hl & Hb' & Hs' & Hle).
  apply bind_Ok in E. destruct E as (q1 & _ & E).
  assert (Hleft : bfq_bfqq_budget_left q
                  = budget (entity q) - service (entity q)).
  { unfold bfq_bfqq_budget_left. apply u64_small. lia. }
  exists l. rewrite Hleft.
  destruct (_ || _).
  - apply bind_Ok in E. destruct E as (d2 & E2 & E).
    injection E as <- <-.
    apply bfq_bfqq_expire_post in E2.
    destruct E2 as (? & ? & ? & ? & _ & _ & _ & _ & _ & _ & Hk & _).
    destruct Hk as (Hdl2 & _). rewrite Hdl2.
    split; [exact Hdl |]. split; [lia |]. split; [exact Hl | lia].
  - injection E as <- <-.
    split; [exact Hdl |]. split; [lia |]. split; [exact Hl | lia].
Qed.

End Props.

(** * The model on concrete states *)

(** C1, on two expirations by the idle-slice timer.  The queue of
    [ex_bfqd_seeky] served 1000 sectors in 100 ms: at that rate 1249
    sectors fit in the sync timeout, fewer than its budget of 16384, so
    the queue could not have finished; the code returns [slow = 0],
    keeps TOO_IDLE and does not charge the budget.  The queue of
    [ex_bfqd_greedy] served 16000 sectors in 50 ms: 39999 sectors fit
    in the timeout, more than the budget; the code returns [slow = 1],
    turns TOO_IDLE into BUDGET_TIMEOUT and charges the full budget. *)
Theorem bfq_slow_classification_at_input :
  (bfq_slice_usecs 0 true ex_bfqd_seeky = 100000
   ∧ (bw ← bfq_slice_bw (ex_bfqq_slice 16384 1000) 100000;
      Ok (bfq_slice_expected bw 125)) = Ok 1249
   ∧ budget (entity (ex_bfqq_slice 16384 1000)) = 16384
   ∧ (∃ d, bfq_update_peak_rate 0 1%nat true ex_bfqd_seeky = Ok (false, d))
   ∧ result_blktrace (bfq_idle_slice_timer 100 0 ex_bfqd_seeky)
       = Some [LogExpire 1%nat BFQ_BFQQ_TOO_IDLE false]
   ∧ service <$> (entity <$>
       result_bfqq (bfq_idle_slice_timer 100 0 ex_bfqd_seeky) 1%nat)
       = Some 1000)
  ∧ (bfq_slice_usecs 0 true ex_bfqd_greedy = 50000
     ∧ (bw ← bfq_slice_bw (ex_bfqq_slice 16384 16000) 50000;
        Ok (bfq_slice_expected bw 125)) = Ok 39999
     ∧ (∃ d, bfq_update_peak_rate 0 1%nat true ex_bfqd_greedy
               = Ok (true, d))
     ∧ result_blktrace (bfq_idle_slice_timer 50 0 ex_bfqd_greedy)
         = Some [LogExpire 1%nat BFQ_BFQQ_BUDGET_TIMEOUT true]
     ∧ service <$> (entity <$>
         result_bfqq (bfq_idle_slice_timer 50 0 ex_bfqd_greedy) 1%nat)
         = Some 16384).
Proof.
  split.
  - split; [reflexivity |]. split; [reflexivity |]. split; [reflexivity |].
    split; [eexists; vm_compute; reflexivity |].
    split; vm_compute; reflexivity.
  - split; [reflexivity |]. split; [reflexivity |].
    split; [eexists; vm_compute; reflexivity |].
    split; vm_compute; reflexivity.
Qed.

(** C2, on [ex_bfqd_two] with an async request in the driver: the first
    round moves the request of queue 1 to the dispatch list, queue 1 is
    expired, queue 2 is selected, the guard on its idle window fires
    and the call returns 0.  Without the async request in the driver
    the same call returns 2, the number of requests moved. *)
Theorem bfq_dispatch_requests_at_input :
  rq_in_driver_async ex_bfqd_two = 1
  ∧ dispatch_list ex_bfqd_two = []
  ∧ (∃ bfqd', bfq_dispatch_requests 10 10 0 ex_bfqd_two = Ok (0, bfqd')
       ∧ dispatch_list bfqd' = [mk_rq 11 100 8 true 1]
       ∧ active_queue bfqd' = Some 2%nat
       ∧ blktrace bfqd'
           = [LogExpire 1%nat BFQ_BFQQ_NO_MORE_REQUESTS false])
  ∧ (∃ bfqd', bfq_dispatch_requests 10 10 0
                (set_rq_in_driver_async 0 ex_bfqd_two) = Ok (2, bfqd')
       ∧ dispatch_list bfqd'
           = [mk_rq 11 100 8 true 1; mk_rq 21 9000 8 true 2]).
Proof.
  split; [reflexivity |]. split; [reflexivity |]. split.
  - eexists. split; [vm_compute; reflexivity |].
    split; [reflexivity |]. split; reflexivity.
  - eexists. split; [vm_compute; reflexivity |]. reflexivity.
Qed.


(** * Witnesses

    Each property above that is stated under hypotheses, applied to one
    of the example states. *)

Lemma bfq_recalc_budget_feedback_witness :
  ∃ bfqd' bfqq',
    __bfq_bfqq_recalc_budget 1%nat BFQ_BFQQ_TOO_IDLE ex_bfqd_seeky = Ok bfqd'
    ∧ queues bfqd' !! 1%nat = Some bfqq'
    ∧ max_budget bfqq' = 12160.
Proof.
  destruct (bfq_recalc_budget_feedback ex_bfqd_seeky 1%nat
              (ex_bfqq_slice 16384 1000) BFQ_BFQQ_TOO_IDLE)
    as (d' & q' & E & Hq & Hm);
    [reflexivity | reflexivity | vm_compute; split; congruence
    | vm_compute; congruence | vm_compute; reflexivity |].
  exists d', q'. split; [exact E |]. split; [exact Hq |].
  rewrite Hm. reflexivity.
Defined.


Lemma bfq_check_fifo_once_per_slice_witness :
  head (bfq_slice_fifo_checks ex_fifo_steps ex_bfqq_fifo)
    = Some (Some (mk_rq 11 100 8 true 1))
  ∧ Forall (λ r, r = None)
      (tail (bfq_slice_fifo_checks ex_fifo_steps ex_bfqq_fifo)).
Proof.
  split; [reflexivity |].
  apply (bfq_check_fifo_once_per_slice (T := list nat) ex_fifo_steps
           ex_bfqq_fifo).
  repeat constructor; intros q Hq; exact Hq.
Defined.

Lemma bfq_arm_slice_timer_duration_witness :
  ∃ bfqd', bfq_arm_slice_timer 100 0 ex_bfqd_idle = Ok bfqd'
    ∧ idle_slice_timer bfqd' = Some 108.
Proof.
  destruct (bfq_arm_slice_timer_duration 100 0 ex_bfqd_idle)
    as (_ & _ & Harm).
  destruct (Harm 1%nat (ex_bfqq_slice 16384 1000) 1%nat
              {| nr_tasks := 1; seek_samples := 0; seek_mean := 0;
                 last_end_request := 0 |})
    as (d' & E & Ht);
    [reflexivity | reflexivity | vm_compute; discriminate | reflexivity
    | reflexivity | reflexivity | vm_compute; discriminate |].
  exists d'. split; [exact E |]. rewrite Ht. reflexivity.
Defined.


Lemma bfq_budget_new_no_timeout_witness :
  bfq_bfqq_budget_timeout 10
    (set_flag_budget_new true
       (mk_bfqq true true IOPRIO_CLASS_BE [mk_rq 21 9000 8 true 2]))
    = false.
Proof.
  apply (bfq_budget_new_no_timeout 10 0 ex_bfqd_race 2%nat
           (set_flag_budget_new true
              (mk_bfqq true true IOPRIO_CLASS_BE
                 [mk_rq 21 9000 8 true 2])));
    reflexivity.
Defined.

(** * Witnesses of the further properties *)

Lemma bfq_choose_req_symmetric_witness :
  bfq_choose_req ex_bfqd0 (Some ex_rq_far) (Some ex_rq_near)
    = bfq_choose_req ex_bfqd0 (Some ex_rq_near) (Some ex_rq_far).
Proof.
  apply (bfq_choose_req_symmetric ex_bfqd0 ex_rq_far ex_rq_near);
    vm_compute; discriminate.
Defined.

Lemma bfq_find_next_rq_other_witness :
  ∃ r, bfq_find_next_rq ex_bfqd0 ex_bfqq_fifo (mk_rq 11 100 8 true 1) = Ok r
       ∧ ∀ x, r = Some x →
              x ∈ sort_list ex_bfqq_fifo ∧ rq_id x ≠ 11%nat.
Proof.
  destruct (bfq_find_next_rq_other ex_bfqd0 ex_bfqq_fifo
              (mk_rq 11 100 8 true 1)) as (_ & Hyes).
  { apply (bool_decide_unpack _). vm_compute. exact I. }
  destruct Hyes as (r & E & Hr & _).
  { apply Exists_cons_hd. reflexivity. }
  exists r. split; [exact E | exact Hr].
Defined.

Lemma bfq_budget_timeout_after_witness :
  ∃ bfqd' q',
    bfq_set_budget_timeout (2 ^ 64 - 5) 0 ex_bfqd_seeky = Ok bfqd'
    ∧ queues bfqd' !! 1%nat = Some q'
    ∧ bfq_bfqq_budget_timeout (u64 (2 ^ 64 - 5 + 125)) q' = true.
Proof.
  destruct (bfq_budget_timeout_after (2 ^ 64 - 5) 0 125 ex_bfqd_seeky 1%nat
              (ex_bfqq_slice 16384 1000))
    as (d' & q' & E & Hq & Ht);
    [reflexivity | reflexivity | vm_compute; split; congruence
    | vm_compute; split; congruence |].
  exists d', q'. split; [exact E |]. split; [exact Hq |].
  rewrite Ht. reflexivity.
Defined.

Lemma bfq_set_active_queue_counter_witness :
  ∃ bfqd' q',
    __bfq_set_active_queue (Some 1%nat) ex_bfqd_seeky = Ok bfqd'
    ∧ queues bfqd' !! 1%nat = Some q'
    ∧ 0 < budgets_assigned q' ≤ 256.
Proof.
  destruct (bfq_set_active_queue_counter ex_bfqd_seeky 1%nat
              (ex_bfqq_slice 16384 1000))
    as (d' & q' & E & _ & Hq & Hb & Hlt & _);
    [reflexivity | vm_compute; split; congruence |].
  exists d', q'. split; [exact E |]. split; [exact Hq |].
  split; [apply Hlt; reflexivity | apply Hb].
Defined.

Lemma bfq_update_peak_rate_estimate_witness :
  ∃ slow bfqd',
    bfq_update_peak_rate 0 1%nat true ex_bfqd_seeky = Ok (slow, bfqd')
    ∧ peak_rate ex_bfqd_seeky ≤ peak_rate bfqd'
    ∧ queues bfqd' = queues ex_bfqd_seeky.
Proof.
  destruct (bfq_update_peak_rate 0 1%nat true ex_bfqd_seeky)
    as [[slow d'] | |] eqn:E; [| vm_compute in E; discriminate E ..].
  exists slow, d'. split; [reflexivity |].
  destruct (bfq_update_peak_rate_estimate 0 1%nat true ex_bfqd_seeky d' slow E)
    as (Hp & _ & _ & _ & _ & Hq & _).
  split; [exact Hp | exact Hq].
Defined.

Lemma bfq_recalc_budget_covers_next_witness :
  ∃ bfqd' q',
    __bfq_bfqq_recalc_budget 1%nat BFQ_BFQQ_BUDGET_EXHAUSTED ex_bfqd_tight
      = Ok bfqd'
    ∧ queues bfqd' !! 1%nat = Some q'
    ∧ 8 ≤ budget (entity q').
Proof.
  destruct (bfq_recalc_budget_covers_next ex_bfqd_tight 1%nat ex_bfqq_tight
              BFQ_BFQQ_BUDGET_EXHAUSTED (mk_rq 11 100 8 true 1))
    as (d' & q' & E & Hq & _ & _ & Hb);
    [reflexivity | reflexivity | reflexivity | discriminate |].
  exists d', q'. split; [exact E |]. split; [exact Hq | exact Hb].
Defined.

Lemma bfq_recalc_budget_range_witness :
  8192 ≤ max_budget (bfqq_recalc_budget ex_bfqd_seeky
                       (ex_bfqq_slice 16384 1000) BFQ_BFQQ_TOO_IDLE)
    ≤ 16384.
Proof.
  apply (bfq_recalc_budget_range ex_bfqd_seeky (ex_bfqq_slice 16384 1000)
           BFQ_BFQQ_TOO_IDLE).
  - vm_compute. split; congruence.
  - vm_compute. split; congruence.
  - discriminate.
Defined.

Lemma bfq_dispatch_requests_never_overcounts_witness :
  ∃ n bfqd',
    bfq_dispatch_requests 10 10 0 ex_bfqd_two = Ok (n, bfqd')
    ∧ 0 ≤ n
    ∧ Z.of_nat (length (dispatch_list ex_bfqd_two)) + n
        ≤ Z.of_nat (length (dispatch_list bfqd')).
Proof.
  destruct (bfq_dispatch_requests 10 10 0 ex_bfqd_two)
    as [[n d'] | |] eqn:E; [| vm_compute in E; discriminate E ..].
  exists n, d'. split; [reflexivity |].
  exact (bfq_dispatch_requests_never_overcounts 10 10 0 ex_bfqd_two d' n E).
Defined.

Lemma bfq_select_queue_active_witness :
  ∃ sel bfqd',
    bfq_select_queue 10 0 ex_bfqd_two = Ok (sel, bfqd')
    ∧ dispatch_list bfqd' = dispatch_list ex_bfqd_two
    ∧ ∀ qid, sel = Some qid → active_queue bfqd' = Some qid.
Proof.
  destruct (bfq_select_queue 10 0 ex_bfqd_two)
    as [[sel d'] | |] eqn:E; [| vm_compute in E; discriminate E ..].
  exists sel, d'. split; [reflexivity |].
  destruct (bfq_select_queue_active 10 0 ex_bfqd_two d' sel E)
    as (Hd & Hs & _).
  split; [exact Hd |]. intros qid Hq. exact (proj1 (Hs qid Hq)).
Defined.

Lemma bfq_remove_request_unlinks_witness :
  ∃ bfqd' q',
    bfq_remove_request (mk_rq 11 100 8 true 1) ex_bfqd_three = Ok bfqd'
    ∧ queues bfqd' !! 1%nat = Some q'
    ∧ bfqq_rq_wf q'
    ∧ queued bfqd' = 2.
Proof.
  destruct (bfq_remove_request (mk_rq 11 100 8 true 1) ex_bfqd_three)
    as [d' | |] eqn:E; [| vm_compute in E; discriminate E ..].
  destruct (bfq_remove_request_unlinks (mk_rq 11 100 8 true 1) ex_bfqd_three
              d' ex_bfqq_fifo E)
    as (q' & Hq & _ & _ & Hwf & _ & Hn & _).
  { reflexivity. }
  { split.
    - apply (bool_decide_unpack _). vm_compute. exact I.
    - intros x Hx. injection Hx as <-. left. }
  exists d', q'. split; [reflexivity |]. split; [exact Hq |].
  split; [exact Hwf | exact Hn].
Defined.

Lemma bfq_dispatch_insert_moves_witness :
  ∃ bfqd' q',
    bfq_dispatch_insert (mk_rq 11 100 8 true 1) ex_bfqd_three = Ok bfqd'
    ∧ queues bfqd' !! 1%nat = Some q'
    ∧ dispatched q' = 1
    ∧ dispatch_list bfqd' = [mk_rq 11 100 8 true 1].
Proof.
  destruct (bfq_dispatch_insert (mk_rq 11 100 8 true 1) ex_bfqd_three)
    as [d' | |] eqn:E; [| vm_compute in E; discriminate E ..].
  destruct (bfq_dispatch_insert_moves (mk_rq 11 100 8 true 1) ex_bfqd_three
              d' ex_bfqq_fifo E)
    as (q' & Hq & _ & Hd & Hl & _).
  { reflexivity. }
  { apply (bool_decide_unpack _). vm_compute. exact I. }
  exists d', q'. split; [reflexivity |]. split; [exact Hq |].
  split; [exact Hd | exact Hl].
Defined.

Lemma bfq_completed_request_accounts_witness :
  ∃ bfqd',
    bfq_completed_request 10 0 (mk_rq 31 64 8 false 3) ex_bfqd_two = Ok bfqd'
    ∧ rq_in_driver_async bfqd' = 0
    ∧ unplug_work bfqd' = true.
Proof.
  destruct (bfq_completed_request 10 0 (mk_rq 31 64 8 false 3) ex_bfqd_two)
    as [d' | |] eqn:E; [| vm_compute in E; discriminate E ..].
  destruct (bfq_completed_request_accounts 10 0 (mk_rq 31 64 8 false 3)
              ex_bfqd_two d'
              (set_dispatched 1 (mk_bfqq false false IOPRIO_CLASS_BE [])) E)
    as (_ & Hs & Ha & _ & Hq & _ & Hk); [reflexivity |].
  exists d'. split; [reflexivity |]. split; [exact Ha |].
  apply Hk.
  - unfold rq_in_driver. rewrite Hs, Ha. reflexivity.
  - rewrite Hq. discriminate.
Defined.

Lemma ex_bfqq_fifo_drain_wf : bfqq_drain_wf 1 ex_bfqq_fifo.
Proof.
  split; [split |].
  - apply (bool_decide_unpack _). vm_compute. exact I.
  - intros x Hx. injection Hx as <-. left.
  - split; [discriminate |]. split; [| split; [| split; reflexivity]].
    + intros x Hx. cbn in Hx.
      rewrite !elem_of_cons in Hx.
      destruct Hx as [-> | [-> | [-> | Hx]]]; try reflexivity.
      inversion Hx.
    + intros x Hx. exact Hx.
Qed.

Lemma bfq_forced_dispatch_drains_witness :
  ∃ bfqd' q',
    __bfq_forced_dispatch_bfqq 4 1 ex_bfqd_three = Ok (3, bfqd')
    ∧ queues bfqd' !! 1%nat = Some q'
    ∧ sort_list q' = []
    ∧ length (dispatch_list bfqd') = 3%nat.
Proof.
  destruct (bfq_forced_dispatch_drains 4 1 ex_bfqd_three ex_bfqq_fifo)
    as (d' & q' & l & E & Hq & Hs & _ & _ & _ & Hl & Hp & _).
  { reflexivity. }
  { exact ex_bfqq_fifo_drain_wf. }
  { cbn. lia. }
  exists d', q'. split; [exact E |]. split; [exact Hq |].
  split; [exact Hs |]. rewrite Hl, Hp. reflexivity.
Defined.

Lemma bfq_may_queue_must_once_witness :
  bfq_may_queue_answers [id; id] ex_bfqq_waiting
    = [ELV_MQUEUE_MUST; ELV_MQUEUE_MAY]
  ∧ Forall (λ r, r = ELV_MQUEUE_MAY) [ELV_MQUEUE_MAY].
Proof.
  split; [reflexivity |].
  apply (bfq_may_queue_must_once [id; id] ex_bfqq_waiting []
           [ELV_MQUEUE_MAY]).
  - repeat constructor; intros q Hq; exact Hq.
  - reflexivity.
Defined.

Lemma bfq_attr_store_show_witness :
  bfq_attr_show ATTR_slice_idle (bfq_attr_store ATTR_slice_idle 8 ex_bfqd0)
    = 8
  ∧ bfq_attr_show ATTR_quantum (bfq_attr_store ATTR_slice_idle 8 ex_bfqd0)
    = 4.
Proof.
  destruct (bfq_attr_store_show ATTR_slice_idle 8 ex_bfqd0) as (Hs & Ho).
  { intros _. reflexivity. }
  split; [exact Hs |]. rewrite Ho by discriminate. reflexivity.
Defined.

Lemma bfq_request_flight_balanced_witness :
  ∃ bfqd1 bfqd3 q3,
    bfq_dispatch_insert (mk_rq 11 100 8 true 1) ex_bfqd_three = Ok bfqd1
    ∧ bfq_completed_request 10 0 (mk_rq 11 100 8 true 1)
        (bfq_activate_request (mk_rq 11 100 8 true 1) bfqd1) = Ok bfqd3
    ∧ queues bfqd3 !! 1%nat = Some q3
    ∧ dispatched q3 = 0
    ∧ sync_flight bfqd3 = 0
    ∧ rq_in_driver_sync bfqd3 = 0.
Proof.
  destruct (bfq_dispatch_insert (mk_rq 11 100 8 true 1) ex_bfqd_three)
    as [d1 | |] eqn:E1; [| vm_compute in E1; discriminate E1 ..].
  destruct (bfq_completed_request 10 0 (mk_rq 11 100 8 true 1)
              (bfq_activate_request (mk_rq 11 100 8 true 1) d1))
    as [d3 | |] eqn:E3;
    [| exfalso; vm_compute in E1; injection E1 as <-; vm_compute in E3;
       discriminate E3 ..].
  destruct (bfq_request_flight_balanced 10 0 (mk_rq 11 100 8 true 1)
              ex_bfqd_three d1 d3 ex_bfqq_fifo E1)
    as ((q3 & Hq3 & Hd & _) & Hsf & Hrs & _).
  { reflexivity. }
  { apply (bool_decide_unpack _). vm_compute. exact I. }
  { exact E3. }
  exists d1, d3, q3. split; [reflexivity |]. split; [exact E3 |].
  split; [exact Hq3 |]. split; [exact Hd |]. split; [exact Hsf | exact Hrs].
Defined.

Lemma bfq_dispatch_round_progress_witness :
  ∃ n bfqd',
    __bfq_dispatch_requests 10 0 1%nat 4 ex_bfqd_tight = Ok (n, bfqd')
    ∧ (1 ≤ n ∨ (n = 0 ∧ active_queue bfqd' = None)).
Proof.
  destruct (__bfq_dispatch_requests 10 0 1%nat 4 ex_bfqd_tight)
    as [[n d'] | |] eqn:E; [| vm_compute in E; discriminate E ..].
  exists n, d'. split; [reflexivity |].
  destruct (bfq_dispatch_round_progress 10 0 1%nat 4 ex_bfqd_tight d' n E)
    as [Hn | (Hn & _ & Ha & _)]; [left; exact Hn | right; auto].
Defined.

Lemma bfq_update_io_stats_weights_witness :
  (∃ st',
     bfq_update_io_thinktime 10 ex_bfqd0
       {| nr_tasks := 1; seek_samples := 0; seek_mean := 0;
          last_end_request := 0 |}
       {| ttime_total := 0; ttime_samples := 0; ttime_mean := 0;
          seek_total := 0; last_request_pos := 0 |} = Ok st'
     ∧ ttime_samples st' = 32)
  ∧ (∃ cic' st',
       bfq_update_io_seektime ex_rq_far
         {| nr_tasks := 1; seek_samples := 0; seek_mean := 0;
            last_end_request := 0 |}
         {| ttime_total := 0; ttime_samples := 0; ttime_mean := 0;
            seek_total := 0; last_request_pos := 0 |} = Ok (cic', st')
       ∧ seek_samples cic' = 32).
Proof.
  destruct (bfq_update_io_stats_weights 10 ex_bfqd0 ex_rq_far
              {| nr_tasks := 1; seek_samples := 0; seek_mean := 0;
                 last_end_request := 0 |}
              {| ttime_total := 0; ttime_samples := 0; ttime_mean := 0;
                 seek_total := 0; last_request_pos := 0 |})
    as ((st1 & E1 & _) & (cic2 & st2 & E2 & _));
    [vm_compute; split; congruence | vm_compute; split; congruence |].
  split.
  - exists st1. split; [exact E1 |].
    vm_compute in E1. injection E1 as <-. reflexivity.
  - exists cic2, st2. split; [exact E2 |].
    vm_compute in E2. injection E2 as <- <-. reflexivity.
Defined.

Lemma bfq_default_budget_young_witness :
  ∃ bfqd' q',
    bfq_activations 11 1 ex_bfqd_seeky = Ok bfqd'
    ∧ queues bfqd' !! 1%nat = Some q'
    ∧ 194 ≤ budgets_assigned q'.
Proof.
  destruct (bfq_default_budget_young 11 ex_bfqd_seeky 1
              (ex_bfqq_slice 16384 1000))
    as (d' & q' & E & Hq & Hiff & _); [reflexivity | reflexivity |].
  exists d', q'. split; [exact E |]. split; [exact Hq |].
  apply Hiff. lia.
Defined.

Lemma bfq_dispatch_round_within_budget_witness :
  ∃ n bfqd' l,
    __bfq_dispatch_requests 10 0 1%nat 4 ex_bfqd_three = Ok (n, bfqd')
    ∧ dispatch_list bfqd' = dispatch_list ex_bfqd_three ++ l
    ∧ n = Z.of_nat (length l)
    ∧ rq_sectors_sum l ≤ 12288.
Proof.
  destruct (__bfq_dispatch_requests 10 0 1%nat 4 ex_bfqd_three)
    as [[n d'] | |] eqn:E; [| vm_compute in E; discriminate E ..].
  destruct (bfq_dispatch_round_within_budget 10 0 1%nat 4 ex_bfqd_three d' n
              ex_bfqq_fifo E)
    as (l & Hdl & Hn & _ & Hsum).
  { reflexivity. }
  { exact ex_bfqq_fifo_drain_wf. }
  { intros x Hx. cbn in Hx. rewrite !elem_of_cons in Hx.
    destruct Hx as [-> | [-> | [-> | Hx]]];
      [vm_compute; congruence .. | inversion Hx]. }
  { vm_compute. split; congruence. }
  { reflexivity. }
  exists n, d', l. split; [reflexivity |]. split; [exact Hdl |].
  split; [exact Hn | exact Hsum].
Defined.

